(** * The debug route handlers: prompt building, model fallback and
      result recovery

    A shallow embedding of the two [POST] handlers of the debugging
    agent (the Gemini handler with its model-fallback loop, and the
    multi-provider handler) together with the part of the JavaScript
    runtime they rely on: strings of UTF-16 code units, [JSON.parse],
    the two regular expressions used to dig a JSON object out of a
    free-form answer, truthiness and property reads, and what
    [JSON.stringify] writes of a result. *)

From Stdlib Require Import ZArith NArith List String Ascii Bool Lia.
From Stdlib Require Import DecimalString.
Import ListNotations.

Set Implicit Arguments.

(* ================================================================= *)
(** ** JavaScript strings *)

(** A JavaScript string is a finite sequence of 16-bit code units; the
    code units are kept as [N]. *)
Definition jsstring := list N.

(** A literal of the source, given as a Rocq string of ASCII characters. *)
Definition js (s : string) : jsstring :=
  map N_of_ascii (list_ascii_of_string s).

(** The same, with every apostrophe standing for a double quote
    (used to write JSON texts). *)
Definition jsq (s : string) : jsstring :=
  map (fun c => if N.eqb c 39 then 34%N else c) (js s).

Definition dquote : jsstring := [34%N].

Fixpoint str_eqb (a b : jsstring) : bool :=
  match a, b with
  | [], [] => true
  | x :: a', y :: b' => N.eqb x y && str_eqb a' b'
  | _, _ => false
  end.

(** [s.startsWith(p)] *)
Fixpoint startsWith (s p : jsstring) {struct p} : bool :=
  match p, s with
  | [], _ => true
  | _ :: _, [] => false
  | x :: p', c :: s' => N.eqb x c && startsWith s' p'
  end.

(** [s.includes(sub)] *)
Fixpoint includes (s sub : jsstring) : bool :=
  startsWith s sub ||
  match s with
  | [] => false
  | _ :: s' => includes s' sub
  end.

(** WhiteSpace and LineTerminator code units of ECMAScript: what
    [String.prototype.trim] strips and what [\s] matches. *)
Definition isWhiteSpace (c : N) : bool :=
  existsb (N.eqb c)
    [9; 10; 11; 12; 13; 32; 160; 5760; 8232; 8233; 8239; 8287; 12288; 65279]%N
  || (N.leb 8192 c && N.leb c 8202).

Fixpoint trimStart (s : jsstring) : jsstring :=
  match s with
  | c :: s' => if isWhiteSpace c then trimStart s' else s
  | [] => []
  end.

(** [s.trim()] *)
Definition trim (s : jsstring) : jsstring :=
  rev (trimStart (rev (trimStart s))).

(** The decimal numeral of a non-negative integer, as template
    literals print it. *)
Definition numeral (n : N) : jsstring :=
  js (NilEmpty.string_of_uint (N.to_uint n)).

(* ================================================================= *)
(** ** JSON values *)

(** A number literal is kept exactly, as [(-1)^neg * mantissa * 10^exp10];
    the only thing the handlers ever ask of a number is whether it is
    zero once converted to a double. *)
Record JSNumber := mkNumber
  { num_neg : bool; num_mantissa : N; num_exp10 : Z }.

#[warnings="-register-all"]
Inductive JSValue :=
| JNull
| JBool (b : bool)
| JNum (n : JSNumber)
| JStr (s : jsstring)
| JArr (elems : list JSValue)
| JObj (members : list (jsstring * JSValue)).

(** A decimal converts to the double zero when it is zero or lies
    within half the least subnormal, [2^-1075], of zero. *)
Definition numberIsZero (n : JSNumber) : bool :=
  N.eqb (num_mantissa n) 0
  || (Z.ltb (num_exp10 n) 0
      && N.leb (num_mantissa n * 2 ^ 1075) (10 ^ Z.to_N (- num_exp10 n))).

(** A decimal converts to an infinite double when its magnitude is at
    least [2^1024 - 2^970], half way between the largest double and
    [2^1024]. *)
Definition numberIsInfinite (n : JSNumber) : bool :=
  let limit := (2 ^ 1024 - 2 ^ 970)%N in
  if Z.ltb (num_exp10 n) 0
  then N.leb (limit * 10 ^ Z.to_N (- num_exp10 n)) (num_mantissa n)
  else N.leb limit (num_mantissa n * 10 ^ Z.to_N (num_exp10 n)).

(** ToBoolean on a parsed value. *)
Definition truthy (v : JSValue) : bool :=
  match v with
  | JNull => false
  | JBool b => b
  | JNum n => negb (numberIsZero n)
  | JStr s => match s with [] => false | _ => true end
  | JArr _ | JObj _ => true
  end.

(** The own property [key] of an object built by [JSON.parse]: a later
    member overwrites an earlier one with the same key. *)
Fixpoint lookup (key : jsstring) (members : list (jsstring * JSValue))
  : option JSValue :=
  match members with
  | [] => None
  | (k, v) :: rest =>
      match lookup key rest with
      | Some w => Some w
      | None => if str_eqb k key then Some v else None
      end
  end.

(* ================================================================= *)
(** ** JSON.parse *)

(** *** Lexical grammar *)

Inductive token :=
| TLBrace | TRBrace | TLBracket | TRBracket | TColon | TComma
| TString (s : jsstring)
| TNumber (n : JSNumber)
| TTrue | TFalse | TNull.

(** JSONWhiteSpace: tab, line feed, carriage return, space. *)
Definition isJSONWhiteSpace (c : N) : bool :=
  existsb (N.eqb c) [9; 10; 13; 32]%N.

Definition isDigit (c : N) : bool := N.leb 48 c && N.leb c 57.

(** The code units a JSONNumber is made of: digits, [+], [-], [.],
    [e] and [E]. *)
Definition isNumberChar (c : N) : bool :=
  isDigit c || existsb (N.eqb c) [43; 45; 46; 101; 69]%N.

Definition hexValue (c : N) : option N :=
  if isDigit c then Some (c - 48)%N
  else if N.leb 97 c && N.leb c 102 then Some (c - 87)%N
  else if N.leb 65 c && N.leb c 70 then Some (c - 55)%N
  else None.

Definition hex4 (a b c d : N) : option N :=
  match hexValue a, hexValue b, hexValue c, hexValue d with
  | Some x, Some y, Some z, Some w => Some (((x * 16 + y) * 16 + z) * 16 + w)%N
  | _, _, _, _ => None
  end.

(** JSONEscapeCharacter: the double quote, the solidus, the reverse
    solidus, or one of [b f n r t]. *)
Definition simpleEscape (c : N) : option N :=
  if N.eqb c 34 then Some 34%N
  else if N.eqb c 47 then Some 47%N
  else if N.eqb c 92 then Some 92%N
  else if N.eqb c 98 then Some 8%N
  else if N.eqb c 102 then Some 12%N
  else if N.eqb c 110 then Some 10%N
  else if N.eqb c 114 then Some 13%N
  else if N.eqb c 116 then Some 9%N
  else None.

Fixpoint spanDigits (s : jsstring) : jsstring * jsstring :=
  match s with
  | c :: s' =>
      if isDigit c then let (ds, r) := spanDigits s' in (c :: ds, r)
      else ([], s)
  | [] => ([], [])
  end.

Definition digitsValue (ds : jsstring) : N :=
  fold_left (fun acc d => (10 * acc + (d - 48))%N) ds 0%N.

(** JSONNumber ::: [-]opt DecimalIntegerLiteral JSONFraction_opt
    ExponentPart_opt, on a whole run of number characters. *)
Definition parseNumber (s : jsstring) : option JSNumber :=
  let (neg, s1) :=
    match s with
    | c :: r => if N.eqb c 45 then (true, r) else (false, s)
    | [] => (false, s)
    end in
  let (ip, s2) := spanDigits s1 in
  match ip with
  | [] => None
  | d :: more =>
      if N.eqb d 48 && negb (Nat.eqb (List.length more) 0) then None
      else
        let frac :=
          match s2 with
          | c :: r =>
              if N.eqb c 46 then
                let (fp, r') := spanDigits r in
                match fp with [] => None | _ => Some (fp, r') end
              else Some ([], s2)
          | [] => Some ([], s2)
          end in
        match frac with
        | None => None
        | Some (fp, s3) =>
            let mant := digitsValue (ip ++ fp) in
            let scale := (- Z.of_nat (List.length fp))%Z in
            match s3 with
            | [] => Some (mkNumber neg mant scale)
            | c :: r =>
                if N.eqb c 101 || N.eqb c 69 then
                  let (eneg, r1) :=
                    match r with
                    | sg :: r' =>
                        if N.eqb sg 45 then (true, r')
                        else if N.eqb sg 43 then (false, r')
                        else (false, r)
                    | [] => (false, r)
                    end in
                  let (ep, r2) := spanDigits r1 in
                  match ep, r2 with
                  | _ :: _, [] =>
                      let e := Z.of_N (digitsValue ep) in
                      Some (mkNumber neg mant
                              (scale + if eneg then - e else e)%Z)
                  | _, _ => None
                  end
                else None
            end
        end
  end.

Definition consToken (t : token) (ts : option (list token))
  : option (list token) :=
  match ts with Some l => Some (t :: l) | None => None end.

Definition consNumber (run : jsstring) (ts : option (list token))
  : option (list token) :=
  match parseNumber run with
  | Some n => consToken (TNumber n) ts
  | None => None
  end.

(** The token sequence of a JSON text, or [None] where the text does
    not follow the lexical grammar.  A number is read as the longest run
    of number characters: no production of the syntactic grammar lets
    two such runs follow one another, so splitting a run would not make
    a text valid. *)
Fixpoint tokenize (s : jsstring) : option (list token) :=
  match s with
  | [] => Some []
  | c :: rest =>
      if isJSONWhiteSpace c then tokenize rest
      else if N.eqb c 123 then consToken TLBrace (tokenize rest)
      else if N.eqb c 125 then consToken TRBrace (tokenize rest)
      else if N.eqb c 91 then consToken TLBracket (tokenize rest)
      else if N.eqb c 93 then consToken TRBracket (tokenize rest)
      else if N.eqb c 58 then consToken TColon (tokenize rest)
      else if N.eqb c 44 then consToken TComma (tokenize rest)
      else if N.eqb c 34 then
        (fix inString (acc r : jsstring) {struct r} : option (list token) :=
           match r with
           | [] => None
           | ch :: r1 =>
               if N.eqb ch 34 then consToken (TString (rev acc)) (tokenize r1)
               else if N.eqb ch 92 then
                 match r1 with
                 | [] => None
                 | e :: r2 =>
                     if N.eqb e 117 then
                       match r2 with
                       | h1 :: h2 :: h3 :: h4 :: r3 =>
                           match hex4 h1 h2 h3 h4 with
                           | Some u => inString (u :: acc) r3
                           | None => None
                           end
                       | _ => None
                       end
                     else
                       match simpleEscape e with
                       | Some u => inString (u :: acc) r2
                       | None => None
                       end
                 end
               else if N.ltb ch 32 then None
               else inString (ch :: acc) r1
           end) [] rest
      else if isNumberChar c then
        (fix inNumber (acc r : jsstring) {struct r} : option (list token) :=
           match r with
           | [] => consNumber (rev acc) (Some [])
           | ch :: r1 =>
               if isNumberChar ch then inNumber (ch :: acc) r1
               else consNumber (rev acc) (tokenize r)
           end) [c] rest
      else
        match rest with
        | c2 :: c3 :: c4 :: r4 =>
            if str_eqb [c; c2; c3; c4] (js "true")
            then consToken TTrue (tokenize r4)
            else if str_eqb [c; c2; c3; c4] (js "null")
            then consToken TNull (tokenize r4)
            else
              match r4 with
              | c5 :: r5 =>
                  if str_eqb [c; c2; c3; c4; c5] (js "false")
                  then consToken TFalse (tokenize r5)
                  else None
              | [] => None
              end
        | _ => None
        end
  end.

(** *** Syntactic grammar *)

(** A container whose closing bracket has not been read yet: an array
    with the elements read so far, or an object with the members read so
    far and the key whose value is being read (both latest first). *)
#[warnings="-register-all"]
Inductive frame :=
| FArr (done : list JSValue)
| FObj (done : list (jsstring * JSValue)) (key : jsstring).

Inductive pstate :=
| PValue (stk : list frame)
| PArrayStart (stk : list frame)
| PObjectStart (stk : list frame)
| PKey (done : list (jsstring * JSValue)) (stk : list frame)
| PColon (done : list (jsstring * JSValue)) (key : jsstring) (stk : list frame)
| PAfter (v : JSValue) (stk : list frame)
| PError.

(** What a token may do where a JSONValue is expected. *)
Definition stepValue (stk : list frame) (t : token) : pstate :=
  match t with
  | TNull => PAfter JNull stk
  | TTrue => PAfter (JBool true) stk
  | TFalse => PAfter (JBool false) stk
  | TNumber n => PAfter (JNum n) stk
  | TString s => PAfter (JStr s) stk
  | TLBracket => PArrayStart stk
  | TLBrace => PObjectStart stk
  | TRBrace | TRBracket | TColon | TComma => PError
  end.

Definition step (st : pstate) (t : token) : pstate :=
  match st with
  | PValue stk => stepValue stk t
  | PArrayStart stk =>
      match t with
      | TRBracket => PAfter (JArr []) stk
      | _ => stepValue (FArr [] :: stk) t
      end
  | PObjectStart stk =>
      match t with
      | TRBrace => PAfter (JObj []) stk
      | TString k => PColon [] k stk
      | _ => PError
      end
  | PKey done stk =>
      match t with
      | TString k => PColon done k stk
      | _ => PError
      end
  | PColon done k stk =>
      match t with
      | TColon => PValue (FObj done k :: stk)
      | _ => PError
      end
  | PAfter v stk =>
      match stk, t with
      | FArr done :: stk', TComma => PValue (FArr (v :: done) :: stk')
      | FArr done :: stk', TRBracket => PAfter (JArr (rev (v :: done))) stk'
      | FObj done k :: stk', TComma => PKey ((k, v) :: done) stk'
      | FObj done k :: stk', TRBrace =>
          PAfter (JObj (rev ((k, v) :: done))) stk'
      | _, _ => PError
      end
  | PError => PError
  end.

(** [JSON.parse(text)]: the parsed value, or [None] where a
    [SyntaxError] is thrown. *)
Definition JSON_parse (text : jsstring) : option JSValue :=
  match tokenize text with
  | None => None
  | Some ts =>
      match fold_left step ts (PValue []) with
      | PAfter v [] => Some v
      | _ => None
      end
  end.

(* ================================================================= *)
(** ** JSON.stringify, on values built by JSON.parse *)

(** A property key that is an array index: the canonical numeral of an
    integer below [2^32 - 1]. *)
Definition arrayIndex (key : jsstring) : option N :=
  match key with
  | [] => None
  | c :: rest =>
      if forallb isDigit key
         && (negb (N.eqb c 48) || match rest with [] => true | _ => false end)
         && N.ltb (digitsValue key) (2 ^ 32 - 1)
      then Some (digitsValue key)
      else None
  end.

(** The keys, each once, in the order of their first occurrence. *)
Fixpoint distinctKeys (keys seen : list jsstring) : list jsstring :=
  match keys with
  | [] => []
  | k :: rest =>
      if existsb (str_eqb k) seen then distinctKeys rest seen
      else k :: distinctKeys rest (k :: seen)
  end.

Fixpoint insertByIndex (i : N) (k : jsstring) (l : list (N * jsstring))
  : list (N * jsstring) :=
  match l with
  | [] => [(i, k)]
  | (j, k') :: rest =>
      if N.ltb i j then (i, k) :: l else (j, k') :: insertByIndex i k rest
  end.

(** The own property keys of the object built from a member list, in
    the order in which they are enumerated: the array indices in
    ascending order, then the other keys in the order in which they
    were created. *)
Definition ownKeys (members : list (jsstring * JSValue)) : list jsstring :=
  let keys := distinctKeys (map fst members) [] in
  let indices :=
    fold_right (fun k acc =>
                  match arrayIndex k with
                  | Some i => insertByIndex i k acc
                  | None => acc
                  end) [] keys in
  map snd indices
  ++ filter (fun k => match arrayIndex k with
                      | Some _ => false
                      | None => true
                      end) keys.

(** The own properties, each key with the value it ends up with. *)
Definition ownProperties (members : list (jsstring * JSValue))
  : list (jsstring * JSValue) :=
  flat_map (fun k => match lookup k members with
                     | Some v => [(k, v)]
                     | None => []
                     end) (ownKeys members).

(** The value that the text [JSON.stringify(v)] denotes, for [v] built
    by [JSON.parse]: an infinite number is written as null and either
    zero as 0; an object is written property by property.  A finite
    number is kept as the decimal it was read from, which stands for
    the same double as the numeral that is written; strings, booleans
    and null are written as they are. *)
Fixpoint serialized (v : JSValue) : JSValue :=
  match v with
  | JNull | JBool _ | JStr _ => v
  | JNum n =>
      if numberIsInfinite n then JNull
      else if numberIsZero n then JNum (mkNumber false 0 0)
      else v
  | JArr elems => JArr (map serialized elems)
  | JObj members =>
      JObj (ownProperties
              (map (fun kv => let '(k, w) := kv in (k, serialized w)) members))
  end.

(* ================================================================= *)
(** ** Regular expressions *)

(** The fragment of the pattern language the handlers use: one code
    unit from a class, sequencing, a greedy optional group, a greedy
    star over a class, and the capturing group number one. *)
Inductive regex :=
| RClass (p : N -> bool)
| RSeq (a b : regex)
| ROpt (a : regex)
| RStar (p : N -> bool)
| RGroup (a : regex)
| REmpty.

(** A literal run of code units. *)
Fixpoint RLit (s : jsstring) : regex :=
  match s with
  | [] => REmpty
  | c :: s' => RSeq (RClass (N.eqb c)) (RLit s')
  end.

(** The star of a class first takes as many code units as it can, and
    gives them back one at a time while the continuation fails. *)
Fixpoint starClass (A : Type) (p : N -> bool) (s : jsstring)
    (k : jsstring -> option A) : option A :=
  match s with
  | c :: s' =>
      if p c then
        match starClass p s' k with
        | Some x => Some x
        | None => k s
        end
      else k s
  | [] => k s
  end.

(** Backtracking matcher in continuation style: [cap] is the text of
    group one so far, [s] what is left of the input. *)
Fixpoint exec (A : Type) (r : regex) (cap : option jsstring) (s : jsstring)
    (k : option jsstring -> jsstring -> option A) : option A :=
  match r with
  | RClass p =>
      match s with
      | c :: s' => if p c then k cap s' else None
      | [] => None
      end
  | RSeq a b => exec a cap s (fun cap' s' => exec b cap' s' k)
  | ROpt a =>
      match exec a cap s k with
      | Some x => Some x
      | None => k cap s
      end
  | RStar p => starClass p s (k cap)
  | RGroup a =>
      exec a cap s
        (fun _ s' =>
           k (Some (firstn (List.length s - List.length s') s)) s')
  | REmpty => k cap s
  end.

(** The result of a successful match: the matched text (index 0) and
    the text of group one (index 1, [None] for undefined). *)
Record MatchResult := mkMatch
  { match0 : jsstring; match1 : option jsstring }.

Definition matchAt (r : regex) (s : jsstring) : option MatchResult :=
  exec r None s
    (fun cap s' =>
       Some (mkMatch (firstn (List.length s - List.length s') s) cap)).

(** [s.match(r)] for a pattern without the global flag: the match at
    the leftmost position that has one, or [None] for null. *)
Fixpoint strMatch (r : regex) (s : jsstring) : option MatchResult :=
  match matchAt r s with
  | Some m => Some m
  | None =>
      match s with
      | [] => None
      | _ :: s' => strMatch r s'
      end
  end.

Definition anyChar (c : N) : bool := true.

(** The brace span [\{[\s\S]*\}]. *)
Definition braceSpan : regex :=
  RSeq (RClass (N.eqb 123)) (RSeq (RStar anyChar) (RClass (N.eqb 125))).

(** The fenced block: three backticks, [(?:json)?], [\s*], the brace
    span as group one, [\s*], three backticks. *)
Definition fencedBlock : regex :=
  RSeq (RLit (js "```"))
    (RSeq (ROpt (RLit (js "json")))
       (RSeq (RStar isWhiteSpace)
          (RSeq (RGroup braceSpan)
             (RSeq (RStar isWhiteSpace) (RLit (js "```")))))).

(* ================================================================= *)
(** ** Errors, the runtime, requests and responses *)

(** What the handlers read of a value thrown by the SDK or by [fetch]:
    [e?.message], [e?.status] and [e?.stack], each possibly undefined. *)
Record JSError := mkError
  { message : option jsstring;
    status : option Z;
    stack : option jsstring }.

(** A value thrown while a handler runs. *)
Inductive Thrown :=
| SyntaxErrorIn (text : jsstring)   (* [JSON.parse(text)] failed *)
| TypeErrorNull (prop : jsstring)   (* [null.prop] was read *)
| NewError (msg : jsstring)         (* [throw new Error(msg)] *)
| External (e : JSError).           (* thrown by the SDK or by [fetch] *)

(** What the handlers leave to the engine and to Node's [Buffer]: the
    two decodings of an uploaded file, and the wording and stacks of the
    errors the engine creates. *)
Class Runtime := mkRuntime
  { toUtf8 : list Byte.byte -> jsstring;
    toBase64 : list Byte.byte -> jsstring;
    syntaxErrorMessage : jsstring -> jsstring;
    typeErrorMessage : jsstring -> jsstring;
    engineStack : Thrown -> option jsstring }.

Section WithRuntime.
Context {RT : Runtime}.

Definition messageOf (t : Thrown) : option jsstring :=
  match t with
  | SyntaxErrorIn text => Some (syntaxErrorMessage text)
  | TypeErrorNull prop => Some (typeErrorMessage prop)
  | NewError msg => Some msg
  | External e => message e
  end.

Definition stackOf (t : Thrown) : option jsstring :=
  match t with
  | External e => stack e
  | _ => engineStack t
  end.

End WithRuntime.

(** [s || d] on a string that may be undefined: the empty string is
    falsy as well. *)
Definition orString (s : option jsstring) (d : jsstring) : jsstring :=
  match s with
  | Some (c :: r) => c :: r
  | _ => d
  end.

Definition isSet (s : option jsstring) : bool :=
  match s with
  | Some (_ :: _) => true
  | _ => false
  end.

(** [a || b] on two strings that may be undefined. *)
Definition orOption (a b : option jsstring) : option jsstring :=
  if isSet a then a else b.

(** An uploaded [File] whose content can be read: its declared media
    type, its name and its bytes. *)
Record File := mkFile
  { file_type : jsstring;
    file_name : jsstring;
    file_bytes : list Byte.byte }.

(** The two fields the handlers read off the form data. *)
Record FormData := mkForm
  { file : option File;
    code : option jsstring }.

(** The environment variables the handlers read. *)
Record Env := mkEnv
  { GEMINI_API_KEY : option jsstring;
    GOOGLE_API_KEY : option jsstring;
    GEMINI_KEY : option jsstring;
    NODE_ENV : option jsstring;
    AI_PROVIDER : option jsstring;
    OLLAMA_URL : option jsstring;
    GROQ_API_KEY : option jsstring }.

(** A part of a multimodal prompt. *)
Inductive Part :=
| InlineData (data mimeType : jsstring)
| Text (text : jsstring).

(** The object returned on success.  Each field holds whatever value
    the [||] chain selected. *)
Record DebugResult := mkResult
  { errorExplanation : JSValue;
    reasoning : JSValue;
    fixedCode : JSValue }.

(** What is handed to [NextResponse.json], and what a body holds. *)
Inductive Body :=
| ResultBody (d : DebugResult)
| ErrorBody (error : jsstring) (details : option jsstring).

(** A response, as its reader finds it: the value its body denotes, and
    the status. *)
Record Response := mkResponse
  { body : Body;
    statusCode : Z }.

(** The body that [NextResponse.json] writes: the three values of a
    result go through [JSON.stringify]; the text of an error is a
    string, written as it is, and [details] is left out when it is
    undefined. *)
Definition serializedBody (b : Body) : Body :=
  match b with
  | ResultBody d =>
      ResultBody {| errorExplanation := serialized (errorExplanation d);
                    reasoning := serialized (reasoning d);
                    fixedCode := serialized (fixedCode d) |}
  | ErrorBody error details => ErrorBody error details
  end.

(** [NextResponse.json(body)] and [NextResponse.json(body, { status })] *)
Definition json (b : Body) : Response := mkResponse (serializedBody b) 200.
Definition jsonStatus (b : Body) (st : Z) : Response :=
  mkResponse (serializedBody b) st.

Definition nl : jsstring := [10%N].

Fixpoint join (sep : jsstring) (l : list jsstring) : jsstring :=
  match l with
  | [] => []
  | [x] => x
  | x :: rest => x ++ sep ++ join sep rest
  end.

(** How a [model.generateContent(parts)] call ends: with a response
    whose [text()] is given, or with a thrown error. *)
Inductive GenResult :=
| Responded (text : jsstring)
| Rejected (e : JSError).

(* ================================================================= *)
(** ** Text shared by the two handlers *)

Definition systemPromptCommon : jsstring :=
  js "You are an expert code debugging assistant. When given code or error messages, you should:
1. Identify the error clearly
2. Explain why the error occurred
3. Provide a corrected version of the code

IMPORTANT: You MUST respond ONLY with valid JSON. Do not include any markdown, code blocks, or explanatory text outside the JSON.

Respond with a JSON object containing these exact keys:
- errorExplanation: A clear explanation of what the error is
- reasoning: A brief explanation of why the error happened
- fixedCode: The corrected code (if applicable, otherwise explain the fix)

Example format:
" ++ jsq "{'errorExplanation':'...','reasoning':'...','fixedCode':'...'}".

(** The instruction that goes with an image. *)
Definition imageInstruction : jsstring :=
  js "Please analyze this image for code errors. Identify any errors, explain why they occurred, and provide fixed code if applicable. Respond in JSON format with errorExplanation, reasoning, and fixedCode fields.".

(** The instruction that embeds a text: the content of a text file, or
    the pasted code. *)
Definition codeInstruction (text : jsstring) : jsstring :=
  js "Please analyze this code for errors:" ++ nl ++ nl ++ text ++ nl ++ nl
  ++ js "Identify any errors, explain why they occurred, and provide fixed code. Respond in JSON format with errorExplanation, reasoning, and fixedCode fields.".

(** [code && code.trim()] as a condition. *)
Definition nonBlank (code : option jsstring) : bool :=
  match code with
  | Some (c :: r) => match trim (c :: r) with [] => false | _ => true end
  | _ => false
  end.

(** The size limit of an upload of the given media type. *)
Definition maxSize (fileType : jsstring) : Z :=
  if startsWith fileType (js "image/") then 10 * 1024 * 1024 else 1024 * 1024.

Definition tooLargeMessage (fileType : jsstring) : jsstring :=
  js "File is too large. Maximum size: "
  ++ numeral (Z.to_N (maxSize fileType / 1024 / 1024)) ++ js "MB".

Definition tooLarge (fileType : jsstring) : Response :=
  jsonStatus (ErrorBody (tooLargeMessage fileType) None) 400.

Definition noInput : Response :=
  jsonStatus (ErrorBody (js "Please provide either code or a file") None) 400.

(* ================================================================= *)
(** ** Result recovery (the same text in both handlers) *)

(** [result.key] *)
Definition getProp (result : JSValue) (key : jsstring)
  : Thrown + option JSValue :=
  match result with
  | JNull => inl (TypeErrorNull key)
  | JObj members => inr (lookup key members)
  | JBool _ | JNum _ | JStr _ | JArr _ => inr None
  end.

(** [a || b], where [a] may be undefined. *)
Definition orElse (a : option JSValue) (b : JSValue) : JSValue :=
  match a with
  | Some v => if truthy v then v else b
  | None => b
  end.

(** The [try { JSON.parse } catch { ... }] block: the candidate
    [result], or what the block throws. *)
Definition parseContent (content : jsstring) : Thrown + JSValue :=
  match JSON_parse content with
  | Some v => inr v
  | None =>
      let jsonMatch :=
        match strMatch fencedBlock content with
        | Some m => Some m
        | None => strMatch braceSpan content
        end in
      match jsonMatch with
      | Some m =>
          let text := orString (match1 m) (match0 m) in
          match JSON_parse text with
          | Some v => inr v
          | None => inl (SyntaxErrorIn text)
          end
      | None =>
          inr (JObj [ (js "errorExplanation", JStr content);
                      (js "reasoning", JStr (js "AI analysis completed"));
                      (js "fixedCode", JStr (js "See explanation above")) ])
      end
  end.

Definition noExplanation : jsstring := js "No error explanation provided".
Definition noReasoning : jsstring := js "No reasoning provided".
Definition noFixedCode : jsstring := js "No fixed code provided".

(** The object literal bound to [debugResult].  The first property
    read throws when [result] is null; on every other value all seven
    reads succeed. *)
Definition debugResult (result : JSValue) : Thrown + DebugResult :=
  match getProp result (js "errorExplanation") with
  | inl t => inl t
  | inr _ =>
      let get (key : string) :=
        match getProp result (js key) with
        | inr v => v
        | inl _ => None
        end in
      inr {| errorExplanation :=
               orElse (get "errorExplanation"%string)
                 (orElse (get "explanation"%string) (JStr noExplanation));
             reasoning :=
               orElse (get "reasoning"%string)
                 (orElse (get "reason"%string) (JStr noReasoning));
             fixedCode :=
               orElse (get "fixedCode"%string)
                 (orElse (get "code"%string)
                    (orElse (get "correctedCode"%string) (JStr noFixedCode))) |}
  end.

(** From the backend's text to the returned object. *)
Definition recover (content : jsstring) : Thrown + DebugResult :=
  match parseContent content with
  | inl t => inl t
  | inr result => debugResult result
  end.

(* ================================================================= *)
(** ** The Gemini handler, with its model-fallback loop *)

Module GeminiRoute.

(** One [model.generateContent(parts)] call. *)
Record Call := mkCall
  { call_model : jsstring;
    call_parts : list Part }.

(** The Gemini service as the handler meets it: what a call returns,
    given the key the client was built with.  A request calls each
    model name at most once, so a function of the call loses nothing. *)
Definition Backend := jsstring -> Call -> GenResult.

Definition systemPrompt : jsstring :=
  systemPromptCommon ++ nl ++ nl
  ++ js "If the input is an image, analyze it carefully for code or error messages.".

Definition modelNamesToTry : list jsstring :=
  [ js "gemini-1.5-flash"; js "gemini-1.5-pro"; js "gemini-pro" ].

Definition missingKeyMessage : jsstring :=
  js "Gemini API key is not configured. 
Please create a .env.local file in the root directory with:
GEMINI_API_KEY=your_api_key_here

Then restart your dev server (npm run dev).

Get your API key from: https://makersuite.google.com/app/apikey".

(** [getGeminiClient()]: the key the client is built with, or the
    error thrown.  The two warnings go to the console only. *)
Definition getGeminiClient (env : Env) : Thrown + jsstring :=
  match GEMINI_API_KEY env with
  | Some (c :: r) => inr (c :: r)
  | _ =>
      match orOption (GOOGLE_API_KEY env) (GEMINI_KEY env) with
      | Some (c :: r) => inr (c :: r)
      | _ => inl (NewError missingKeyMessage)
      end
  end.

Definition isDevelopment (env : Env) : bool :=
  match NODE_ENV env with
  | Some s => str_eqb s (js "development")
  | None => false
  end.

(** The test of the catch block: the message mentions [not found] or
    [404]. *)
Definition mentionsNotFound (errorMessage : jsstring) : bool :=
  includes errorMessage (js "not found") || includes errorMessage (js "404").

Definition helpfulMessage (names : list jsstring) (errorMessage : jsstring)
  : jsstring :=
  if mentionsNotFound errorMessage then
    js "None of the available Gemini models worked with your API key.
          
Tried models: " ++ join (js ", ") names ++ js "

This usually means:
1. Your API key doesn't have access to these models
2. The Generative Language API is not enabled in your Google Cloud project
3. Your API key may be restricted

Please:
- Check your API key at: https://makersuite.google.com/app/apikey
- Enable " ++ dquote ++ js "Generative Language API" ++ dquote
    ++ js " in Google Cloud Console
- Verify your API key has the correct permissions

Original error: " ++ errorMessage
  else errorMessage.

(** The response returned from inside the catch block. *)
Definition geminiErrorResponse (env : Env) (names : list jsstring)
    (geminiError : JSError) : Response :=
  let errorMessage := orString (message geminiError) (js "Gemini API error") in
  let errorStatus :=
    match status geminiError with
    | Some 0%Z | None => 500%Z
    | Some st => st
    end in
  jsonStatus
    (ErrorBody (js "Gemini API error: " ++ helpfulMessage names errorMessage)
       (if isDevelopment env then stack geminiError else None))
    (if (400 <=? errorStatus)%Z && (errorStatus <? 600)%Z
     then errorStatus else 500%Z).

Definition noResponseFromAnyModel (names : list jsstring)
    (lastError : option JSError) : Response :=
  jsonStatus
    (ErrorBody
       (js "Failed to get response from any Gemini model.
          
Tried all models: " ++ join (js ", ") names ++ js "
Last error: "
        ++ orString (match lastError with Some e => message e | None => None end)
             (js "Unknown error")
        ++ js "

Please check your API key permissions and ensure the Generative Language API is enabled.")
       None)
    500.

(** How the [for] loop is left. *)
Inductive LoopExit :=
| Got (content : jsstring)                  (* [break], with a response *)
| Returned (r : Response)                   (* [return] in the catch block *)
| Exhausted (lastError : option JSError).   (* the loop condition failed *)

Section Dispatch.
Variable env : Env.
Variable backend : Backend.
Variable genAI : jsstring.
Variable names : list jsstring.
Variable parts : list Part.

(** [modelNamesToTry[i]]; the index is always in range when the name
    is used. *)
Definition modelAt (i : nat) : jsstring := nth i names [].

(** The [for] loop, from the iteration [attempt] on; [remaining] is
    [names.length - attempt], and [log] lists the calls made so far. *)
Fixpoint fallbackLoop (remaining attempt currentModelIndex : nat)
    (lastError : option JSError) (log : list Call) {struct remaining}
  : LoopExit * list Call :=
  match remaining with
  | O => (Exhausted lastError, log)
  | S remaining' =>
      let call := mkCall (modelAt currentModelIndex) parts in
      match backend genAI call with
      | Responded text => (Got text, log ++ [call])
      | Rejected geminiError =>
          let errorMessage :=
            orString (message geminiError) (js "Gemini API error") in
          if mentionsNotFound errorMessage
             && (Z.of_nat attempt <? Z.of_nat (List.length names) - 1)%Z
          then fallbackLoop remaining' (S attempt) (S currentModelIndex)
                 (Some geminiError) (log ++ [call])
          else (Returned (geminiErrorResponse env names geminiError),
                log ++ [call])
      end
  end.

(** The Dispatcher: the whole loop. *)
Definition dispatch : LoopExit * list Call :=
  fallbackLoop (List.length names) 0 0 None [].

End Dispatch.

Section Handler.
Context {RT : Runtime}.

(** The upload and the pasted code turned into [parts], or the
    response returned on the way. *)
Definition buildParts (form : FormData) : Response + list Part :=
  let userPrompt := systemPrompt ++ nl ++ nl in
  let afterFile : Response + (jsstring * list Part) :=
    match file form with
    | Some f =>
        let fileType := orString (Some (file_type f))
                          (js "application/octet-stream") in
        let buffer := file_bytes f in
        if (maxSize fileType <? Z.of_nat (List.length buffer))%Z
        then inl (tooLarge fileType)
        else if startsWith fileType (js "image/")
        then inr (userPrompt ++ imageInstruction,
                  [InlineData (toBase64 buffer) fileType])
        else inr (userPrompt ++ codeInstruction (toUtf8 buffer), [])
    | None => inr (userPrompt, [])
    end in
  match afterFile with
  | inl r => inl r
  | inr (userPrompt, parts) =>
      let userPrompt :=
        if nonBlank (code form)
        then userPrompt ++ codeInstruction (orString (code form) [])
        else userPrompt in
      inr (parts ++ [Text userPrompt])
  end.

(** The outer catch block. *)
Definition unexpected (env : Env) (error : Thrown) : Response :=
  jsonStatus
    (ErrorBody (orString (messageOf error) (js "An unexpected error occurred"))
       (if isDevelopment env then stackOf error else None))
    500.

(** From the backend's text to the response. *)
Definition respond (env : Env) (content : jsstring) : Response :=
  match content with
  | [] => unexpected env (NewError (js "No response from AI"))
  | _ =>
      match recover content with
      | inl t => unexpected env t
      | inr d => json (ResultBody d)
      end
  end.

(** The handler, on a request whose form data could be read: the
    response, and the calls made to the backend, in order. *)
Definition POST (env : Env) (backend : Backend) (form : FormData)
  : Response * list Call :=
  match getGeminiClient env with
  | inl initError =>
      (jsonStatus
         (ErrorBody (orString (messageOf initError)
                       (js "Failed to initialize Gemini client")) None)
         500, [])
  | inr genAI =>
      match file form, isSet (code form) with
      | None, false => (noInput, [])
      | _, _ =>
          match buildParts form with
          | inl r => (r, [])
          | inr parts =>
              match dispatch env backend genAI modelNamesToTry parts with
              | (Returned r, log) => (r, log)
              | (Exhausted lastError, log) =>
                  (noResponseFromAnyModel modelNamesToTry lastError, log)
              | (Got content, log) => (respond env content, log)
              end
          end
      end
  end.

End Handler.

End GeminiRoute.

(* ================================================================= *)
(** ** The multi-provider handler *)

Module ProviderRoute.

(** What a [fetch] sends: the generate request to Ollama, or the chat
    completion request to Groq. *)
Inductive Request :=
| OllamaGenerate (url model prompt : jsstring)
| GroqChat (apiKey model system user : jsstring).

(** How a [fetch] ends, as far as the handler looks at it: it (or the
    decoding of the body) throws; or the response is not [ok], with its
    [statusText] and the body's [error?.message]; or it is [ok], with
    the member of the body the handler reads ([data.response] for
    Ollama, [data.choices[0]?.message?.content] for Groq), a string or
    undefined. *)
Inductive FetchResult :=
| FetchThrew (e : JSError)
| NotOk (statusText : jsstring) (errorMessage : option jsstring)
| Ok (content : option jsstring).

(** The providers as the handler meets them. *)
Record Backend := mkBackend
  { generateContent : jsstring -> jsstring -> list Part -> GenResult;
    fetch : Request -> FetchResult }.

(** A call to one of the three providers. *)
Inductive Call :=
| GeminiCall (apiKey model : jsstring) (parts : list Part)
| FetchCall (r : Request).

Definition systemPrompt : jsstring := systemPromptCommon.

Record Config := mkConfig
  { provider : jsstring;
    geminiApiKey : option jsstring;
    ollamaUrl : jsstring;
    groqApiKey : option jsstring }.

Definition getAIProvider (env : Env) : Config :=
  {| provider := orString (AI_PROVIDER env) (js "gemini");
     geminiApiKey := GEMINI_API_KEY env;
     ollamaUrl := orString (OLLAMA_URL env) (js "http://localhost:11434");
     groqApiKey := GROQ_API_KEY env |}.

Definition getGeminiClient (env : Env) : Thrown + jsstring :=
  match GEMINI_API_KEY env with
  | Some (c :: r) => inr (c :: r)
  | _ => inl (NewError (js "GEMINI_API_KEY is not configured in .env.local"))
  end.

Definition setupInstructions : jsstring :=
  js "

Setup Instructions:
1. For Gemini 2.5 Flash (Recommended - Free tier available):
   - Get API key from: https://makersuite.google.com/app/apikey
   - Add to .env.local: GEMINI_API_KEY=your_key
   - Set: AI_PROVIDER=gemini (or leave default)

2. For Ollama (Free & Local):
   - Install from: https://ollama.ai
   - Run: ollama pull llama3.2:3b
   - Set: AI_PROVIDER=ollama

3. For Groq (Free API):
   - Get API key from: https://console.groq.com
   - Add to .env.local: GROQ_API_KEY=your_key
   - Set: AI_PROVIDER=groq".

Section Handler.
Context {RT : Runtime}.

(** The inner catch block. *)
Definition aiProviderError (aiError : Thrown) : Response :=
  jsonStatus
    (ErrorBody
       (js "AI Provider Error: "
        ++ orString (messageOf aiError) (js "Unknown error")
        ++ setupInstructions)
       None)
    500.

(** The upload and the pasted code turned into the user prompt and
    [parts], or the response returned on the way. *)
Definition buildParts (form : FormData)
  : Response + (jsstring * list Part) :=
  let afterFile : Response + (jsstring * list Part) :=
    match file form with
    | Some f =>
        let fileType := orString (Some (file_type f))
                          (js "application/octet-stream") in
        let buffer := file_bytes f in
        if (maxSize fileType <? Z.of_nat (List.length buffer))%Z
        then inl (tooLarge fileType)
        else if startsWith fileType (js "image/")
        then inr (imageInstruction, [InlineData (toBase64 buffer) fileType])
        else inr (codeInstruction (toUtf8 buffer), [])
    | None => inr ([], [])
    end in
  match afterFile with
  | inl r => inl r
  | inr (userPrompt, parts) =>
      let userPrompt :=
        if nonBlank (code form)
        then codeInstruction (orString (code form) [])
        else userPrompt in
      inr (userPrompt,
           match userPrompt with
           | [] => parts
           | _ => parts ++ [Text (systemPrompt ++ nl ++ nl ++ userPrompt)]
           end)
  end.

(** A Gemini call with the one model this handler uses. *)
Definition callGemini (env : Env) (backend : Backend) (parts : list Part)
  : (Thrown + jsstring) * list Call :=
  match getGeminiClient env with
  | inl t => (inl t, [])
  | inr genAI =>
      let model := js "gemini-2.5-flash" in
      (match generateContent backend genAI model parts with
       | Rejected e => inl (External e)
       | Responded text => inr text
       end, [GeminiCall genAI model parts])
  end.

(** The routing: the [content] obtained or the error thrown, and the
    calls made. *)
Definition route (env : Env) (backend : Backend) (userPrompt : jsstring)
    (parts : list Part) : (Thrown + jsstring) * list Call :=
  let config := getAIProvider env in
  if str_eqb (provider config) (js "gemini") && isSet (geminiApiKey config)
  then callGemini env backend parts
  else if str_eqb (provider config) (js "ollama") then
    let fullPrompt := systemPrompt ++ nl ++ nl ++ userPrompt in
    let request := OllamaGenerate (ollamaUrl config ++ js "/api/generate")
                     (js "llama3.2:3b") fullPrompt in
    (match fetch backend request with
     | FetchThrew e => inl (External e)
     | NotOk statusText _ =>
         inl (NewError (js "Ollama API error: " ++ statusText
                        ++ js ". Make sure Ollama is running: https://ollama.ai"))
     | Ok content => inr (orString content [])
     end, [FetchCall request])
  else if str_eqb (provider config) (js "groq") && isSet (groqApiKey config)
  then
    let request := GroqChat (orString (groqApiKey config) [])
                     (js "llama-3.1-8b-instant") systemPrompt userPrompt in
    (match fetch backend request with
     | FetchThrew e => inl (External e)
     | NotOk statusText errorMessage =>
         inl (NewError (js "Groq API error: "
                        ++ orString errorMessage statusText))
     | Ok content => inr (orString content [])
     end, [FetchCall request])
  else if negb (isSet (geminiApiKey config))
  then (inl (NewError (js "No AI provider configured. Please set GEMINI_API_KEY or choose another provider.")), [])
  else callGemini env backend parts.

(** The handler, on a request whose form data could be read: the
    response, and the calls made to the providers, in order.  Whatever
    is thrown from the routing on is caught by the inner catch block,
    which reads the message of the thrown value; a provider is taken to
    reject with an object, as [JSError] has it, so that this read
    succeeds and the outer catch block is not entered. *)
Definition POST (env : Env) (backend : Backend) (form : FormData)
  : Response * list Call :=
  match file form, isSet (code form) with
  | None, false => (noInput, [])
  | _, _ =>
      match buildParts form with
      | inl r => (r, [])
      | inr (userPrompt, parts) =>
          match route env backend userPrompt parts with
          | (inl aiError, log) => (aiProviderError aiError, log)
          | (inr [], log) =>
              (aiProviderError (NewError (js "No response from AI")), log)
          | (inr content, log) =>
              (match recover content with
               | inl aiError => aiProviderError aiError
               | inr d => json (ResultBody d)
               end, log)
          end
      end
  end.

End Handler.

End ProviderRoute.

(* ================================================================= *)
(** ** Notions used to state the properties *)

(** The calls that try the given model names, in order, with the same
    parts. *)
Definition callsTo (names : list jsstring) (parts : list Part)
  : list GeminiRoute.Call :=
  map (fun name => GeminiRoute.mkCall name parts) names.

(** The message the catch block of the fallback loop works with. *)
Definition errorMessageOf (geminiError : JSError) : jsstring :=
  orString (message geminiError) (js "Gemini API error").

(** The call to model [name] fails with an error that the catch block
    reads as an unknown model. *)
Definition modelNotFound (backend : GeminiRoute.Backend) (genAI : jsstring)
    (parts : list Part) (name : jsstring) : Prop :=
  exists e,
    backend genAI (GeminiRoute.mkCall name parts) = Rejected e
    /\ GeminiRoute.mentionsNotFound (errorMessageOf e) = true.

(** The form passes the first check of the handlers. *)
Definition hasInput (form : FormData) : Prop :=
  file form <> None \/ isSet (code form) = true.

Definition isString (v : JSValue) : Prop := exists s, v = JStr s.

(** The response carries an error text, not a result. *)
Definition isErrorResponse (r : Response) : Prop :=
  exists error details, body r = ErrorBody error details.

(** The three placeholders, as a result. *)
Definition placeholders : DebugResult :=
  {| errorExplanation := JStr noExplanation;
     reasoning := JStr noReasoning;
     fixedCode := JStr noFixedCode |}.

(** The result synthesized from a text that holds no JSON. *)
Definition synthesized (content : jsstring) : DebugResult :=
  {| errorExplanation := JStr content;
     reasoning := JStr (js "AI analysis completed");
     fixedCode := JStr (js "See explanation above") |}.

(** As the specification words the field resolution: the value under
    the first of [keys] that counts as present, else the placeholder.
    With [present := fun _ => true] a key counts as soon as the object
    has it. *)
Fixpoint spec_firstPresent (present : JSValue -> bool) (keys : list jsstring)
    (members : list (jsstring * JSValue)) (placeholder : jsstring) : JSValue :=
  match keys with
  | [] => JStr placeholder
  | k :: ks =>
      match lookup k members with
      | Some v =>
          if present v then v
          else spec_firstPresent present ks members placeholder
      | None => spec_firstPresent present ks members placeholder
      end
  end.

Definition spec_resolve (present : JSValue -> bool)
    (members : list (jsstring * JSValue)) : DebugResult :=
  {| errorExplanation :=
       spec_firstPresent present [js "errorExplanation"; js "explanation"]
         members noExplanation;
     reasoning :=
       spec_firstPresent present [js "reasoning"; js "reason"]
         members noReasoning;
     fixedCode :=
       spec_firstPresent present
         [js "fixedCode"; js "code"; js "correctedCode"]
         members noFixedCode |}.


(** The upload is within the size limit of its media type. *)
Definition withinLimit (f : File) : Prop :=
  (Z.of_nat (List.length (file_bytes f))
   <= maxSize (orString (Some (file_type f)) (js "application/octet-stream")))%Z.

(* ================================================================= *)
(** ** A runtime and inputs to run the handlers on *)

Definition base64Char (n : N) : N :=
  if N.ltb n 26 then (65 + n)%N
  else if N.ltb n 52 then (97 + (n - 26))%N
  else if N.ltb n 62 then (48 + (n - 52))%N
  else if N.eqb n 62 then 43%N else 47%N.

Fixpoint base64 (bs : list N) : jsstring :=
  match bs with
  | a :: b :: c :: rest =>
      let n := (a * 65536 + b * 256 + c)%N in
      base64Char (n / 262144) :: base64Char ((n / 4096) mod 64)
      :: base64Char ((n / 64) mod 64) :: base64Char (n mod 64) :: base64 rest
  | [a; b] =>
      let n := (a * 65536 + b * 256)%N in
      [base64Char (n / 262144); base64Char ((n / 4096) mod 64);
       base64Char ((n / 64) mod 64); 61%N]
  | [a] =>
      let n := (a * 65536)%N in
      [base64Char (n / 262144); base64Char ((n / 4096) mod 64); 61%N; 61%N]
  | [] => []
  end.

(** A runtime for files of ASCII bytes (a byte from 128 on decodes to
    U+FFFD here), with V8's wording of the two engine errors cut
    short. *)
Definition asciiRuntime : Runtime :=
  {| toUtf8 := map (fun b => let n := Byte.to_N b in
                             if N.ltb n 128 then n else 65533%N);
     toBase64 := fun bs => base64 (map Byte.to_N bs);
     syntaxErrorMessage := fun _ => js "Unexpected token in JSON";
     typeErrorMessage := fun prop =>
       js "Cannot read properties of null (reading '" ++ prop ++ js "')";
     engineStack := fun _ => None |}.

Definition bytesOf (s : string) : list Byte.byte := list_byte_of_string s.

Definition keyedEnv : Env :=
  {| GEMINI_API_KEY := Some (js "AIzaSyA-0123456789abcdefghijklmnopqrstuv");
     GOOGLE_API_KEY := None; GEMINI_KEY := None; NODE_ENV := None;
     AI_PROVIDER := None; OLLAMA_URL := None; GROQ_API_KEY := None |}.

Definition notFoundError : JSError :=
  mkError (Some (js "[404 Not Found] models/gemini-1.5 is not found for API version v1beta"))
    (Some 404%Z) None.

Definition quotaError : JSError :=
  mkError (Some (js "[429 Too Many Requests] Resource has been exhausted"))
    (Some 429%Z) None.

Definition goodAnswer : jsstring :=
  jsq "{'errorExplanation':'x is undefined','reasoning':'x was never assigned','fixedCode':'x = 1'}".

(** A service that knows only the third model name. *)
Definition legacyOnly : GeminiRoute.Backend :=
  fun _ call =>
    if str_eqb (GeminiRoute.call_model call) (js "gemini-pro")
    then Responded goodAnswer
    else Rejected notFoundError.

(** A service that is out of quota. *)
Definition outOfQuota : GeminiRoute.Backend :=
  fun _ _ => Rejected quotaError.

(** A service that answers every call with the same text. *)
Definition answering (text : jsstring) : GeminiRoute.Backend :=
  fun _ _ => Responded text.

Definition answeringAll (text : jsstring) : ProviderRoute.Backend :=
  {| ProviderRoute.generateContent := fun _ _ _ => Responded text;
     ProviderRoute.fetch := fun _ => ProviderRoute.Ok (Some text) |}.

Definition textFile : File :=
  mkFile (js "text/plain") (js "main.py") (bytesOf "print(y)").

Definition pngFile : File :=
  mkFile (js "image/png") (js "shot.png") (bytesOf "PNG").

(** The form of a request that pastes one line of code. *)
Definition codeForm : FormData := mkForm None (Some (js "print(x)")).

(** The form of a request whose code is three spaces. *)
Definition blankForm : FormData := mkForm None (Some (js "   ")).

(** The parts the Gemini handler builds for a blank code: the system
    prompt and nothing else. *)
Definition bareParts : list Part := [Text (GeminiRoute.systemPrompt ++ nl ++ nl)].

(** An answer in prose with a brace pair in it. *)
Definition proseAnswer : jsstring := js "The loop body { i++ } never runs.".

(** A file of the given number of zero bytes. *)
Definition fileOfSize (type : jsstring) (n : N) : File :=
  mkFile type (js "blob") (repeat Byte.x00 (N.to_nat n)).

(* ================================================================= *)
(** ** The page that calls the route *)

Module Page.

(** The state of the page component. *)
Record State := mkState
  { code : jsstring;
    file : option File;
    loading : bool;
    result : JSValue;              (* [JNull] for null *)
    error : option jsstring;
    isDragging : bool }.

(** How the promise of [fetch] is rejected: with an [Error], of which
    the catch block reads the message, or with another value. *)
Inductive Rejection :=
| RejectedWith (message : jsstring)
| RejectedOther.

(** What the page reads of a response. *)
Record HttpResponse := mkHttp
  { httpStatus : N;
    contentType : option jsstring;   (* the content-type header *)
    bodyText : jsstring }.

(** [response.ok] *)
Definition ok (response : HttpResponse) : bool :=
  N.leb 200 (httpStatus response) && N.leb (httpStatus response) 299.

(** The route as the page meets it. *)
Definition Server := FormData -> Rejection + HttpResponse.

Definition initialState : State :=
  mkState [] None false JNull None false.

Definition setFile (f : option File) (st : State) : State :=
  mkState (code st) f (loading st) (result st) (error st) (isDragging st).

Definition setError (e : option jsstring) (st : State) : State :=
  mkState (code st) (file st) (loading st) (result st) e (isDragging st).

Definition setIsDragging (b : bool) (st : State) : State :=
  mkState (code st) (file st) (loading st) (result st) (error st) b.

Definition setCode (c : jsstring) (st : State) : State :=
  mkState c (file st) (loading st) (result st) (error st) (isDragging st).

(** The handlers of the file input, on the files of the event. *)
Definition handleFileChange (files : list File) (st : State) : State :=
  match files with
  | f :: _ => setError None (setFile (Some f) st)
  | [] => st
  end.

Definition handleDragOver (st : State) : State := setIsDragging true st.

Definition handleDragLeave (st : State) : State := setIsDragging false st.

Definition handleDrop (files : list File) (st : State) : State :=
  let st := setIsDragging false st in
  match files with
  | f :: _ => setError None (setFile (Some f) st)
  | [] => st
  end.

(** [!code.trim() && !file] *)
Definition nothingToSend (st : State) : bool :=
  match trim (code st), file st with
  | [], None => true
  | _, _ => false
  end.

(** The [disabled] attribute of the button. *)
Definition buttonDisabled (st : State) : bool :=
  loading st || nothingToSend st.

(** The form data [handleDebug] builds. *)
Definition formData (st : State) : FormData :=
  mkForm (file st)
    (match trim (code st) with
     | [] => None
     | _ => Some (code st)
     end).

Section HandleDebug.
Context {RT : Runtime}.

(** [String(v)] on a parsed value that is not a string, as [new
    Error(v)] applies it. *)
Variable valueToString : JSValue -> jsstring.

(** The try block: the data to show, or the message of what is
    thrown. *)
Definition exchange (server : Server) (form : FormData)
  : jsstring + JSValue :=
  match server form with
  | inl (RejectedWith message) => inl message
  | inl RejectedOther => inl (js "An error occurred")
  | inr response =>
      let isJson :=
        match contentType response with
        | Some ct => includes ct (js "application/json")
        | None => false
        end in
      if negb (ok response) then
        if isJson then
          match JSON_parse (bodyText response) with
          | None => inl (syntaxErrorMessage (bodyText response))
          | Some errorData =>
              match getProp errorData (js "error") with
              | inl _ => inl (typeErrorMessage (js "error"))
              | inr v =>
                  match orElse v (JStr (js "Failed to debug code")) with
                  | JStr s => inl s
                  | other => inl (valueToString other)
                  end
              end
          end
        else
          inl (js "Server error (" ++ numeral (httpStatus response)
               ++ js "): " ++ firstn 200 (bodyText response))
      else if negb isJson then inl (js "Server returned non-JSON response")
      else
        match JSON_parse (bodyText response) with
        | None => inl (syntaxErrorMessage (bodyText response))
        | Some data => inr data
        end
  end.

(** [handleDebug], run to its end: the state it leaves, and the form
    it has sent, if any. *)
Definition handleDebug (server : Server) (st : State)
  : State * option FormData :=
  if nothingToSend st then
    (setError (Some (js "Please provide code or upload a file")) st, None)
  else
    let form := formData st in
    match exchange server form with
    | inr data =>
        (mkState (code st) (file st) false data None (isDragging st),
         Some form)
    | inl message =>
        (mkState (code st) (file st) false JNull (Some message)
           (isDragging st),
         Some form)
    end.

End HandleDebug.

End Page.

(* ================================================================= *)
(** ** Further notions used to state properties *)

(** The text has no opening brace. *)
Definition noBrace (s : jsstring) : bool :=
  forallb (fun c => negb (N.eqb c 123)) s.

(** The container at the bottom of the parser's stack is an object. *)
Fixpoint bottomIsObject (stk : list frame) : bool :=
  match stk with
  | [] => false
  | [FObj _ _] => true
  | [FArr _] => false
  | _ :: rest => bottomIsObject rest
  end.

(** The outermost value being parsed is an object. *)
Definition objectRooted (st : pstate) : Prop :=
  match st with
  | PValue stk | PArrayStart stk => bottomIsObject stk = true
  | PObjectStart stk | PKey _ stk | PColon _ _ stk =>
      stk = [] \/ bottomIsObject stk = true
  | PAfter v stk =>
      (stk = [] /\ exists members, v = JObj members)
      \/ bottomIsObject stk = true
  | PError => True
  end.

(** The text does not hold the code unit [c]. *)
Definition lacks (c : N) (s : jsstring) : bool :=
  forallb (fun x => negb (N.eqb x c)) s.

(** The text is made of white space only. *)
Definition allWhiteSpace (s : jsstring) : bool := forallb isWhiteSpace s.

(** A pattern without a capturing group. *)
Fixpoint groupFree (r : regex) : bool :=
  match r with
  | RClass _ | RStar _ | REmpty => true
  | RSeq a b => groupFree a && groupFree b
  | ROpt a => groupFree a
  | RGroup _ => false
  end.

(** The three environment variables a Gemini key is looked up in, in
    the order of preference. *)
Definition firstKey (env : Env) : option jsstring :=
  orOption (GEMINI_API_KEY env) (orOption (GOOGLE_API_KEY env) (GEMINI_KEY env)).

(** The environment with the Gemini key set to the given one. *)
Definition withGeminiKey (key : option jsstring) (env : Env) : Env :=
  mkEnv key (GOOGLE_API_KEY env) (GEMINI_KEY env) (NODE_ENV env)
    (AI_PROVIDER env) (OLLAMA_URL env) (GROQ_API_KEY env).

(** The environment with the provider set to the given one. *)
Definition withProvider (p : option jsstring) (env : Env) : Env :=
  mkEnv (GEMINI_API_KEY env) (GOOGLE_API_KEY env) (GEMINI_KEY env)
    (NODE_ENV env) p (OLLAMA_URL env) (GROQ_API_KEY env).

(** The upload is declared as an image. *)
Definition isImage (f : File) : bool :=
  startsWith (orString (Some (file_type f)) (js "application/octet-stream"))
    (js "image/").

(** The inline data the handlers put before the text for an upload. *)
Definition inlineParts {RT : Runtime} (upload : option File) : list Part :=
  match upload with
  | Some f =>
      if isImage f
      then [InlineData (toBase64 (file_bytes f))
              (orString (Some (file_type f)) (js "application/octet-stream"))]
      else []
  | None => []
  end.

(** An environment without any key, and environments that select
    Ollama and Groq. *)
Definition bareEnv : Env := mkEnv None None None None None None None.

Definition ollamaEnv : Env :=
  mkEnv None None None None (Some (js "ollama")) None None.

Definition groqEnv : Env :=
  mkEnv None None None None (Some (js "groq")) None (Some (js "gsk_0123")).

(** A service that knows none of the models. *)
Definition unknownModels : GeminiRoute.Backend :=
  fun _ _ => Rejected notFoundError.

(** A page with code typed in, and a server that answers it. *)
Definition typedState : Page.State :=
  Page.mkState (js "print(x)") None false JNull None false.

Definition okServer (body : jsstring) : Page.Server :=
  fun _ => inr (Page.mkHttp 200 (Some (js "application/json")) body).



Unset Implicit Arguments.

(* ================================================================= *)
(** ** The fallback loop *)

Lemma skipn_nth_cons (A : Type) (d : A) (l : list A) (i : nat) :
  (i < List.length l)%nat -> skipn i l = nth i l d :: skipn (S i) l.
Proof.
  revert i; induction l as [|x l IH]; intros i Hi; simpl in Hi.
  - lia.
  - destruct i as [|i]; [reflexivity|].
    simpl. apply IH. lia.
Qed.

Lemma firstn_skipn_from (A : Type) (l : list A) (k i : nat) (d : A) :
  (i <= k)%nat -> (k < List.length l)%nat ->
  firstn (S k - i) (skipn i l)
  = nth i l d :: firstn (S k - S i) (skipn (S i) l).
Proof.
  intros Hik Hk.
  rewrite (skipn_nth_cons A d l i) by lia.
  replace (S k - i)%nat with (S (k - i)) by lia.
  reflexivity.
Qed.

Section FallbackLoop.
Variable env : Env.
Variable backend : GeminiRoute.Backend.
Variable genAI : jsstring.
Variable names : list jsstring.
Variable parts : list Part.

(** One turn of the loop on a call that succeeds. *)
Lemma loop_success remaining attempt idx lastError log text :
  backend genAI (GeminiRoute.mkCall (nth idx names []) parts) = Responded text ->
  GeminiRoute.fallbackLoop env backend genAI names parts
    (S remaining) attempt idx lastError log
  = (GeminiRoute.Got text, log ++ callsTo [nth idx names []] parts).
Proof.
  intros H. simpl. unfold GeminiRoute.modelAt. rewrite H.
  reflexivity.
Qed.

(** One turn of the loop on a call that fails. *)
Lemma loop_failure remaining attempt idx lastError log e :
  backend genAI (GeminiRoute.mkCall (nth idx names []) parts) = Rejected e ->
  GeminiRoute.fallbackLoop env backend genAI names parts
    (S remaining) attempt idx lastError log
  = if GeminiRoute.mentionsNotFound (errorMessageOf e)
       && (Z.of_nat attempt <? Z.of_nat (List.length names) - 1)%Z
    then GeminiRoute.fallbackLoop env backend genAI names parts
           remaining (S attempt) (S idx) (Some e)
           (log ++ callsTo [nth idx names []] parts)
    else (GeminiRoute.Returned (GeminiRoute.geminiErrorResponse env names e),
          log ++ callsTo [nth idx names []] parts).
Proof.
  intros H. simpl. unfold GeminiRoute.modelAt. rewrite H.
  reflexivity.
Qed.

(** If the candidates from [attempt] up to [k] are unknown to the
    service and candidate [k] answers, the loop calls exactly these
    candidates, in order, and leaves with the answer. *)
Lemma loop_reaches (k : nat) (text : jsstring) :
  (k < List.length names)%nat ->
  backend genAI (GeminiRoute.mkCall (nth k names []) parts) = Responded text ->
  forall remaining attempt lastError log,
    (attempt <= k)%nat ->
    (attempt + remaining = List.length names)%nat ->
    (forall i, (attempt <= i < k)%nat ->
               modelNotFound backend genAI parts (nth i names [])) ->
    GeminiRoute.fallbackLoop env backend genAI names parts
      remaining attempt attempt lastError log
    = (GeminiRoute.Got text,
       log ++ callsTo (firstn (S k - attempt) (skipn attempt names)) parts).
Proof.
  intros Hk Hok.
  induction remaining as [|remaining IH]; intros attempt lastError log Hle Hlen Hnf.
  - lia.
  - destruct (Nat.eq_dec attempt k) as [->|Hne].
    + rewrite (loop_success remaining k k lastError log text Hok).
      rewrite (firstn_skipn_from _ names k k []) by lia.
      replace (S k - S k)%nat with 0%nat by lia. reflexivity.
    + destruct (Hnf attempt) as [e [Hrej Hmsg]]; [lia|].
      rewrite (loop_failure remaining attempt attempt lastError log e Hrej), Hmsg.
      replace (Z.of_nat attempt <? Z.of_nat (List.length names) - 1)%Z
        with true by (symmetry; apply Z.ltb_lt; lia).
      simpl andb. cbv iota.
      rewrite IH; [|lia|lia|intros i Hi; apply Hnf; lia].
      rewrite (firstn_skipn_from _ names k attempt []) by lia.
      unfold callsTo. simpl map. rewrite <- app_assoc. reflexivity.
Qed.

(** If the candidates from [attempt] up to [k] are unknown to the
    service and candidate [k] fails with an error of another kind, the
    loop calls exactly these candidates and returns the error response
    for that error. *)
Lemma loop_stops (k : nat) (e : JSError) :
  (k < List.length names)%nat ->
  backend genAI (GeminiRoute.mkCall (nth k names []) parts) = Rejected e ->
  GeminiRoute.mentionsNotFound (errorMessageOf e) = false ->
  forall remaining attempt lastError log,
    (attempt <= k)%nat ->
    (attempt + remaining = List.length names)%nat ->
    (forall i, (attempt <= i < k)%nat ->
               modelNotFound backend genAI parts (nth i names [])) ->
    GeminiRoute.fallbackLoop env backend genAI names parts
      remaining attempt attempt lastError log
    = (GeminiRoute.Returned (GeminiRoute.geminiErrorResponse env names e),
       log ++ callsTo (firstn (S k - attempt) (skipn attempt names)) parts).
Proof.
  intros Hk Hrej Hother.
  induction remaining as [|remaining IH]; intros attempt lastError log Hle Hlen Hnf.
  - lia.
  - destruct (Nat.eq_dec attempt k) as [->|Hne].
    + rewrite (loop_failure remaining k k lastError log e Hrej), Hother.
      rewrite (firstn_skipn_from _ names k k []) by lia.
      replace (S k - S k)%nat with 0%nat by lia. reflexivity.
    + destruct (Hnf attempt) as [e' [Hrej' Hmsg]]; [lia|].
      rewrite (loop_failure remaining attempt attempt lastError log e' Hrej'),
              Hmsg.
      replace (Z.of_nat attempt <? Z.of_nat (List.length names) - 1)%Z
        with true by (symmetry; apply Z.ltb_lt; lia).
      simpl andb. cbv iota.
      rewrite IH; [|lia|lia|intros i Hi; apply Hnf; lia].
      rewrite (firstn_skipn_from _ names k attempt []) by lia.
      unfold callsTo. simpl map. rewrite <- app_assoc. reflexivity.
Qed.

End FallbackLoop.

(** The handler, once the client is built, the form has passed the
    first check and the parts are built, is the loop followed by the
    recovery. *)
Lemma POST_after_parts {RT : Runtime} env backend form genAI parts :
  GeminiRoute.getGeminiClient env = inr genAI ->
  hasInput form ->
  GeminiRoute.buildParts form = inr parts ->
  GeminiRoute.POST env backend form
  = match GeminiRoute.dispatch env backend genAI
            GeminiRoute.modelNamesToTry parts with
    | (GeminiRoute.Returned r, log) => (r, log)
    | (GeminiRoute.Exhausted lastError, log) =>
        (GeminiRoute.noResponseFromAnyModel GeminiRoute.modelNamesToTry
           lastError, log)
    | (GeminiRoute.Got content, log) => (GeminiRoute.respond env content, log)
    end.
Proof.
  intros Hclient Hin Hparts. unfold GeminiRoute.POST.
  rewrite Hclient, Hparts.
  destruct Hin as [Hf | Hc].
  - destruct (file form); [reflexivity | congruence].
  - rewrite Hc. destruct (file form); reflexivity.
Qed.

(** C1 -- Model-fallback ordering.  When the service rejects the
    first two candidates with an error that reads as model not found
    and answers the third, the dispatcher makes exactly three calls, to
    gemini-1.5-flash, gemini-1.5-pro and gemini-pro in this order, and
    leaves with the text of the third call, which the handler then hands
    to the recovery.  More generally a candidate that answers ends the
    loop: the calls made are exactly those to the candidates up to and
    including it, so no later candidate is ever called. *)
Theorem fallback_ordering :
  forall (RT : Runtime) (env : Env) (backend : GeminiRoute.Backend)
         (genAI : jsstring) (parts : list Part) (text : jsstring),
    let names := GeminiRoute.modelNamesToTry in
    let run := GeminiRoute.dispatch env backend genAI names parts in
    (modelNotFound backend genAI parts (js "gemini-1.5-flash") ->
     modelNotFound backend genAI parts (js "gemini-1.5-pro") ->
     backend genAI (GeminiRoute.mkCall (js "gemini-pro") parts)
       = Responded text ->
     run = (GeminiRoute.Got text,
            [ GeminiRoute.mkCall (js "gemini-1.5-flash") parts;
              GeminiRoute.mkCall (js "gemini-1.5-pro") parts;
              GeminiRoute.mkCall (js "gemini-pro") parts ])
     /\ forall form,
          GeminiRoute.getGeminiClient env = inr genAI ->
          hasInput form ->
          GeminiRoute.buildParts form = inr parts ->
          GeminiRoute.POST env backend form
          = (GeminiRoute.respond env text, snd run))
    /\ (forall k : nat,
          (k < List.length names)%nat ->
          (forall i, (i < k)%nat ->
                     modelNotFound backend genAI parts (nth i names [])) ->
          backend genAI (GeminiRoute.mkCall (nth k names []) parts)
            = Responded text ->
          run = (GeminiRoute.Got text, callsTo (firstn (S k) names) parts)).
Proof.
  intros RT env backend genAI parts text names run.
  assert (General : forall k : nat,
    (k < List.length names)%nat ->
    (forall i, (i < k)%nat ->
               modelNotFound backend genAI parts (nth i names [])) ->
    backend genAI (GeminiRoute.mkCall (nth k names []) parts)
      = Responded text ->
    run = (GeminiRoute.Got text, callsTo (firstn (S k) names) parts)).
  { intros k Hk Hnf Hok. unfold run, GeminiRoute.dispatch.
    rewrite (loop_reaches env backend genAI names parts k text Hk Hok
               (List.length names) 0%nat None []);
      [ rewrite Nat.sub_0_r; reflexivity | lia | lia
      | intros i Hi; apply Hnf; lia ]. }
  split; [|exact General].
  intros H1 H2 H3.
  assert (Hrun : run = (GeminiRoute.Got text,
            [ GeminiRoute.mkCall (js "gemini-1.5-flash") parts;
              GeminiRoute.mkCall (js "gemini-1.5-pro") parts;
              GeminiRoute.mkCall (js "gemini-pro") parts ])).
  { apply (General 2%nat).
    - unfold names. simpl. lia.
    - intros i Hi.
      destruct i as [|[|i]]; [exact H1 | exact H2 | lia].
    - exact H3. }
  split; [exact Hrun|].
  intros form Hclient Hin Hparts.
  rewrite (POST_after_parts env backend form genAI parts Hclient Hin Hparts).
  fold names. fold run. rewrite Hrun. reflexivity.
Qed.

(** The scenario on a service that knows only gemini-pro. *)
Lemma fallback_ordering_witness :
  modelNotFound legacyOnly (js "key") bareParts (js "gemini-1.5-flash")
  /\ modelNotFound legacyOnly (js "key") bareParts (js "gemini-1.5-pro")
  /\ GeminiRoute.dispatch keyedEnv legacyOnly (js "key")
       GeminiRoute.modelNamesToTry bareParts
     = (GeminiRoute.Got goodAnswer,
        [ GeminiRoute.mkCall (js "gemini-1.5-flash") bareParts;
          GeminiRoute.mkCall (js "gemini-1.5-pro") bareParts;
          GeminiRoute.mkCall (js "gemini-pro") bareParts ]).
Proof.
  assert (H1 : modelNotFound legacyOnly (js "key") bareParts
                 (js "gemini-1.5-flash"))
    by (exists notFoundError; split; vm_compute; reflexivity).
  assert (H2 : modelNotFound legacyOnly (js "key") bareParts
                 (js "gemini-1.5-pro"))
    by (exists notFoundError; split; vm_compute; reflexivity).
  split; [exact H1|]. split; [exact H2|].
  destruct (fallback_ordering asciiRuntime keyedEnv legacyOnly (js "key")
              bareParts goodAnswer) as [Scenario _].
  destruct (Scenario H1 H2) as [Hrun _]; [vm_compute; reflexivity|].
  exact Hrun.
Defined.

(** The response of the catch block to an error that does not read as
    an unknown model carries the error's own message. *)
Lemma geminiErrorResponse_other env names e :
  GeminiRoute.mentionsNotFound (errorMessageOf e) = false ->
  body (GeminiRoute.geminiErrorResponse env names e)
  = ErrorBody (js "Gemini API error: " ++ errorMessageOf e)
      (if GeminiRoute.isDevelopment env then stack e else None).
Proof.
  intros H. unfold GeminiRoute.geminiErrorResponse, GeminiRoute.helpfulMessage.
  fold (errorMessageOf e). rewrite H. reflexivity.
Qed.

Lemma geminiErrorResponse_status env names e :
  (400 <= statusCode (GeminiRoute.geminiErrorResponse env names e) < 600)%Z.
Proof.
  unfold GeminiRoute.geminiErrorResponse, jsonStatus, statusCode.
  match goal with
  | |- context [if ?c then _ else _] => destruct c eqn:Hc
  end; [|lia].
  apply andb_true_iff in Hc. destruct Hc as [Hlo Hhi].
  apply Z.leb_le in Hlo. apply Z.ltb_lt in Hhi. lia.
Qed.

(** C2 -- Model-fallback stop condition.  An error whose message
    mentions neither [not found] nor [404] ends the loop where it
    occurs.  When it is the call to the first candidate that fails so,
    the dispatcher has made exactly one call and the request fails at
    once with the Gemini API error response, whose text is the error's
    message and whose status lies in 400..599.  In general, when it is
    candidate [k] that fails so, the calls are those up to candidate
    [k] and no later candidate is tried. *)
Theorem fallback_stop :
  forall (RT : Runtime) (env : Env) (backend : GeminiRoute.Backend)
         (genAI : jsstring) (parts : list Part) (e : JSError),
    includes (errorMessageOf e) (js "not found") = false ->
    includes (errorMessageOf e) (js "404") = false ->
    let names := GeminiRoute.modelNamesToTry in
    let run := GeminiRoute.dispatch env backend genAI names parts in
    let failure := GeminiRoute.geminiErrorResponse env names e in
    (backend genAI (GeminiRoute.mkCall (js "gemini-1.5-flash") parts)
       = Rejected e ->
     run = (GeminiRoute.Returned failure,
            [GeminiRoute.mkCall (js "gemini-1.5-flash") parts])
     /\ forall form,
          GeminiRoute.getGeminiClient env = inr genAI ->
          hasInput form ->
          GeminiRoute.buildParts form = inr parts ->
          GeminiRoute.POST env backend form
          = (failure, [GeminiRoute.mkCall (js "gemini-1.5-flash") parts]))
    /\ body failure
       = ErrorBody (js "Gemini API error: " ++ errorMessageOf e)
           (if GeminiRoute.isDevelopment env then stack e else None)
    /\ (400 <= statusCode failure < 600)%Z
    /\ (forall k : nat,
          (k < List.length names)%nat ->
          (forall i, (i < k)%nat ->
                     modelNotFound backend genAI parts (nth i names [])) ->
          backend genAI (GeminiRoute.mkCall (nth k names []) parts)
            = Rejected e ->
          run = (GeminiRoute.Returned failure,
                 callsTo (firstn (S k) names) parts)).
Proof.
  intros RT env backend genAI parts e Hnf H404 names run failure.
  assert (Hmsg : GeminiRoute.mentionsNotFound (errorMessageOf e) = false)
    by (unfold GeminiRoute.mentionsNotFound; rewrite Hnf, H404; reflexivity).
  assert (General : forall k : nat,
    (k < List.length names)%nat ->
    (forall i, (i < k)%nat ->
               modelNotFound backend genAI parts (nth i names [])) ->
    backend genAI (GeminiRoute.mkCall (nth k names []) parts) = Rejected e ->
    run = (GeminiRoute.Returned failure, callsTo (firstn (S k) names) parts)).
  { intros k Hk Hskip Hrej. unfold run, GeminiRoute.dispatch.
    rewrite (loop_stops env backend genAI names parts k e Hk Hrej Hmsg
               (List.length names) 0%nat None []);
      [ rewrite Nat.sub_0_r; reflexivity | lia | lia
      | intros i Hi; apply Hskip; lia ]. }
  split; [|split; [apply geminiErrorResponse_other; exact Hmsg|
                   split; [apply geminiErrorResponse_status|exact General]]].
  intros Hrej.
  assert (Hrun : run = (GeminiRoute.Returned failure,
                        [GeminiRoute.mkCall (js "gemini-1.5-flash") parts])).
  { apply (General 0%nat).
    - unfold names. simpl. lia.
    - intros i Hi. lia.
    - exact Hrej. }
  split; [exact Hrun|].
  intros form Hclient Hin Hparts.
  rewrite (POST_after_parts env backend form genAI parts Hclient Hin Hparts).
  fold names. fold run. rewrite Hrun. reflexivity.
Qed.

(** The stop on a service that is out of quota. *)
Lemma fallback_stop_witness :
  GeminiRoute.dispatch keyedEnv outOfQuota (js "key")
    GeminiRoute.modelNamesToTry bareParts
  = (GeminiRoute.Returned
       (jsonStatus
          (ErrorBody (js "Gemini API error: [429 Too Many Requests] Resource has been exhausted")
             None) 429),
     [GeminiRoute.mkCall (js "gemini-1.5-flash") bareParts]).
Proof.
  destruct (fallback_stop asciiRuntime keyedEnv outOfQuota (js "key") bareParts
              quotaError) as [First _];
    [vm_compute; reflexivity | vm_compute; reflexivity |].
  destruct First as [Hrun _]; [reflexivity|].
  rewrite Hrun. vm_compute. reflexivity.
Defined.

(* ================================================================= *)
(** ** The first check and the size limits *)

(** The log of the loop extends the log it starts from. *)
Lemma loop_log_extends env backend genAI names parts :
  forall remaining attempt idx lastError log,
  exists rest,
    snd (GeminiRoute.fallbackLoop env backend genAI names parts
           remaining attempt idx lastError log) = log ++ rest.
Proof.
  induction remaining as [|remaining IH]; intros attempt idx lastError log.
  - exists []. simpl. now rewrite app_nil_r.
  - destruct (backend genAI (GeminiRoute.mkCall (nth idx names []) parts))
      as [text|e] eqn:Hcall.
    + rewrite (loop_success env backend genAI names parts
                 remaining attempt idx lastError log text Hcall).
      eexists. reflexivity.
    + rewrite (loop_failure env backend genAI names parts
                 remaining attempt idx lastError log e Hcall).
      destruct (GeminiRoute.mentionsNotFound (errorMessageOf e)
                && (Z.of_nat attempt <? Z.of_nat (List.length names) - 1)%Z).
      * destruct (IH (S attempt) (S idx) (Some e)
                    (log ++ callsTo [nth idx names []] parts)) as [rest Hrest].
        exists (callsTo [nth idx names []] parts ++ rest).
        rewrite Hrest. now rewrite app_assoc.
      * eexists. reflexivity.
Qed.

(** With at least one candidate, the first candidate is called. *)
Lemma dispatch_first_call env backend genAI first others parts :
  exists rest,
    snd (GeminiRoute.dispatch env backend genAI (first :: others) parts)
    = GeminiRoute.mkCall first parts :: rest.
Proof.
  unfold GeminiRoute.dispatch.
  change (List.length (first :: others)) with (S (List.length others)).
  destruct (backend genAI (GeminiRoute.mkCall (nth 0 (first :: others) []) parts))
    as [text|e] eqn:Hcall.
  - rewrite (loop_success env backend genAI (first :: others) parts
               (List.length others) 0 0 None [] text Hcall).
    eexists. reflexivity.
  - rewrite (loop_failure env backend genAI (first :: others) parts
               (List.length others) 0 0 None [] e Hcall).
    match goal with |- context [if ?c then _ else _] => destruct c end.
    + destruct (loop_log_extends env backend genAI (first :: others) parts
                  (List.length others) 1 1 (Some e)
                  ([] ++ callsTo [nth 0 (first :: others) []] parts))
        as [rest Hrest].
      exists rest. rewrite Hrest. reflexivity.
    + eexists. reflexivity.
Qed.

(** The multi-provider handler, once the form has passed the first
    check and the parts are built. *)
Lemma provider_POST_after_parts {RT : Runtime} env backend form userPrompt parts :
  hasInput form ->
  ProviderRoute.buildParts form = inr (userPrompt, parts) ->
  ProviderRoute.POST env backend form
  = match ProviderRoute.route env backend userPrompt parts with
    | (inl aiError, log) => (ProviderRoute.aiProviderError aiError, log)
    | (inr [], log) =>
        (ProviderRoute.aiProviderError (NewError (js "No response from AI")),
         log)
    | (inr content, log) =>
        (match recover content with
         | inl aiError => ProviderRoute.aiProviderError aiError
         | inr d => json (ResultBody d)
         end, log)
    end.
Proof.
  intros Hin Hparts. unfold ProviderRoute.POST. rewrite Hparts.
  destruct Hin as [Hf | Hc].
  - destruct (file form); [reflexivity | congruence].
  - rewrite Hc. destruct (file form); reflexivity.
Qed.

(** With the provider left at its default and a Gemini key set, the
    multi-provider handler makes exactly one call, to Gemini. *)
Lemma route_default_log env backend userPrompt parts key :
  AI_PROVIDER env = None ->
  GEMINI_API_KEY env = Some key ->
  isSet (Some key) = true ->
  snd (ProviderRoute.route env backend userPrompt parts)
  = [ProviderRoute.GeminiCall key (js "gemini-2.5-flash") parts].
Proof.
  intros Hp Hk Hset.
  unfold ProviderRoute.route, ProviderRoute.getAIProvider.
  cbn [ProviderRoute.provider ProviderRoute.geminiApiKey].
  rewrite Hp, Hk, Hset.
  change (str_eqb (orString None (js "gemini")) (js "gemini") && true)
    with true.
  cbv iota.
  unfold ProviderRoute.callGemini, ProviderRoute.getGeminiClient.
  rewrite Hk. destruct key as [|c r]; [discriminate|].
  reflexivity.
Qed.

(** A request with no file and no code, or with the empty string for
    code, is turned down by both handlers before any call. *)
Lemma no_input_rejected {RT : Runtime} env backendA backendB form genAI :
  file form = None ->
  isSet (code form) = false ->
  GeminiRoute.getGeminiClient env = inr genAI ->
  GeminiRoute.POST env backendA form = (noInput, [])
  /\ ProviderRoute.POST env backendB form = (noInput, []).
Proof.
  intros Hf Hc Hclient.
  unfold GeminiRoute.POST, ProviderRoute.POST.
  rewrite Hclient, Hf, Hc. split; reflexivity.
Qed.

(** C3 -- Empty-input rejection, at a code that is three spaces and no
    file.  The form passes the first check of both handlers, although
    its code is blank: the Gemini handler goes on to call the first
    model with the system prompt alone, and the multi-provider handler
    calls Gemini with no parts at all.  With a service that answers, the
    request even succeeds. *)
Theorem blank_code_reaches_provider :
  forall (backendA : GeminiRoute.Backend) (backendB : ProviderRoute.Backend),
    nonBlank (code blankForm) = false
    /\ (exists rest,
          snd (GeminiRoute.POST (RT := asciiRuntime) keyedEnv backendA blankForm)
          = GeminiRoute.mkCall (js "gemini-1.5-flash") bareParts :: rest)
    /\ snd (ProviderRoute.POST (RT := asciiRuntime) keyedEnv backendB blankForm)
       = [ProviderRoute.GeminiCall
            (js "AIzaSyA-0123456789abcdefghijklmnopqrstuv")
            (js "gemini-2.5-flash") []]
    /\ GeminiRoute.POST (RT := asciiRuntime) keyedEnv (answering goodAnswer)
         blankForm
       = (json (ResultBody
                  (mkResult (JStr (js "x is undefined"))
                     (JStr (js "x was never assigned"))
                     (JStr (js "x = 1")))),
          [GeminiRoute.mkCall (js "gemini-1.5-flash") bareParts]).
Proof.
  intros backendA backendB.
  split; [vm_compute; reflexivity|].
  split; [|split].
  - rewrite (POST_after_parts keyedEnv backendA blankForm
               (js "AIzaSyA-0123456789abcdefghijklmnopqrstuv") bareParts);
      [ | vm_compute; reflexivity | right; vm_compute; reflexivity
        | vm_compute; reflexivity ].
    destruct (dispatch_first_call keyedEnv backendA
                (js "AIzaSyA-0123456789abcdefghijklmnopqrstuv")
                (js "gemini-1.5-flash") [js "gemini-1.5-pro"; js "gemini-pro"]
                bareParts) as [rest Hrest].
    exists rest.
    change (js "gemini-1.5-flash" :: [js "gemini-1.5-pro"; js "gemini-pro"])
      with GeminiRoute.modelNamesToTry in Hrest.
    destruct (GeminiRoute.dispatch keyedEnv backendA
                (js "AIzaSyA-0123456789abcdefghijklmnopqrstuv")
                GeminiRoute.modelNamesToTry bareParts) as [[c|r|le] log];
      exact Hrest.
  - rewrite (provider_POST_after_parts keyedEnv backendB blankForm [] []);
      [ | right; vm_compute; reflexivity | vm_compute; reflexivity ].
    pose proof (route_default_log keyedEnv backendB [] []
                  (js "AIzaSyA-0123456789abcdefghijklmnopqrstuv")
                  eq_refl eq_refl eq_refl) as Hlog.
    destruct (ProviderRoute.route keyedEnv backendB [] []) as [[t|[|c r]] log];
      try destruct (recover (c :: r)); exact Hlog.
  - vm_compute. reflexivity.
Qed.

(** An upload with no declared type counts as a byte stream, which is
    not an image. *)
Lemma startsWith_fileType (t : jsstring) :
  startsWith (orString (Some t) (js "application/octet-stream")) (js "image/")
  = startsWith t (js "image/").
Proof.
  destruct t as [|c r]; [vm_compute|]; reflexivity.
Qed.

Lemma fileOfSize_length type n :
  Z.of_nat (List.length (file_bytes (fileOfSize type n))) = Z.of_N n.
Proof.
  unfold fileOfSize, file_bytes. rewrite repeat_length. apply N_nat_Z.
Qed.

(** C4 -- Artifact size limits.  An upload whose declared media type
    begins with [image/] and that is longer than 10 * 1024 * 1024 bytes,
    and any other upload longer than 1024 * 1024 bytes, is turned down
    by both handlers with status 400 and a message that ends in the
    limit, [10MB] resp. [1MB], and no call is made; an upload at or
    below its limit passes the check and the parts are built.  (The
    Gemini handler builds its client before it looks at the form, so
    its statement is for an environment that holds a key.) *)
Theorem size_limits :
  forall (RT : Runtime) (env : Env) (backendA : GeminiRoute.Backend)
         (backendB : ProviderRoute.Backend) (f : File) (code : option jsstring),
    let form := mkForm (Some f) code in
    let size := Z.of_nat (List.length (file_bytes f)) in
    let image := startsWith (file_type f) (js "image/") in
    let limit := if image then (10 * 1024 * 1024)%Z else (1024 * 1024)%Z in
    let unit := if image then js "10MB" else js "1MB" in
    let message := js "File is too large. Maximum size: " ++ unit in
    let rejection := jsonStatus (ErrorBody message None) 400 in
    ((limit < size)%Z ->
       includes message unit = true
       /\ GeminiRoute.buildParts form = inl rejection
       /\ ProviderRoute.buildParts form = inl rejection
       /\ (forall genAI,
             GeminiRoute.getGeminiClient env = inr genAI ->
             GeminiRoute.POST env backendA form = (rejection, []))
       /\ ProviderRoute.POST env backendB form = (rejection, []))
    /\ ((size <= limit)%Z ->
        (exists parts, GeminiRoute.buildParts form = inr parts)
        /\ (exists userPrompt parts,
              ProviderRoute.buildParts form = inr (userPrompt, parts))).
Proof.
  intros RT env backendA backendB f code form size image limit unit
         message rejection.
  set (fileType := orString (Some (file_type f)) (js "application/octet-stream")).
  assert (Himage : startsWith fileType (js "image/") = image)
    by apply startsWith_fileType.
  assert (Hlimit : maxSize fileType = limit)
    by (unfold maxSize; rewrite Himage; reflexivity).
  assert (Hreject : tooLarge fileType = rejection).
  { unfold tooLarge, tooLargeMessage, rejection, message, unit.
    rewrite Hlimit. unfold limit.
    destruct image; vm_compute; reflexivity. }
  split.
  - intros Hbig.
    assert (Htest : (maxSize fileType <? size)%Z = true)
      by (apply Z.ltb_lt; rewrite Hlimit; exact Hbig).
    assert (HA : GeminiRoute.buildParts form = inl rejection).
    { unfold GeminiRoute.buildParts, form. cbn [file].
      fold fileType. fold size. rewrite Htest, Hreject. reflexivity. }
    assert (HB : ProviderRoute.buildParts form = inl rejection).
    { unfold ProviderRoute.buildParts, form. cbn [file].
      fold fileType. fold size. rewrite Htest, Hreject. reflexivity. }
    split; [|split; [exact HA|split; [exact HB|split]]].
    + unfold message, unit. destruct image; vm_compute; reflexivity.
    + intros genAI Hclient. unfold GeminiRoute.POST.
      rewrite Hclient, HA. reflexivity.
    + unfold ProviderRoute.POST. rewrite HB. reflexivity.
  - intros Hsmall.
    assert (Htest : (maxSize fileType <? size)%Z = false)
      by (apply Z.ltb_ge; rewrite Hlimit; exact Hsmall).
    split.
    + unfold GeminiRoute.buildParts, form. cbn [file].
      fold fileType. fold size. rewrite Htest.
      destruct (startsWith fileType (js "image/")); eexists; reflexivity.
    + unfold ProviderRoute.buildParts, form. cbn [file].
      fold fileType. fold size. rewrite Htest.
      destruct (startsWith fileType (js "image/")); do 2 eexists; reflexivity.
Qed.

(** One byte over each limit, and a text file exactly at its limit. *)
Lemma size_limits_witness :
  GeminiRoute.buildParts (RT := asciiRuntime)
    (mkForm (Some (fileOfSize (js "image/png") 10485761)) None)
  = inl (jsonStatus
           (ErrorBody (js "File is too large. Maximum size: " ++ js "10MB")
              None) 400)
  /\ ProviderRoute.buildParts (RT := asciiRuntime)
       (mkForm (Some (fileOfSize (js "text/plain") 1048577)) None)
     = inl (jsonStatus
              (ErrorBody (js "File is too large. Maximum size: " ++ js "1MB")
                 None) 400)
  /\ exists parts,
       GeminiRoute.buildParts (RT := asciiRuntime)
         (mkForm (Some (fileOfSize (js "text/plain") 1048576)) None)
       = inr parts.
Proof.
  split; [|split].
  - destruct (size_limits asciiRuntime keyedEnv outOfQuota (answeringAll [])
                (fileOfSize (js "image/png") 10485761) None) as [Hbig _].
    destruct Hbig as [_ [HA _]]; [|exact HA].
    rewrite fileOfSize_length. reflexivity.
  - destruct (size_limits asciiRuntime keyedEnv outOfQuota (answeringAll [])
                (fileOfSize (js "text/plain") 1048577) None) as [Hbig _].
    destruct Hbig as [_ [_ [HB _]]]; [|exact HB].
    rewrite fileOfSize_length. reflexivity.
  - destruct (size_limits asciiRuntime keyedEnv outOfQuota (answeringAll [])
                (fileOfSize (js "text/plain") 1048576) None) as [_ Hsmall].
    destruct Hsmall as [HA _]; [|exact HA].
    rewrite fileOfSize_length. vm_compute. discriminate.
Defined.

(* ================================================================= *)
(** ** Result recovery *)




(** A text that [JSON.parse] accepts is its own candidate: the fenced
    block, the brace span and the synthesized result are not tried. *)
Lemma parseContent_parsed content v :
  JSON_parse content = Some v -> parseContent content = inr v.
Proof.
  intros H. unfold parseContent. rewrite H. reflexivity.
Qed.

(** On an object every property read succeeds, and the fields are
    resolved by the chains of [||]. *)
Lemma debugResult_object members :
  debugResult (JObj members) = inr (spec_resolve truthy members).
Proof.
  unfold debugResult, spec_resolve, spec_firstPresent, orElse, getProp.
  repeat match goal with
  | |- context [lookup ?k members] => destruct (lookup k members) as [?v|]
  | |- context [truthy ?v] => destruct (truthy v)
  end; reflexivity.
Qed.

(** On a number, a string, a boolean or an array none of the seven
    properties is defined. *)
Lemma debugResult_no_members result :
  match result with
  | JNum _ | JStr _ | JBool _ | JArr _ => True
  | JNull | JObj _ => False
  end ->
  debugResult result = inr placeholders.
Proof.
  destruct result; intros H; try contradiction; reflexivity.
Qed.

(** Where the text does not parse and neither pattern matches, the
    result is synthesized from the text. *)
Lemma recover_synthesized (c : N) (rest : jsstring) :
  JSON_parse (c :: rest) = None ->
  strMatch fencedBlock (c :: rest) = None ->
  strMatch braceSpan (c :: rest) = None ->
  recover (c :: rest) = inr (synthesized (c :: rest)).
Proof.
  intros Hparse Hfenced Hbrace.
  unfold recover, parseContent. rewrite Hparse, Hfenced, Hbrace.
  reflexivity.
Qed.

(** The fenced block and the plain text of the specification's
    examples. *)
Lemma recover_examples :
  recover (js "here you go:
```json
" ++ jsq "{'errorExplanation':'A','reasoning':'B','fixedCode':'C'}" ++ js "
```")
  = inr (mkResult (JStr (js "A")) (JStr (js "B")) (JStr (js "C")))
  /\ recover (js "Hello, your code is fine")
     = inr (synthesized (js "Hello, your code is fine")).
Proof.
  split; vm_compute; reflexivity.
Qed.

(** C5 -- Result Recovery totality, at two texts.  An answer in prose
    that holds a brace pair reaches the second [JSON.parse], which sits
    in the catch block outside any try: the SyntaxError leaves the
    recovery, and both handlers answer with status 500 and the parse
    error as the message.  The text [null] parses, and the first
    property read on the parsed null throws a TypeError. *)
Theorem recovery_throws :
  JSON_parse proseAnswer = None
  /\ strMatch fencedBlock proseAnswer = None
  /\ strMatch braceSpan proseAnswer = Some (mkMatch (js "{ i++ }") None)
  /\ recover proseAnswer = inl (SyntaxErrorIn (js "{ i++ }"))
  /\ recover (js "null") = inl (TypeErrorNull (js "errorExplanation"))
  /\ fst (GeminiRoute.POST (RT := asciiRuntime) keyedEnv
            (answering proseAnswer) codeForm)
     = jsonStatus (ErrorBody (js "Unexpected token in JSON") None) 500
  /\ fst (ProviderRoute.POST (RT := asciiRuntime) keyedEnv
            (answeringAll proseAnswer) codeForm)
     = jsonStatus
         (ErrorBody (js "AI Provider Error: Unexpected token in JSON"
                     ++ ProviderRoute.setupInstructions) None) 500.
Proof.
  repeat split; vm_compute; reflexivity.
Qed.

(** The claim of an exact round trip fails at an empty explanation. *)
Lemma roundtrip_counterexample :
  ~ (forall (content : jsstring) (members : list (jsstring * JSValue))
            (a b c : JSValue),
       JSON_parse content = Some (JObj members) ->
       lookup (js "errorExplanation") members = Some a ->
       lookup (js "reasoning") members = Some b ->
       lookup (js "fixedCode") members = Some c ->
       recover content = inr (mkResult a b c)).
Proof.
  intros H.
  specialize (H (jsq "{'errorExplanation':'','reasoning':'r','fixedCode':'c'}")
                [ (js "errorExplanation", JStr []);
                  (js "reasoning", JStr (js "r"));
                  (js "fixedCode", JStr (js "c")) ]
                (JStr []) (JStr (js "r")) (JStr (js "c"))).
  assert (Hrec : recover (jsq "{'errorExplanation':'','reasoning':'r','fixedCode':'c'}")
                 = inr (mkResult (JStr noExplanation) (JStr (js "r"))
                          (JStr (js "c"))))
    by (vm_compute; reflexivity).
  rewrite Hrec in H.
  assert (Habs : @inr Thrown _ (mkResult (JStr noExplanation) (JStr (js "r"))
                                  (JStr (js "c")))
                 = inr (mkResult (JStr []) (JStr (js "r")) (JStr (js "c"))))
    by (apply H; vm_compute; reflexivity).
  vm_compute in Habs. discriminate Habs.
Qed.

(** C6 -- Result Recovery round-trip, as the code has it.  For a text
    that parses to an object holding truthy values (non-empty strings in
    particular) under the three canonical keys, recovery returns exactly
    these three values. *)
Theorem roundtrip_truthy :
  forall (content : jsstring) (members : list (jsstring * JSValue))
         (a b c : JSValue),
    JSON_parse content = Some (JObj members) ->
    lookup (js "errorExplanation") members = Some a ->
    lookup (js "reasoning") members = Some b ->
    lookup (js "fixedCode") members = Some c ->
    truthy a = true -> truthy b = true -> truthy c = true ->
    recover content = inr (mkResult a b c).
Proof.
  intros content members a b c Hparse Ha Hb Hc Ta Tb Tc.
  unfold recover. rewrite (parseContent_parsed content _ Hparse).
  rewrite debugResult_object.
  unfold spec_resolve, spec_firstPresent.
  rewrite Ha, Hb, Hc, Ta, Tb, Tc. reflexivity.
Qed.

(** The round trip on an answer in the shape that was asked for. *)
Lemma roundtrip_truthy_witness :
  recover goodAnswer
  = inr (mkResult (JStr (js "x is undefined"))
           (JStr (js "x was never assigned")) (JStr (js "x = 1"))).
Proof.
  apply (roundtrip_truthy goodAnswer
           [ (js "errorExplanation", JStr (js "x is undefined"));
             (js "reasoning", JStr (js "x was never assigned"));
             (js "fixedCode", JStr (js "x = 1")) ]);
    vm_compute; reflexivity.
Defined.

(** A key that is present with the empty string is passed over. *)
Lemma aliasing_counterexample :
  ~ (forall (content : jsstring) (members : list (jsstring * JSValue)),
       JSON_parse content = Some (JObj members) ->
       recover content = inr (spec_resolve (fun _ => true) members)).
Proof.
  intros H.
  specialize (H (jsq "{'errorExplanation':'','explanation':'X'}")
                [ (js "errorExplanation", JStr []);
                  (js "explanation", JStr (js "X")) ]).
  assert (Hrec : recover (jsq "{'errorExplanation':'','explanation':'X'}")
                 = inr (mkResult (JStr (js "X")) (JStr noReasoning)
                          (JStr noFixedCode)))
    by (vm_compute; reflexivity).
  rewrite Hrec in H.
  assert (Habs : @inr Thrown _ (mkResult (JStr (js "X")) (JStr noReasoning)
                                  (JStr noFixedCode))
                 = inr (spec_resolve (fun _ => true)
                          [ (js "errorExplanation", JStr []);
                            (js "explanation", JStr (js "X")) ]))
    by (apply H; vm_compute; reflexivity).
  vm_compute in Habs. discriminate Habs.
Qed.

(** Where every value the object holds is truthy, a key counts as soon
    as the object has it. *)
Lemma resolve_agrees_on_truthy members :
  (forall key v, lookup key members = Some v -> truthy v = true) ->
  spec_resolve truthy members = spec_resolve (fun _ => true) members.
Proof.
  intros Hall. unfold spec_resolve, spec_firstPresent.
  repeat match goal with
  | |- context [lookup ?k members] =>
      let H := fresh "H" in
      destruct (lookup k members) as [?v|] eqn:H;
      [rewrite (Hall _ _ H)|]
  end; reflexivity.
Qed.

(** C7 -- Result Recovery aliasing and defaults, as the code has it.
    On a candidate object, errorExplanation is the first truthy value
    among those under errorExplanation and explanation, else the
    placeholder; reasoning the first truthy among reasoning and reason,
    else its placeholder; fixedCode the first truthy among fixedCode,
    code and correctedCode, else its placeholder.  A key whose value is
    falsy (the empty string, zero, false, null) counts as absent.  The
    text with the three aliases explanation, reason and code yields
    their three values. *)
Theorem aliasing_and_defaults :
  (forall members : list (jsstring * JSValue),
     debugResult (JObj members) = inr (spec_resolve truthy members))
  /\ spec_resolve truthy [] = placeholders
  /\ recover (jsq "{'explanation':'X','reason':'Y','code':'Z'}")
     = inr (mkResult (JStr (js "X")) (JStr (js "Y")) (JStr (js "Z")))
  /\ recover (jsq "{'errorExplanation':'','explanation':'X'}")
     = inr (mkResult (JStr (js "X")) (JStr noReasoning) (JStr noFixedCode)).
Proof.
  split; [exact debugResult_object|].
  repeat split; vm_compute; reflexivity.
Qed.

(** C10 -- The JSON-scalar edge of recovery.  A text that [JSON.parse]
    accepts is the candidate itself, whatever it parses to: none of the
    fenced block, the brace span and the synthesized result is tried.
    When it parses to a number, a string, a boolean or an array, no
    property is defined on it and the result is the three placeholders,
    in which the text no longer appears; when it parses to null the
    first property read throws a TypeError.  So it is for the texts
    [42], a quoted string, [true], [false] and [null]. *)
Theorem scalar_json_placeholders :
  forall (content : jsstring) (v : JSValue),
    JSON_parse content = Some v ->
    parseContent content = inr v
    /\ match v with
       | JNum _ | JStr _ | JBool _ | JArr _ =>
           recover content = inr placeholders
       | JNull => recover content = inl (TypeErrorNull (js "errorExplanation"))
       | JObj members => recover content = inr (spec_resolve truthy members)
       end
    /\ placeholders <> synthesized content
    /\ recover (js "42") = inr placeholders
    /\ recover (jsq "'hello'") = inr placeholders
    /\ recover (js "true") = inr placeholders
    /\ recover (js "false") = inr placeholders
    /\ recover (js "null") = inl (TypeErrorNull (js "errorExplanation")).
Proof.
  intros content v Hparse.
  pose proof (parseContent_parsed content v Hparse) as Hcand.
  split; [exact Hcand|].
  split.
  { unfold recover. rewrite Hcand.
    destruct v; reflexivity. }
  split.
  { intros Heq. apply (f_equal reasoning) in Heq. vm_compute in Heq.
    discriminate Heq. }
  repeat split; vm_compute; reflexivity.
Qed.

(** The text of a number. *)
Lemma scalar_json_placeholders_witness :
  JSON_parse (js "42") = Some (JNum (mkNumber false 42 0))
  /\ parseContent (js "42") = inr (JNum (mkNumber false 42 0))
  /\ recover (js "42") = inr placeholders.
Proof.
  assert (Hparse : JSON_parse (js "42") = Some (JNum (mkNumber false 42 0)))
    by (vm_compute; reflexivity).
  destruct (scalar_json_placeholders (js "42") _ Hparse) as [Hcand [Hrec _]].
  repeat split; assumption.
Defined.

(* ================================================================= *)
(** ** Error responses and results of either handler *)

Lemma json_error_is_error error details st :
  isErrorResponse (jsonStatus (ErrorBody error details) st).
Proof. exists error, details. reflexivity. Qed.

(** A response returned from inside the loop is an error response. *)
Lemma loop_returned_is_error env backend genAI names parts :
  forall remaining attempt idx lastError log r log',
    GeminiRoute.fallbackLoop env backend genAI names parts
      remaining attempt idx lastError log = (GeminiRoute.Returned r, log') ->
    isErrorResponse r.
Proof.
  induction remaining as [|remaining IH];
    intros attempt idx lastError log r log' H.
  - discriminate H.
  - destruct (backend genAI (GeminiRoute.mkCall (nth idx names []) parts))
      as [text|e] eqn:Hcall.
    + rewrite (loop_success env backend genAI names parts
                 remaining attempt idx lastError log text Hcall) in H.
      discriminate H.
    + rewrite (loop_failure env backend genAI names parts
                 remaining attempt idx lastError log e Hcall) in H.
      destruct (GeminiRoute.mentionsNotFound (errorMessageOf e)
                && (Z.of_nat attempt <? Z.of_nat (List.length names) - 1)%Z).
      * eapply IH. exact H.
      * injection H as <- _. apply json_error_is_error.
Qed.

Lemma gemini_buildParts_inl {RT : Runtime} form r :
  GeminiRoute.buildParts form = inl r -> isErrorResponse r.
Proof.
  unfold GeminiRoute.buildParts.
  destruct (file form) as [f|].
  - destruct (maxSize _ <? _)%Z.
    + intros H. injection H as <-. apply json_error_is_error.
    + destruct (startsWith _ _); discriminate.
  - discriminate.
Qed.

Lemma provider_buildParts_inl {RT : Runtime} form r :
  ProviderRoute.buildParts form = inl r -> isErrorResponse r.
Proof.
  unfold ProviderRoute.buildParts.
  destruct (file form) as [f|].
  - destruct (maxSize _ <? _)%Z.
    + intros H. injection H as <-. apply json_error_is_error.
    + destruct (startsWith _ _); discriminate.
  - discriminate.
Qed.

(** A response of the Gemini handler is an error response, or the
    result recovered from a non-empty text, with status 200. *)
Lemma gemini_POST_cases {RT : Runtime} env backend form :
  let r := fst (GeminiRoute.POST env backend form) in
  isErrorResponse r
  \/ exists content d,
       content <> [] /\ recover content = inr d /\ r = json (ResultBody d).
Proof.
  unfold GeminiRoute.POST.
  destruct (GeminiRoute.getGeminiClient env) as [t|genAI];
    [left; apply json_error_is_error|].
  assert (Hrest :
    let r := fst match GeminiRoute.buildParts form with
                 | inl r => (r, [])
                 | inr parts =>
                     match GeminiRoute.dispatch env backend genAI
                             GeminiRoute.modelNamesToTry parts with
                     | (GeminiRoute.Returned r, log) => (r, log)
                     | (GeminiRoute.Exhausted lastError, log) =>
                         (GeminiRoute.noResponseFromAnyModel
                            GeminiRoute.modelNamesToTry lastError, log)
                     | (GeminiRoute.Got content, log) =>
                         (GeminiRoute.respond env content, log)
                     end
                 end in
    isErrorResponse r
    \/ exists content d,
         content <> [] /\ recover content = inr d /\ r = json (ResultBody d)).
  { destruct (GeminiRoute.buildParts form) as [r|parts] eqn:Hparts.
    - left. exact (gemini_buildParts_inl form r Hparts).
    - unfold GeminiRoute.dispatch.
      destruct (GeminiRoute.fallbackLoop env backend genAI
                  GeminiRoute.modelNamesToTry parts
                  (List.length GeminiRoute.modelNamesToTry) 0 0 None [])
        as [[content|r|lastError] log] eqn:Hloop; cbn [fst].
      + unfold GeminiRoute.respond.
        destruct content as [|c content];
          [left; apply json_error_is_error|].
        destruct (recover (c :: content)) as [t|d] eqn:Hrec;
          [left; apply json_error_is_error|].
        right. exists (c :: content), d. repeat split; [discriminate|exact Hrec].
      + left. exact (loop_returned_is_error _ _ _ _ _ _ _ _ _ _ _ _ Hloop).
      + left. apply json_error_is_error. }
  destruct (file form); [exact Hrest|].
  destruct (isSet (code form)); [exact Hrest|].
  left. apply json_error_is_error.
Qed.

(** The same for the multi-provider handler. *)
Lemma provider_POST_cases {RT : Runtime} env backend form :
  let r := fst (ProviderRoute.POST env backend form) in
  isErrorResponse r
  \/ exists content d,
       content <> [] /\ recover content = inr d /\ r = json (ResultBody d).
Proof.
  unfold ProviderRoute.POST.
  assert (Hrest :
    let r := fst match ProviderRoute.buildParts form with
                 | inl r => (r, [])
                 | inr (userPrompt, parts) =>
                     match ProviderRoute.route env backend userPrompt parts with
                     | (inl aiError, log) =>
                         (ProviderRoute.aiProviderError aiError, log)
                     | (inr [], log) =>
                         (ProviderRoute.aiProviderError
                            (NewError (js "No response from AI")), log)
                     | (inr content, log) =>
                         (match recover content with
                          | inl aiError => ProviderRoute.aiProviderError aiError
                          | inr d => json (ResultBody d)
                          end, log)
                     end
                 end in
    isErrorResponse r
    \/ exists content d,
         content <> [] /\ recover content = inr d /\ r = json (ResultBody d)).
  { destruct (ProviderRoute.buildParts form) as [r|[userPrompt parts]] eqn:Hparts.
    - left. exact (provider_buildParts_inl form r Hparts).
    - destruct (ProviderRoute.route env backend userPrompt parts)
        as [[t|[|c content]] log]; cbn [fst];
        try (left; apply json_error_is_error).
      destruct (recover (c :: content)) as [t|d] eqn:Hrec;
        [left; apply json_error_is_error|].
      right. exists (c :: content), d. repeat split; [discriminate|exact Hrec]. }
  destruct (file form); [exact Hrest|].
  destruct (isSet (code form)); [exact Hrest|].
  left. apply json_error_is_error.
Qed.




(* ================================================================= *)
(** ** The prompt built from an upload and pasted code *)

Lemma startsWith_app (s rest : jsstring) : startsWith (s ++ rest) s = true.
Proof.
  induction s as [|c s IH]; [reflexivity|].
  simpl. rewrite N.eqb_refl. exact IH.
Qed.

Lemma includes_startsWith (s sub : jsstring) :
  startsWith s sub = true -> includes s sub = true.
Proof.
  intros H. destruct s; simpl; rewrite H; reflexivity.
Qed.

(** A text includes each of the pieces it is concatenated from. *)
Lemma includes_app (before s rest : jsstring) :
  includes (before ++ s ++ rest) s = true.
Proof.
  induction before as [|c before IH].
  - apply includes_startsWith. exact (startsWith_app s rest).
  - simpl. rewrite IH. apply orb_true_r.
Qed.


Lemma codeInstruction_cons (text : jsstring) :
  exists c rest, codeInstruction text = c :: rest.
Proof. do 2 eexists. reflexivity. Qed.




(* ================================================================= *)
(** ** The Gemini handler: keys, calls and responses *)

Lemma str_eqb_eq (a b : jsstring) : str_eqb a b = true -> a = b.
Proof.
  revert b; induction a as [|x a IH]; intros [|y b] H; try discriminate H.
  - reflexivity.
  - simpl in H. apply andb_true_iff in H. destruct H as [Hxy Hab].
    apply N.eqb_eq in Hxy. subst y. f_equal. apply IH. exact Hab.
Qed.

Lemma isSet_false_orString (s : option jsstring) (d : jsstring) :
  isSet s = false -> orString s d = d.
Proof. destruct s as [[|c r]|]; [reflexivity | discriminate | reflexivity]. Qed.

(** X1 -- Without a key in any of GEMINI_API_KEY, GOOGLE_API_KEY and
    GEMINI_KEY, the Gemini handler answers every request with status
    500 and the text that tells how to configure the key, and makes no
    call: the form is not even looked at, so an empty form or an
    oversized upload gets this answer too. *)
Theorem missing_key_precedes_everything :
  forall (RT : Runtime) (env : Env) (backend : GeminiRoute.Backend)
         (form : FormData),
    isSet (GEMINI_API_KEY env) = false ->
    isSet (GOOGLE_API_KEY env) = false ->
    isSet (GEMINI_KEY env) = false ->
    GeminiRoute.POST env backend form
    = (jsonStatus (ErrorBody GeminiRoute.missingKeyMessage None) 500, []).
Proof.
  intros RT env backend form H1 H2 H3.
  assert (Hclient : GeminiRoute.getGeminiClient env
                    = inl (NewError GeminiRoute.missingKeyMessage)).
  { unfold GeminiRoute.getGeminiClient, orOption. rewrite H2.
    destruct (GEMINI_API_KEY env) as [[|c r]|]; try discriminate H1;
      destruct (GEMINI_KEY env) as [[|c' r']|]; try discriminate H3;
      reflexivity. }
  unfold GeminiRoute.POST. rewrite Hclient. reflexivity.
Qed.

(** No key at all, and a form with nothing in it. *)
Lemma missing_key_precedes_everything_witness :
  GeminiRoute.POST (RT := asciiRuntime) bareEnv legacyOnly (mkForm None None)
  = (jsonStatus (ErrorBody GeminiRoute.missingKeyMessage None) 500, []).
Proof.
  apply (missing_key_precedes_everything asciiRuntime bareEnv legacyOnly
           (mkForm None None)); reflexivity.
Defined.

(** The loop reads the environment only through the response it
    returns on an error. *)
Lemma fallbackLoop_env env env' backend genAI names parts :
  (forall e, GeminiRoute.geminiErrorResponse env names e
             = GeminiRoute.geminiErrorResponse env' names e) ->
  forall remaining attempt idx lastError log,
    GeminiRoute.fallbackLoop env backend genAI names parts
      remaining attempt idx lastError log
    = GeminiRoute.fallbackLoop env' backend genAI names parts
        remaining attempt idx lastError log.
Proof.
  intros Hresp.
  induction remaining as [|remaining IH]; intros attempt idx lastError log.
  - reflexivity.
  - destruct (backend genAI (GeminiRoute.mkCall (nth idx names []) parts))
      as [text|e] eqn:Hcall.
    + rewrite (loop_success env backend genAI names parts
                 remaining attempt idx lastError log text Hcall),
              (loop_success env' backend genAI names parts
                 remaining attempt idx lastError log text Hcall).
      reflexivity.
    + rewrite (loop_failure env backend genAI names parts
                 remaining attempt idx lastError log e Hcall),
              (loop_failure env' backend genAI names parts
                 remaining attempt idx lastError log e Hcall).
      rewrite IH, Hresp. reflexivity.
Qed.

(** X2 -- When GEMINI_API_KEY is not set, the handler takes the key
    from GOOGLE_API_KEY, and from GEMINI_KEY when that is not set
    either; it then answers exactly as if that key had been given in
    GEMINI_API_KEY: same response, same calls. *)
Theorem alternative_key_equivalent :
  forall (RT : Runtime) (env : Env) (backend : GeminiRoute.Backend)
         (form : FormData) (key : jsstring),
    isSet (GEMINI_API_KEY env) = false ->
    orOption (GOOGLE_API_KEY env) (GEMINI_KEY env) = Some key ->
    isSet (Some key) = true ->
    GeminiRoute.getGeminiClient env = inr key
    /\ GeminiRoute.POST env backend form
       = GeminiRoute.POST (withGeminiKey (Some key) env) backend form.
Proof.
  intros RT env backend form key Hmain Halt Hset.
  assert (Hclient : GeminiRoute.getGeminiClient env = inr key).
  { unfold GeminiRoute.getGeminiClient. rewrite Halt.
    destruct (GEMINI_API_KEY env) as [[|c r]|]; try discriminate Hmain;
      destruct key; try discriminate Hset; reflexivity. }
  assert (Hclient' : GeminiRoute.getGeminiClient (withGeminiKey (Some key) env)
                     = inr key).
  { unfold GeminiRoute.getGeminiClient, withGeminiKey. cbn [GEMINI_API_KEY].
    destruct key; [discriminate Hset | reflexivity]. }
  split; [exact Hclient|].
  unfold GeminiRoute.POST. rewrite Hclient, Hclient'.
  unfold GeminiRoute.dispatch.
  destruct (file form); destruct (isSet (code form)); try reflexivity;
    destruct (GeminiRoute.buildParts form) as [r|parts]; try reflexivity;
    rewrite (fallbackLoop_env env (withGeminiKey (Some key) env) backend key
               GeminiRoute.modelNamesToTry parts (fun e => eq_refl));
    reflexivity.
Qed.

(** The key is given in GOOGLE_API_KEY, with another one in
    GEMINI_KEY. *)
Lemma alternative_key_equivalent_witness :
  GeminiRoute.POST (RT := asciiRuntime)
    (mkEnv None (Some (js "AIzaGoogle")) (Some (js "AIzaOther")) None None
       None None)
    (answering goodAnswer) codeForm
  = GeminiRoute.POST (RT := asciiRuntime)
      (mkEnv (Some (js "AIzaGoogle")) (Some (js "AIzaGoogle"))
         (Some (js "AIzaOther")) None None None None)
      (answering goodAnswer) codeForm.
Proof.
  apply (alternative_key_equivalent asciiRuntime
           (mkEnv None (Some (js "AIzaGoogle")) (Some (js "AIzaOther")) None
              None None None)
           (answering goodAnswer) codeForm (js "AIzaGoogle"));
    reflexivity.
Defined.

(** What a run of the loop amounts to: the candidates from [attempt]
    up to some candidate [k] are called, all before [k] fail as
    unknown models, and candidate [k] either answers, or fails with an
    error that is returned, which is of another kind unless [k] is the
    last candidate. *)
Lemma loop_outcome env backend genAI names parts :
  forall remaining attempt lastError log,
    (attempt + remaining = List.length names)%nat ->
    (1 <= remaining)%nat ->
    exists k,
      (attempt <= k < List.length names)%nat
      /\ snd (GeminiRoute.fallbackLoop env backend genAI names parts
                remaining attempt attempt lastError log)
         = log ++ callsTo (firstn (S k - attempt) (skipn attempt names)) parts
      /\ (forall i, (attempt <= i < k)%nat ->
                    modelNotFound backend genAI parts (nth i names []))
      /\ ((exists text,
             backend genAI (GeminiRoute.mkCall (nth k names []) parts)
               = Responded text
             /\ fst (GeminiRoute.fallbackLoop env backend genAI names parts
                       remaining attempt attempt lastError log)
                = GeminiRoute.Got text)
          \/ (exists e,
                backend genAI (GeminiRoute.mkCall (nth k names []) parts)
                  = Rejected e
                /\ fst (GeminiRoute.fallbackLoop env backend genAI names parts
                          remaining attempt attempt lastError log)
                   = GeminiRoute.Returned
                       (GeminiRoute.geminiErrorResponse env names e)
                /\ (GeminiRoute.mentionsNotFound (errorMessageOf e) = false
                    \/ S k = List.length names))).
Proof.
  induction remaining as [|remaining IH]; intros attempt lastError log Hlen Hpos.
  - lia.
  - destruct (backend genAI (GeminiRoute.mkCall (nth attempt names []) parts))
      as [text|e] eqn:Hcall.
    + exists attempt.
      rewrite (loop_success env backend genAI names parts
                 remaining attempt attempt lastError log text Hcall).
      split; [lia|]. split.
      { cbn [snd]. rewrite (firstn_skipn_from _ names attempt attempt []) by lia.
        replace (S attempt - S attempt)%nat with 0%nat by lia. reflexivity. }
      split; [intros i Hi; lia|].
      left. exists text. split; [exact Hcall | reflexivity].
    + rewrite (loop_failure env backend genAI names parts
                 remaining attempt attempt lastError log e Hcall).
      destruct (GeminiRoute.mentionsNotFound (errorMessageOf e)) eqn:Hmsg;
        [destruct (Z.of_nat attempt <? Z.of_nat (List.length names) - 1)%Z
           eqn:Hlast|]; cbn [andb].
      * apply Z.ltb_lt in Hlast.
        destruct (IH (S attempt) (Some e)
                    (log ++ callsTo [nth attempt names []] parts))
          as [k [Hk [Hlog [Hskip Hend]]]]; [lia|lia|].
        exists k. split; [lia|]. split.
        { rewrite Hlog.
          rewrite (firstn_skipn_from _ names k attempt []) by lia.
          unfold callsTo. simpl map. rewrite <- app_assoc. reflexivity. }
        split.
        { intros i Hi. destruct (Nat.eq_dec i attempt) as [->|Hne].
          - exists e. split; [exact Hcall | exact Hmsg].
          - apply Hskip. lia. }
        exact Hend.
      * apply Z.ltb_ge in Hlast.
        exists attempt. split; [lia|]. split.
        { cbn [snd]. rewrite (firstn_skipn_from _ names attempt attempt []) by lia.
          replace (S attempt - S attempt)%nat with 0%nat by lia. reflexivity. }
        split; [intros i Hi; lia|].
        right. exists e. split; [exact Hcall|]. split; [reflexivity|].
        right. lia.
      * exists attempt. split; [lia|]. split.
        { cbn [snd]. rewrite (firstn_skipn_from _ names attempt attempt []) by lia.
          replace (S attempt - S attempt)%nat with 0%nat by lia. reflexivity. }
        split; [intros i Hi; lia|].
        right. exists e. split; [exact Hcall|]. split; [reflexivity|].
        left. exact Hmsg.
Qed.

(** The same for the whole loop over a list of at least one name. *)
Lemma dispatch_outcome env backend genAI names parts :
  names <> [] ->
  exists k,
    (k < List.length names)%nat
    /\ snd (GeminiRoute.dispatch env backend genAI names parts)
       = callsTo (firstn (S k) names) parts
    /\ (forall i, (i < k)%nat ->
                  modelNotFound backend genAI parts (nth i names []))
    /\ ((exists text,
           backend genAI (GeminiRoute.mkCall (nth k names []) parts)
             = Responded text
           /\ fst (GeminiRoute.dispatch env backend genAI names parts)
              = GeminiRoute.Got text)
        \/ (exists e,
              backend genAI (GeminiRoute.mkCall (nth k names []) parts)
                = Rejected e
              /\ fst (GeminiRoute.dispatch env backend genAI names parts)
                 = GeminiRoute.Returned
                     (GeminiRoute.geminiErrorResponse env names e)
              /\ (GeminiRoute.mentionsNotFound (errorMessageOf e) = false
                  \/ S k = List.length names))).
Proof.
  intros Hne. unfold GeminiRoute.dispatch.
  destruct (loop_outcome env backend genAI names parts
              (List.length names) 0 None [])
    as [k [Hk [Hlog [Hskip Hend]]]];
    [lia | destruct names; [congruence | simpl; lia] |].
  exists k. split; [lia|]. split.
  { rewrite Hlog, Nat.sub_0_r. reflexivity. }
  split; [intros i Hi; apply Hskip; lia | exact Hend].
Qed.

Lemma includes_split (t before s rest : jsstring) :
  t = before ++ s ++ rest -> includes t s = true.
Proof. intros ->. apply includes_app. Qed.

(** X3 -- When the service knows none of the three models, the
    dispatcher calls all three, in order, and the request fails with
    the response for the error of the last call: its text explains
    that none of the models worked, lists the three names that were
    tried, and ends with the message of that error. *)
Theorem all_candidates_unknown :
  forall (RT : Runtime) (env : Env) (backend : GeminiRoute.Backend)
         (genAI : jsstring) (parts : list Part) (e : JSError),
    modelNotFound backend genAI parts (js "gemini-1.5-flash") ->
    modelNotFound backend genAI parts (js "gemini-1.5-pro") ->
    backend genAI (GeminiRoute.mkCall (js "gemini-pro") parts) = Rejected e ->
    GeminiRoute.mentionsNotFound (errorMessageOf e) = true ->
    let names := GeminiRoute.modelNamesToTry in
    let failure := GeminiRoute.geminiErrorResponse env names e in
    GeminiRoute.dispatch env backend genAI names parts
    = (GeminiRoute.Returned failure, callsTo names parts)
    /\ (exists text details,
          body failure = ErrorBody text details
          /\ startsWith text
               (js "Gemini API error: None of the available Gemini models worked with your API key.")
             = true
          /\ includes text
               (js "Tried models: gemini-1.5-flash, gemini-1.5-pro, gemini-pro")
             = true
          /\ includes text (js "Original error: " ++ errorMessageOf e) = true)
    /\ (forall form,
          GeminiRoute.getGeminiClient env = inr genAI ->
          hasInput form ->
          GeminiRoute.buildParts form = inr parts ->
          GeminiRoute.POST env backend form = (failure, callsTo names parts)).
Proof.
  intros RT env backend genAI parts e H1 H2 H3 Hmsg names failure.
  assert (Hrun : GeminiRoute.dispatch env backend genAI names parts
                 = (GeminiRoute.Returned failure, callsTo names parts)).
  { destruct (dispatch_outcome env backend genAI names parts)
      as [k [Hk [Hlog [Hskip Hend]]]]; [discriminate|].
    assert (Hall : forall i, (i < 3)%nat ->
              modelNotFound backend genAI parts (nth i names [])).
    { intros i Hi. destruct i as [|[|[|i]]];
        [exact H1 | exact H2 | exists e; split; assumption | lia]. }
    assert (Hk3 : k = 2%nat).
    { destruct Hend as [[text [Hok _]] | [e' [Hrej [_ [Hother | Hlast]]]]].
      - destruct (Hall k Hk) as [e' [Hrej _]]. congruence.
      - destruct (Hall k Hk) as [e'' [Hrej' Hmsg']].
        assert (e'' = e') by congruence. subst e''. congruence.
      - simpl in Hlast. lia. }
    subst k.
    destruct Hend as [[text [Hok _]] | [e' [Hrej [Hfst _]]]].
    - change (nth 2 names []) with (js "gemini-pro") in Hok. congruence.
    - change (nth 2 names []) with (js "gemini-pro") in Hrej.
      assert (e' = e) by congruence. subst e'.
      rewrite (surjective_pairing
                 (GeminiRoute.dispatch env backend genAI names parts)).
      rewrite Hfst, Hlog. reflexivity. }
  split; [exact Hrun|]. split.
  - unfold failure, GeminiRoute.geminiErrorResponse, GeminiRoute.helpfulMessage.
    fold (errorMessageOf e). rewrite Hmsg. cbv iota.
    eexists. eexists. split; [reflexivity|]. split; [|split].
    + vm_compute. reflexivity.
    + match goal with
      | |- includes (?a ++ ?b ++ ?c ++ ?rest) ?s = true =>
          apply (includes_split _ (a ++ firstn (List.length b - 14) b) s rest)
      end.
      reflexivity.
    + match goal with
      | |- includes (?a ++ ?b ++ ?c ++ ?d ++ ?f ++ ?g ++ ?h ++ ?i ++ ?m) ?s
           = true =>
          apply (includes_split _
                   (a ++ b ++ c ++ d ++ f ++ g ++ h
                    ++ firstn (List.length i - 16) i) s [])
      end.
      rewrite app_nil_r. reflexivity.
  - intros form Hclient Hin Hparts.
    rewrite (POST_after_parts env backend form genAI parts Hclient Hin Hparts).
    fold names. rewrite Hrun. reflexivity.
Qed.

(** The three calls and the response on a service that knows no
    model. *)
Lemma all_candidates_unknown_witness :
  GeminiRoute.POST (RT := asciiRuntime) keyedEnv unknownModels codeForm
  = (GeminiRoute.geminiErrorResponse keyedEnv GeminiRoute.modelNamesToTry
       notFoundError,
     callsTo GeminiRoute.modelNamesToTry
       [Text (GeminiRoute.systemPrompt ++ nl ++ nl
              ++ codeInstruction (js "print(x)"))])
  /\ statusCode (GeminiRoute.geminiErrorResponse keyedEnv
                    GeminiRoute.modelNamesToTry notFoundError) = 404%Z.
Proof.
  assert (Hnf : forall name,
            modelNotFound unknownModels
              (js "AIzaSyA-0123456789abcdefghijklmnopqrstuv")
              [Text (GeminiRoute.systemPrompt ++ nl ++ nl
                     ++ codeInstruction (js "print(x)"))] name)
    by (intros name; exists notFoundError; split; vm_compute; reflexivity).
  destruct (all_candidates_unknown asciiRuntime keyedEnv unknownModels
              (js "AIzaSyA-0123456789abcdefghijklmnopqrstuv")
              [Text (GeminiRoute.systemPrompt ++ nl ++ nl
                     ++ codeInstruction (js "print(x)"))]
              notFoundError (Hnf _) (Hnf _) eq_refl)
    as [_ [_ Hpost]]; [vm_compute; reflexivity|].
  split.
  - apply Hpost; [vm_compute; reflexivity | right; vm_compute; reflexivity
                  | vm_compute; reflexivity].
  - vm_compute. reflexivity.
Defined.

(** X4 -- The loop over the three model names is never left by
    running out of candidates: it ends with an answer or with the
    response to an error, so the response that begins [Failed to get
    response from any Gemini model], which follows the loop in the
    handler, is never sent.  The same holds over any list of at least
    one name. *)
Theorem dispatch_never_exhausted :
  forall (env : Env) (backend : GeminiRoute.Backend) (genAI : jsstring)
         (parts : list Part) (lastError : option JSError),
    fst (GeminiRoute.dispatch env backend genAI GeminiRoute.modelNamesToTry
           parts)
    <> GeminiRoute.Exhausted lastError
    /\ forall names,
         names <> [] ->
         fst (GeminiRoute.dispatch env backend genAI names parts)
         <> GeminiRoute.Exhausted lastError.
Proof.
  intros env backend genAI parts lastError.
  assert (General : forall names,
            names <> [] ->
            fst (GeminiRoute.dispatch env backend genAI names parts)
            <> GeminiRoute.Exhausted lastError).
  { intros names Hne.
    destruct (dispatch_outcome env backend genAI names parts Hne)
      as [k [_ [_ [_ [[text [_ Hfst]] | [e [_ [Hfst _]]]]]]]];
      rewrite Hfst; discriminate. }
  split; [apply General; discriminate | exact General].
Qed.

(** A loop over one name only, on a service that knows no model. *)
Lemma dispatch_never_exhausted_witness :
  fst (GeminiRoute.dispatch keyedEnv unknownModels (js "key")
         [js "gemini-pro"] bareParts)
  <> GeminiRoute.Exhausted None.
Proof.
  destruct (dispatch_never_exhausted keyedEnv unknownModels (js "key")
              bareParts None) as [_ H].
  apply H. discriminate.
Defined.

(** The ways the Gemini handler answers, with the calls it makes. *)
Lemma gemini_POST_outcome {RT : Runtime} env backend form :
  let names := GeminiRoute.modelNamesToTry in
  let r := fst (GeminiRoute.POST env backend form) in
  let log := snd (GeminiRoute.POST env backend form) in
  (log = []
   /\ (r = jsonStatus (ErrorBody GeminiRoute.missingKeyMessage None) 500
       \/ r = noInput
       \/ exists fileType, r = tooLarge fileType))
  \/ exists genAI parts k,
       GeminiRoute.getGeminiClient env = inr genAI
       /\ GeminiRoute.buildParts form = inr parts
       /\ (k < 3)%nat
       /\ log = callsTo (firstn (S k) names) parts
       /\ (forall i, (i < k)%nat ->
                     modelNotFound backend genAI parts (nth i names []))
       /\ ((exists text,
              backend genAI (GeminiRoute.mkCall (nth k names []) parts)
                = Responded text
              /\ r = GeminiRoute.respond env text)
           \/ (exists e,
                 backend genAI (GeminiRoute.mkCall (nth k names []) parts)
                   = Rejected e
                 /\ r = GeminiRoute.geminiErrorResponse env names e)).
Proof.
  intros names r log. unfold r, log, GeminiRoute.POST.
  destruct (GeminiRoute.getGeminiClient env) as [t|genAI] eqn:Hclient.
  { left. split; [reflexivity|]. left.
    unfold GeminiRoute.getGeminiClient in Hclient.
    destruct (GEMINI_API_KEY env) as [[|c r0]|];
      destruct (orOption (GOOGLE_API_KEY env) (GEMINI_KEY env)) as [[|c' r']|];
      try discriminate Hclient; injection Hclient as <-; reflexivity. }
  assert (Hrest :
    let res := match GeminiRoute.buildParts form with
               | inl r => (r, [])
               | inr parts =>
                   match GeminiRoute.dispatch env backend genAI names parts with
                   | (GeminiRoute.Returned r, log) => (r, log)
                   | (GeminiRoute.Exhausted lastError, log) =>
                       (GeminiRoute.noResponseFromAnyModel names lastError, log)
                   | (GeminiRoute.Got content, log) =>
                       (GeminiRoute.respond env content, log)
                   end
               end in
    (snd res = []
     /\ (fst res = jsonStatus (ErrorBody GeminiRoute.missingKeyMessage None) 500
         \/ fst res = noInput
         \/ exists fileType, fst res = tooLarge fileType))
    \/ exists genAI' parts k,
         inr genAI = @inr Thrown _ genAI'
         /\ GeminiRoute.buildParts form = inr parts
         /\ (k < 3)%nat
         /\ snd res = callsTo (firstn (S k) names) parts
         /\ (forall i, (i < k)%nat ->
                       modelNotFound backend genAI' parts (nth i names []))
         /\ ((exists text,
                backend genAI' (GeminiRoute.mkCall (nth k names []) parts)
                  = Responded text
                /\ fst res = GeminiRoute.respond env text)
             \/ (exists e,
                   backend genAI' (GeminiRoute.mkCall (nth k names []) parts)
                     = Rejected e
                   /\ fst res = GeminiRoute.geminiErrorResponse env names e))).
  { destruct (GeminiRoute.buildParts form) as [r0|parts] eqn:Hparts.
    - left. split; [reflexivity|]. right. right.
      unfold GeminiRoute.buildParts in Hparts.
      destruct (file form) as [f|]; [|discriminate Hparts].
      destruct (maxSize _ <? _)%Z.
      + injection Hparts as <-. eexists. reflexivity.
      + destruct (startsWith _ _); discriminate Hparts.
    - right.
      destruct (dispatch_outcome env backend genAI names parts)
        as [k [Hk [Hlog [Hskip Hend]]]]; [discriminate|].
      exists genAI, parts, k.
      split; [reflexivity|]. split; [reflexivity|]. split; [exact Hk|].
      destruct (GeminiRoute.dispatch env backend genAI names parts)
        as [exit log0]. cbn [fst snd] in *.
      destruct Hend as [[text [Hok Hfst]] | [e [Hrej [Hfst _]]]];
        subst exit; cbn [fst snd].
      + split; [exact Hlog|]. split; [exact Hskip|].
        left. exists text. split; [exact Hok | reflexivity].
      + split; [exact Hlog|]. split; [exact Hskip|].
        right. exists e. split; [exact Hrej | reflexivity]. }
  destruct (file form); [exact Hrest|].
  destruct (isSet (code form)); [exact Hrest|].
  left. split; [reflexivity|]. right. left. reflexivity.
Qed.

(** X5 -- Whatever the service does, the calls of a request to the
    Gemini handler are an initial segment of the three candidates, in
    their order and all with the same parts.  There is none when the
    request is turned down before the loop: without a key, without
    input, or with an upload over the limit.  Otherwise there are
    between one and three: every call but the last failed as an unknown
    model, and a loop that stops before the third candidate stops at a
    call that did not fail that way. *)
Theorem calls_follow_the_candidates :
  forall (RT : Runtime) (env : Env) (backend : GeminiRoute.Backend)
         (form : FormData),
    let names := GeminiRoute.modelNamesToTry in
    let log := snd (GeminiRoute.POST env backend form) in
    (forall initError,
       GeminiRoute.getGeminiClient env = inl initError -> log = [])
    /\ (~ hasInput form -> log = [])
    /\ (forall r, GeminiRoute.buildParts form = inl r -> log = [])
    /\ (forall genAI parts,
          GeminiRoute.getGeminiClient env = inr genAI ->
          hasInput form ->
          GeminiRoute.buildParts form = inr parts ->
          exists k,
            (1 <= k <= 3)%nat
            /\ log = callsTo (firstn k names) parts
            /\ List.length log = k
            /\ (forall i, (S i < k)%nat ->
                          modelNotFound backend genAI parts (nth i names []))
            /\ ((k < 3)%nat ->
                ~ modelNotFound backend genAI parts (nth (k - 1) names []))).
Proof.
  intros RT env backend form names log. unfold log.
  split; [|split; [|split]].
  - intros initError H. unfold GeminiRoute.POST. rewrite H. reflexivity.
  - intros Hno. unfold GeminiRoute.POST.
    destruct (GeminiRoute.getGeminiClient env) as [t|genAI]; [reflexivity|].
    destruct (file form) as [f|] eqn:Hf.
    + exfalso. apply Hno. left. rewrite Hf. discriminate.
    + destruct (isSet (code form)) eqn:Hcode; [|reflexivity].
      exfalso. apply Hno. right. exact Hcode.
  - intros r H. unfold GeminiRoute.POST.
    destruct (GeminiRoute.getGeminiClient env) as [t|genAI]; [reflexivity|].
    rewrite H. destruct (file form); destruct (isSet (code form)); reflexivity.
  - intros genAI parts Hclient Hin Hparts.
    rewrite (POST_after_parts env backend form genAI parts Hclient Hin Hparts).
    destruct (dispatch_outcome env backend genAI names parts)
      as [k [Hk [Hlog [Hskip Hend]]]]; [discriminate|].
    change (List.length names) with 3%nat in Hk, Hend.
    assert (Hsnd :
      snd (match GeminiRoute.dispatch env backend genAI names parts with
           | (GeminiRoute.Returned r, log0) => (r, log0)
           | (GeminiRoute.Exhausted lastError, log0) =>
               (GeminiRoute.noResponseFromAnyModel names lastError, log0)
           | (GeminiRoute.Got content, log0) =>
               (GeminiRoute.respond env content, log0)
           end)
      = callsTo (firstn (S k) names) parts).
    { rewrite <- Hlog.
      destruct (GeminiRoute.dispatch env backend genAI names parts)
        as [[content|r|lastError] log0]; reflexivity. }
    fold names. rewrite Hsnd.
    exists (S k). split; [lia|]. split; [reflexivity|]. split.
    { unfold callsTo. rewrite length_map, length_firstn.
      change (List.length names) with 3%nat. lia. }
    split; [intros i Hi; apply Hskip; lia|].
    intros Hearly [e' [Hrej' Hmsg']].
    replace (S k - 1)%nat with k in Hrej' by lia.
    destruct Hend as [[text [Hok _]] | [e [Hrej [_ [Hother | Hlast]]]]].
    + congruence.
    + assert (e' = e) by congruence. subst e'. congruence.
    + lia.
Qed.

(** A request with pasted code, on a service that knows only the
    third model. *)
Lemma calls_follow_the_candidates_witness :
  exists k,
    (1 <= k <= 3)%nat
    /\ snd (GeminiRoute.POST (RT := asciiRuntime) keyedEnv legacyOnly codeForm)
       = callsTo (firstn k GeminiRoute.modelNamesToTry)
           [Text (GeminiRoute.systemPrompt ++ nl ++ nl
                  ++ codeInstruction (js "print(x)"))].
Proof.
  destruct (calls_follow_the_candidates asciiRuntime keyedEnv legacyOnly
              codeForm) as (_ & _ & _ & H).
  destruct (H (js "AIzaSyA-0123456789abcdefghijklmnopqrstuv")
              [Text (GeminiRoute.systemPrompt ++ nl ++ nl
                     ++ codeInstruction (js "print(x)"))])
    as (k & Hk & Hlog & _);
    [ vm_compute; reflexivity | right; reflexivity | vm_compute; reflexivity | ].
  exists k. split; [exact Hk | exact Hlog].
Defined.

(* ================================================================= *)
(** ** The multi-provider handler: routing, calls and responses *)

(** The routing makes no call or one call. *)
Lemma route_log_cases {RT : Runtime} env backend userPrompt parts :
  snd (ProviderRoute.route env backend userPrompt parts) = []
  \/ exists call, snd (ProviderRoute.route env backend userPrompt parts) = [call].
Proof.
  unfold ProviderRoute.route, ProviderRoute.callGemini.
  repeat match goal with
  | |- context [if ?c then _ else _] => destruct c
  | |- context [match ProviderRoute.getGeminiClient ?e with _ => _ end] =>
      destruct (ProviderRoute.getGeminiClient e)
  end; cbn [snd]; solve [left; reflexivity | right; eexists; reflexivity].
Qed.

(** The ways the multi-provider handler answers. *)
Lemma provider_POST_outcome {RT : Runtime} env backend form :
  let r := fst (ProviderRoute.POST env backend form) in
  let log := snd (ProviderRoute.POST env backend form) in
  (log = [] /\ (r = noInput \/ exists fileType, r = tooLarge fileType))
  \/ exists userPrompt parts,
       ProviderRoute.buildParts form = inr (userPrompt, parts)
       /\ log = snd (ProviderRoute.route env backend userPrompt parts)
       /\ ((exists aiError, r = ProviderRoute.aiProviderError aiError)
           \/ exists content d,
                fst (ProviderRoute.route env backend userPrompt parts)
                  = inr content
                /\ content <> []
                /\ recover content = inr d
                /\ r = json (ResultBody d)).
Proof.
  intros r log. unfold r, log, ProviderRoute.POST.
  assert (Hrest :
    let res := match ProviderRoute.buildParts form with
               | inl r => (r, [])
               | inr (userPrompt, parts) =>
                   match ProviderRoute.route env backend userPrompt parts with
                   | (inl aiError, log) =>
                       (ProviderRoute.aiProviderError aiError, log)
                   | (inr [], log) =>
                       (ProviderRoute.aiProviderError
                          (NewError (js "No response from AI")), log)
                   | (inr content, log) =>
                       (match recover content with
                        | inl aiError => ProviderRoute.aiProviderError aiError
                        | inr d => json (ResultBody d)
                        end, log)
                   end
               end in
    (snd res = []
     /\ (fst res = noInput \/ exists fileType, fst res = tooLarge fileType))
    \/ exists userPrompt parts,
         ProviderRoute.buildParts form = inr (userPrompt, parts)
         /\ snd res = snd (ProviderRoute.route env backend userPrompt parts)
         /\ ((exists aiError, fst res = ProviderRoute.aiProviderError aiError)
             \/ exists content d,
                  fst (ProviderRoute.route env backend userPrompt parts)
                    = inr content
                  /\ content <> []
                  /\ recover content = inr d
                  /\ fst res = json (ResultBody d))).
  { destruct (ProviderRoute.buildParts form) as [r0|[userPrompt parts]] eqn:Hparts.
    - left. split; [reflexivity|]. right.
      unfold ProviderRoute.buildParts in Hparts.
      destruct (file form) as [f|]; [|discriminate Hparts].
      destruct (maxSize _ <? _)%Z.
      + injection Hparts as <-. eexists. reflexivity.
      + destruct (startsWith _ _); discriminate Hparts.
    - right. exists userPrompt, parts. split; [reflexivity|].
      destruct (ProviderRoute.route env backend userPrompt parts)
        as [[t|[|c content]] log0]; cbn [fst snd].
      + split; [reflexivity|]. left. eexists. reflexivity.
      + split; [reflexivity|]. left. eexists. reflexivity.
      + split; [reflexivity|].
        destruct (recover (c :: content)) as [t|d] eqn:Hrec.
        * left. eexists. reflexivity.
        * right. exists (c :: content), d.
          repeat split; [discriminate | exact Hrec]. }
  destruct (file form); [exact Hrest|].
  destruct (isSet (code form)); [exact Hrest|].
  left. split; [reflexivity|]. left. reflexivity.
Qed.

(* ================================================================= *)
(** ** The shape of a successful response *)








(** A number too large for a double, a negative zero inside an array
    and a boolean, as the body holds them. *)
Lemma overflowing_number_written_as_null :
  body (fst (GeminiRoute.POST (RT := asciiRuntime) keyedEnv
               (answering (jsq "{'errorExplanation':1e400,'reasoning':[-0],'fixedCode':true}"))
               codeForm))
  = ResultBody (mkResult JNull (JArr [JNum (mkNumber false 0 0)]) (JBool true)).
Proof. vm_compute. reflexivity. Qed.

(** X6 -- The status of a response tells what it carries.  The Gemini
    handler answers with status 200 and a result, or with a status from
    400 to 599 and an error text; the multi-provider handler answers
    with status 200 and a result, or with status 400 or 500 and an
    error text. *)
Theorem status_tells_the_body :
  forall (RT : Runtime) (env : Env) (backendA : GeminiRoute.Backend)
         (backendB : ProviderRoute.Backend) (form : FormData),
    let a := fst (GeminiRoute.POST env backendA form) in
    let b := fst (ProviderRoute.POST env backendB form) in
    ((statusCode a = 200%Z /\ exists d, body a = ResultBody d)
     \/ ((400 <= statusCode a < 600)%Z /\ isErrorResponse a))
    /\ ((statusCode b = 200%Z /\ exists d, body b = ResultBody d)
        \/ ((statusCode b = 400%Z \/ statusCode b = 500%Z)
            /\ isErrorResponse b)).
Proof.
  intros RT env backendA backendB form a b. split.
  - unfold a.
    destruct (gemini_POST_outcome env backendA form)
      as [(_ & [-> | [-> | (ft & ->)]])
         | (genAI & parts & k & _ & _ & _ & _ & _
            & [(text & _ & ->) | (e & _ & ->)])].
    + right. split; [cbn; lia | apply json_error_is_error].
    + right. split; [cbn; lia | apply json_error_is_error].
    + right. split; [cbn; lia | apply json_error_is_error].
    + unfold GeminiRoute.respond.
      destruct text as [|c text];
        [right; split; [cbn; lia | apply json_error_is_error]|].
      destruct (recover (c :: text)) as [t|d].
      * right. split; [cbn; lia | apply json_error_is_error].
      * left. split; [reflexivity | eexists; reflexivity].
    + right. split; [apply geminiErrorResponse_status|].
      apply json_error_is_error.
  - unfold b.
    destruct (provider_POST_outcome env backendB form)
      as [(_ & [-> | (ft & ->)])
         | (up & parts & _ & _
            & [(t & ->) | (content & d & _ & _ & _ & ->)])].
    + right. split; [left; reflexivity | apply json_error_is_error].
    + right. split; [left; reflexivity | apply json_error_is_error].
    + right. split; [right; reflexivity | apply json_error_is_error].
    + left. split; [reflexivity | eexists; reflexivity].
Qed.

Lemma isDevelopment_true env :
  GeminiRoute.isDevelopment env = true ->
  NODE_ENV env = Some (js "development").
Proof.
  unfold GeminiRoute.isDevelopment.
  destruct (NODE_ENV env) as [s|]; [|discriminate].
  intros H. apply str_eqb_eq in H. rewrite H. reflexivity.
Qed.

(** X7 -- A stack trace leaves the Gemini handler only in development:
    whatever the service does, a response of this handler carries
    details only when NODE_ENV is [development]. *)
Theorem details_only_in_development :
  forall (RT : Runtime) (env : Env) (backend : GeminiRoute.Backend)
         (form : FormData) (text details : jsstring),
    body (fst (GeminiRoute.POST env backend form))
      = ErrorBody text (Some details) ->
    NODE_ENV env = Some (js "development").
Proof.
  intros RT env backend form text details.
  destruct (gemini_POST_outcome env backend form)
    as [(_ & [-> | [-> | (ft & ->)]])
       | (genAI & parts & k & _ & _ & _ & _ & _
          & [(txt & _ & ->) | (e & _ & ->)])].
  - discriminate.
  - discriminate.
  - discriminate.
  - unfold GeminiRoute.respond, GeminiRoute.unexpected.
    destruct txt as [|c txt].
    + cbn [body jsonStatus serializedBody].
      destruct (GeminiRoute.isDevelopment env) eqn:Hdev;
        [intros _; apply isDevelopment_true; exact Hdev | discriminate].
    + destruct (recover (c :: txt)) as [t|d]; [|discriminate].
      cbn [body jsonStatus serializedBody].
      destruct (GeminiRoute.isDevelopment env) eqn:Hdev;
        [intros _; apply isDevelopment_true; exact Hdev | discriminate].
  - unfold GeminiRoute.geminiErrorResponse. cbn [body jsonStatus serializedBody].
    destruct (GeminiRoute.isDevelopment env) eqn:Hdev;
      [intros _; apply isDevelopment_true; exact Hdev | discriminate].
Qed.

(** A failure in development, where the stack of the error shows. *)
Lemma details_only_in_development_witness :
  body (fst (GeminiRoute.POST (RT := asciiRuntime)
               (mkEnv (Some (js "AIzaKey")) None None (Some (js "development"))
                  None None None)
               (fun _ _ => Rejected (mkError (Some (js "boom")) None
                                       (Some (js "Error: boom at route.ts"))))
               codeForm))
  = ErrorBody (js "Gemini API error: boom") (Some (js "Error: boom at route.ts"))
  /\ NODE_ENV (mkEnv (Some (js "AIzaKey")) None None (Some (js "development"))
                 None None None)
     = Some (js "development").
Proof.
  assert (Hbody :
    body (fst (GeminiRoute.POST (RT := asciiRuntime)
                 (mkEnv (Some (js "AIzaKey")) None None
                    (Some (js "development")) None None None)
                 (fun _ _ => Rejected (mkError (Some (js "boom")) None
                                         (Some (js "Error: boom at route.ts"))))
                 codeForm))
    = ErrorBody (js "Gemini API error: boom")
        (Some (js "Error: boom at route.ts")))
    by (vm_compute; reflexivity).
  split; [exact Hbody|].
  exact (details_only_in_development asciiRuntime
           (mkEnv (Some (js "AIzaKey")) None None (Some (js "development"))
              None None None)
           (fun _ _ => Rejected (mkError (Some (js "boom")) None
                                   (Some (js "Error: boom at route.ts"))))
           codeForm _ _ Hbody).
Defined.

(** X8 -- A provider that answers with an empty text is treated as a
    failure.  In the Gemini handler the first model's empty answer
    ends the request with status 500 and the text [No response from
    AI], after that one call; no further model is tried.  In the
    multi-provider handler an Ollama body without a [response] member,
    or with an empty one, ends it with the AI provider error for the
    same text. *)
Theorem empty_answer_is_a_failure :
  forall (RT : Runtime) (env : Env) (backendA : GeminiRoute.Backend)
         (backendB : ProviderRoute.Backend) (form : FormData),
    (forall genAI parts,
       GeminiRoute.getGeminiClient env = inr genAI ->
       hasInput form ->
       GeminiRoute.buildParts form = inr parts ->
       backendA genAI (GeminiRoute.mkCall (js "gemini-1.5-flash") parts)
         = Responded [] ->
       GeminiRoute.POST env backendA form
       = (jsonStatus
            (ErrorBody (js "No response from AI")
               (if GeminiRoute.isDevelopment env
                then engineStack (NewError (js "No response from AI"))
                else None)) 500,
          [GeminiRoute.mkCall (js "gemini-1.5-flash") parts]))
    /\ (forall userPrompt parts content,
          AI_PROVIDER env = Some (js "ollama") ->
          hasInput form ->
          ProviderRoute.buildParts form = inr (userPrompt, parts) ->
          ProviderRoute.fetch backendB
            (ProviderRoute.OllamaGenerate
               (orString (OLLAMA_URL env) (js "http://localhost:11434")
                ++ js "/api/generate")
               (js "llama3.2:3b")
               (ProviderRoute.systemPrompt ++ nl ++ nl ++ userPrompt))
            = ProviderRoute.Ok content ->
          isSet content = false ->
          fst (ProviderRoute.POST env backendB form)
          = ProviderRoute.aiProviderError (NewError (js "No response from AI"))).
Proof.
  intros RT env backendA backendB form. split.
  - intros genAI parts Hclient Hin Hparts Hempty.
    rewrite (POST_after_parts env backendA form genAI parts Hclient Hin Hparts).
    unfold GeminiRoute.dispatch.
    change (List.length GeminiRoute.modelNamesToTry) with 3%nat.
    rewrite (loop_success env backendA genAI GeminiRoute.modelNamesToTry parts
               2 0 0 None [] [] Hempty).
    reflexivity.
  - intros userPrompt parts content Hprov Hin Hparts Hfetch Hcontent.
    rewrite (provider_POST_after_parts env backendB form userPrompt parts
               Hin Hparts).
    unfold ProviderRoute.route, ProviderRoute.getAIProvider.
    cbn [ProviderRoute.provider ProviderRoute.geminiApiKey
         ProviderRoute.ollamaUrl ProviderRoute.groqApiKey].
    rewrite Hprov.
    change (str_eqb (orString (Some (js "ollama")) (js "gemini")) (js "gemini"))
      with false.
    change (str_eqb (orString (Some (js "ollama")) (js "gemini")) (js "ollama"))
      with true.
    cbn [andb]. cbv iota. rewrite Hfetch.
    rewrite (isSet_false_orString content [] Hcontent). reflexivity.
Qed.

(** An empty answer of the first model, and an Ollama body without
    the member. *)
Lemma empty_answer_is_a_failure_witness :
  GeminiRoute.POST (RT := asciiRuntime) keyedEnv (answering []) codeForm
  = (jsonStatus (ErrorBody (js "No response from AI") None) 500,
     [GeminiRoute.mkCall (js "gemini-1.5-flash")
        [Text (GeminiRoute.systemPrompt ++ nl ++ nl
               ++ codeInstruction (js "print(x)"))]])
  /\ fst (ProviderRoute.POST (RT := asciiRuntime) ollamaEnv
            (ProviderRoute.mkBackend (fun _ _ _ => Responded goodAnswer)
               (fun _ => ProviderRoute.Ok None))
            codeForm)
     = ProviderRoute.aiProviderError (RT := asciiRuntime)
         (NewError (js "No response from AI")).
Proof.
  destruct (empty_answer_is_a_failure asciiRuntime keyedEnv (answering [])
              (answeringAll []) codeForm) as [HA _].
  assert (Hpost := HA (js "AIzaSyA-0123456789abcdefghijklmnopqrstuv")
              [Text (GeminiRoute.systemPrompt ++ nl ++ nl
                     ++ codeInstruction (js "print(x)"))]
              eq_refl (or_intror eq_refl) eq_refl eq_refl).
  destruct (empty_answer_is_a_failure asciiRuntime ollamaEnv (answering [])
              (ProviderRoute.mkBackend (fun _ _ _ => Responded goodAnswer)
                 (fun _ => ProviderRoute.Ok None))
              codeForm) as [_ HB].
  split.
  - exact Hpost.
  - apply (HB (codeInstruction (js "print(x)"))
              [Text (ProviderRoute.systemPrompt ++ nl ++ nl
                     ++ codeInstruction (js "print(x)"))] None);
      [ reflexivity | right; vm_compute; reflexivity
      | vm_compute; reflexivity | reflexivity | reflexivity ].
Defined.

(** X9 -- A request to the multi-provider handler costs at most one
    call to a provider, whatever the environment, the form and the
    providers' answers: there is no retry and no second provider. *)
Theorem at_most_one_call :
  forall (RT : Runtime) (env : Env) (backend : ProviderRoute.Backend)
         (form : FormData),
    (List.length (snd (ProviderRoute.POST env backend form)) <= 1)%nat.
Proof.
  intros RT env backend form.
  destruct (provider_POST_outcome env backend form)
    as [(Hlog & _) | (up & parts & _ & Hlog & _)]; rewrite Hlog.
  - simpl. lia.
  - destruct (route_log_cases env backend up parts) as [-> | [call ->]];
      simpl; lia.
Qed.

(** With Ollama selected the routing is one fetch, of the system
    prompt and the user prompt; the parts are not used. *)
Lemma route_ollama {RT : Runtime} env backend userPrompt parts :
  AI_PROVIDER env = Some (js "ollama") ->
  ProviderRoute.route env backend userPrompt parts
  = let request :=
      ProviderRoute.OllamaGenerate
        (orString (OLLAMA_URL env) (js "http://localhost:11434")
         ++ js "/api/generate")
        (js "llama3.2:3b")
        (ProviderRoute.systemPrompt ++ nl ++ nl ++ userPrompt) in
    (match ProviderRoute.fetch backend request with
     | ProviderRoute.FetchThrew e => inl (External e)
     | ProviderRoute.NotOk statusText _ =>
         inl (NewError (js "Ollama API error: " ++ statusText
                        ++ js ". Make sure Ollama is running: https://ollama.ai"))
     | ProviderRoute.Ok content => inr (orString content [])
     end, [ProviderRoute.FetchCall request]).
Proof.
  intros Hprov.
  unfold ProviderRoute.route, ProviderRoute.getAIProvider.
  cbn [ProviderRoute.provider ProviderRoute.geminiApiKey
       ProviderRoute.ollamaUrl ProviderRoute.groqApiKey].
  rewrite Hprov.
  change (str_eqb (orString (Some (js "ollama")) (js "gemini")) (js "gemini"))
    with false.
  change (str_eqb (orString (Some (js "ollama")) (js "gemini")) (js "ollama"))
    with true.
  reflexivity.
Qed.

(** With Groq selected and its key set the routing is one fetch, of
    the two prompts; the parts are not used. *)
Lemma route_groq {RT : Runtime} env backend userPrompt parts key :
  AI_PROVIDER env = Some (js "groq") ->
  GROQ_API_KEY env = Some key ->
  isSet (Some key) = true ->
  ProviderRoute.route env backend userPrompt parts
  = let request :=
      ProviderRoute.GroqChat key (js "llama-3.1-8b-instant")
        ProviderRoute.systemPrompt userPrompt in
    (match ProviderRoute.fetch backend request with
     | ProviderRoute.FetchThrew e => inl (External e)
     | ProviderRoute.NotOk statusText errorMessage =>
         inl (NewError (js "Groq API error: "
                        ++ orString errorMessage statusText))
     | ProviderRoute.Ok content => inr (orString content [])
     end, [ProviderRoute.FetchCall request]).
Proof.
  intros Hprov Hkey Hset.
  unfold ProviderRoute.route, ProviderRoute.getAIProvider.
  cbn [ProviderRoute.provider ProviderRoute.geminiApiKey
       ProviderRoute.ollamaUrl ProviderRoute.groqApiKey].
  rewrite Hprov, Hkey, Hset.
  change (str_eqb (orString (Some (js "groq")) (js "gemini")) (js "gemini"))
    with false.
  change (str_eqb (orString (Some (js "groq")) (js "gemini")) (js "ollama"))
    with false.
  change (str_eqb (orString (Some (js "groq")) (js "gemini")) (js "groq"))
    with true.
  destruct key as [|c r]; [discriminate Hset|]. reflexivity.
Qed.

Lemma imageInstruction_cons :
  exists c rest, imageInstruction = c :: rest.
Proof. do 2 eexists. reflexivity. Qed.

(** What the multi-provider handler builds for an image within its
    limit: the prompt is the instruction for the code when there is
    code, else the instruction for an image. *)
Lemma provider_buildParts_image {RT : Runtime} (f : File) (c : option jsstring) :
  isImage f = true ->
  withinLimit f ->
  let userPrompt :=
    if nonBlank c then codeInstruction (orString c []) else imageInstruction in
  ProviderRoute.buildParts (mkForm (Some f) c)
  = inr (userPrompt,
         inlineParts (Some f)
         ++ [Text (ProviderRoute.systemPrompt ++ nl ++ nl ++ userPrompt)]).
Proof.
  intros Himg Hlimit userPrompt.
  assert (Htest : (maxSize (orString (Some (file_type f))
                              (js "application/octet-stream"))
                   <? Z.of_nat (List.length (file_bytes f)))%Z = false)
    by (apply Z.ltb_ge; exact Hlimit).
  unfold ProviderRoute.buildParts, inlineParts. cbn [file code].
  rewrite Htest. unfold isImage in Himg. rewrite Himg.
  unfold userPrompt. fold (isImage f). unfold isImage. rewrite Himg.
  destruct (nonBlank c).
  - destruct (codeInstruction_cons (orString c [])) as [h [t ->]]. reflexivity.
  - destruct imageInstruction_cons as [h [t ->]]. reflexivity.
Qed.

(** X10 -- With Ollama selected, or Groq selected and its key set, an
    uploaded image never reaches the provider: the request that is
    sent holds the prompts only, so two requests that differ in
    nothing but the image (both images within the limit) are answered
    alike and make the same call. *)
Theorem image_never_reaches_text_providers :
  forall (RT : Runtime) (env : Env) (backend : ProviderRoute.Backend)
         (f1 f2 : File) (c : option jsstring),
    AI_PROVIDER env = Some (js "ollama")
    \/ (AI_PROVIDER env = Some (js "groq")
        /\ isSet (GROQ_API_KEY env) = true) ->
    isImage f1 = true -> withinLimit f1 ->
    isImage f2 = true -> withinLimit f2 ->
    ProviderRoute.POST env backend (mkForm (Some f1) c)
    = ProviderRoute.POST env backend (mkForm (Some f2) c).
Proof.
  intros RT env backend f1 f2 c Hprov Hi1 Hl1 Hi2 Hl2.
  rewrite (provider_POST_after_parts env backend (mkForm (Some f1) c) _ _
             (or_introl (fun H => eq_ind (Some f1)
                                    (fun o => match o with
                                              | Some _ => True
                                              | None => False
                                              end) I None H))
             (provider_buildParts_image f1 c Hi1 Hl1)).
  rewrite (provider_POST_after_parts env backend (mkForm (Some f2) c) _ _
             (or_introl (fun H => eq_ind (Some f2)
                                    (fun o => match o with
                                              | Some _ => True
                                              | None => False
                                              end) I None H))
             (provider_buildParts_image f2 c Hi2 Hl2)).
  destruct Hprov as [Hollama | [Hgroq Hkey]].
  - rewrite !(route_ollama env backend _ _ Hollama). reflexivity.
  - destruct (GROQ_API_KEY env) as [key|] eqn:Hk; [|discriminate Hkey].
    rewrite !(route_groq env backend _ _ key Hgroq Hk Hkey). reflexivity.
Qed.

(** Two different images sent to Ollama. *)
Lemma image_never_reaches_text_providers_witness :
  ProviderRoute.POST (RT := asciiRuntime) ollamaEnv (answeringAll goodAnswer)
    (mkForm (Some pngFile) None)
  = ProviderRoute.POST (RT := asciiRuntime) ollamaEnv (answeringAll goodAnswer)
      (mkForm (Some (mkFile (js "image/jpeg") (js "other.jpg") (bytesOf "JFIF")))
         None).
Proof.
  apply (image_never_reaches_text_providers asciiRuntime ollamaEnv
           (answeringAll goodAnswer) pngFile
           (mkFile (js "image/jpeg") (js "other.jpg") (bytesOf "JFIF")) None);
    [ left; reflexivity | reflexivity | vm_compute; discriminate
    | reflexivity | vm_compute; discriminate ].
Defined.

(** X11 -- A provider name the handler does not know, and Groq
    selected without its key, are not errors: the request is handled
    exactly as with the provider left at its default, Gemini.  The
    response and the calls are the same. *)
Theorem unknown_provider_is_gemini :
  forall (RT : Runtime) (env : Env) (backend : ProviderRoute.Backend)
         (form : FormData),
    let p := orString (AI_PROVIDER env) (js "gemini") in
    str_eqb p (js "ollama") = false ->
    str_eqb p (js "groq") && isSet (GROQ_API_KEY env) = false ->
    ProviderRoute.POST env backend form
    = ProviderRoute.POST (withProvider None env) backend form.
Proof.
  intros RT env backend form p Hollama Hgroq.
  assert (Hroute : forall userPrompt parts,
            ProviderRoute.route env backend userPrompt parts
            = ProviderRoute.route (withProvider None env) backend
                userPrompt parts).
  { intros userPrompt parts.
    unfold ProviderRoute.route, ProviderRoute.getAIProvider, withProvider.
    cbn [ProviderRoute.provider ProviderRoute.geminiApiKey
         ProviderRoute.ollamaUrl ProviderRoute.groqApiKey
         AI_PROVIDER GEMINI_API_KEY OLLAMA_URL GROQ_API_KEY].
    fold p. rewrite Hollama, Hgroq.
    change (str_eqb (orString None (js "gemini")) (js "gemini")) with true.
    change (str_eqb (orString None (js "gemini")) (js "ollama")) with false.
    change (str_eqb (orString None (js "gemini")) (js "groq")) with false.
    cbn [andb].
    unfold ProviderRoute.callGemini, ProviderRoute.getGeminiClient.
    cbn [GEMINI_API_KEY].
    destruct (str_eqb p (js "gemini"));
      destruct (GEMINI_API_KEY env) as [[|c r]|]; reflexivity. }
  unfold ProviderRoute.POST.
  destruct (file form); destruct (isSet (code form)); try reflexivity;
    destruct (ProviderRoute.buildParts form) as [r|[userPrompt parts]];
    try reflexivity; rewrite Hroute; reflexivity.
Qed.

(** A provider name that is not known. *)
Lemma unknown_provider_is_gemini_witness :
  ProviderRoute.POST (RT := asciiRuntime)
    (mkEnv (Some (js "AIzaKey")) None None None (Some (js "openai")) None None)
    (answeringAll goodAnswer) codeForm
  = ProviderRoute.POST (RT := asciiRuntime)
      (mkEnv (Some (js "AIzaKey")) None None None None None None)
      (answeringAll goodAnswer) codeForm.
Proof.
  apply (unknown_provider_is_gemini asciiRuntime
           (mkEnv (Some (js "AIzaKey")) None None None (Some (js "openai"))
              None None)
           (answeringAll goodAnswer) codeForm); reflexivity.
Defined.

(** X12 -- When the routing ends at Gemini and no GEMINI_API_KEY is
    set, a request that passes the checks on the form fails with
    status 500 and the text [No AI provider configured], followed by
    the setup instructions, and no provider is called.  The form is
    checked first: an empty form is turned down with status 400 even
    then. *)
Theorem no_provider_configured :
  forall (RT : Runtime) (env : Env) (backend : ProviderRoute.Backend)
         (form : FormData),
    let p := orString (AI_PROVIDER env) (js "gemini") in
    str_eqb p (js "ollama") = false ->
    str_eqb p (js "groq") && isSet (GROQ_API_KEY env) = false ->
    isSet (GEMINI_API_KEY env) = false ->
    (file form = None -> isSet (code form) = false ->
     ProviderRoute.POST env backend form = (noInput, []))
    /\ (forall userPrompt parts,
          hasInput form ->
          ProviderRoute.buildParts form = inr (userPrompt, parts) ->
          ProviderRoute.POST env backend form
          = (jsonStatus
               (ErrorBody
                  (js "AI Provider Error: No AI provider configured. Please set GEMINI_API_KEY or choose another provider."
                   ++ ProviderRoute.setupInstructions) None) 500,
             [])).
Proof.
  intros RT env backend form p Hollama Hgroq Hkey. split.
  - intros Hf Hc. unfold ProviderRoute.POST. rewrite Hf, Hc. reflexivity.
  - intros userPrompt parts Hin Hparts.
    rewrite (provider_POST_after_parts env backend form userPrompt parts
               Hin Hparts).
    unfold ProviderRoute.route, ProviderRoute.getAIProvider.
    cbn [ProviderRoute.provider ProviderRoute.geminiApiKey
         ProviderRoute.ollamaUrl ProviderRoute.groqApiKey].
    fold p. rewrite Hollama, Hgroq, Hkey, andb_false_r. reflexivity.
Qed.

(** Nothing configured at all. *)
Lemma no_provider_configured_witness :
  ProviderRoute.POST (RT := asciiRuntime) bareEnv (answeringAll goodAnswer)
    codeForm
  = (jsonStatus
       (ErrorBody
          (js "AI Provider Error: No AI provider configured. Please set GEMINI_API_KEY or choose another provider."
           ++ ProviderRoute.setupInstructions) None) 500,
     []).
Proof.
  destruct (no_provider_configured asciiRuntime bareEnv
              (answeringAll goodAnswer) codeForm)
    as [_ H]; [reflexivity | reflexivity | reflexivity |].
  apply (H (codeInstruction (js "print(x)"))
           [Text (ProviderRoute.systemPrompt ++ nl ++ nl
                  ++ codeInstruction (js "print(x)"))]);
    [right; reflexivity | vm_compute; reflexivity].
Defined.

(* ================================================================= *)
(** ** The parts of a prompt *)

Lemma inr_eq (A B : Type) (x y : B) : @inr A B x = inr y -> x = y.
Proof. intros H. injection H as ->. reflexivity. Qed.

(** The parts of the multi-provider handler: the text is left out when
    the user prompt is empty, which needs a form without a file and
    with blank code. *)
Lemma provider_text_part {RT : Runtime} (form : FormData) userPrompt parts :
  ProviderRoute.buildParts form = inr (userPrompt, parts) ->
  parts = inlineParts (file form)
          ++ match userPrompt with
             | [] => []
             | _ => [Text (ProviderRoute.systemPrompt ++ nl ++ nl
                           ++ userPrompt)]
             end
  /\ (userPrompt = []
      <-> file form = None /\ nonBlank (code form) = false).
Proof.
  revert userPrompt parts.
  intros userPrompt parts.
  unfold ProviderRoute.buildParts, inlineParts, isImage.
  destruct (file form) as [f|].
  + destruct (maxSize _ <? _)%Z; [discriminate|].
    destruct (startsWith _ (js "image/")); destruct (nonBlank (code form));
      intros H; injection H as <- <-;
      (split; [reflexivity|]);
      (split; [intros Habs; exfalso; revert Habs
              | intros [Habs _]; discriminate Habs]);
      try (destruct (codeInstruction_cons (orString (code form) []))
             as [h [t ->]]; discriminate);
      try (destruct (codeInstruction_cons (toUtf8 (file_bytes f)))
             as [h [t ->]]; discriminate);
      destruct imageInstruction_cons as [h [t ->]]; discriminate.
  + destruct (nonBlank (code form)) eqn:Hcode;
      intros H; injection H as <- <-.
    * split; [reflexivity|].
      split; [|intros [_ Habs]; discriminate Habs].
      destruct (codeInstruction_cons (orString (code form) []))
        as [h [t ->]]; discriminate.
    * split; [reflexivity|]. split; [intros _; split; reflexivity|].
      reflexivity.
Qed.

(** X13 -- The shape of the parts a handler builds.  In the Gemini
    handler they are the inline data of the upload, present exactly
    when the upload is declared as an image, followed by one text that
    begins with the system prompt and a blank line: the text is always
    there and always last.  In the multi-provider handler the text is
    built the same way from the user prompt, but is left out when the
    user prompt is empty, which is so exactly when there is no upload
    and the code is blank. *)
Theorem parts_shape :
  forall (RT : Runtime) (form : FormData),
    (forall parts,
       GeminiRoute.buildParts form = inr parts ->
       exists rest,
         parts = inlineParts (file form)
                 ++ [Text (GeminiRoute.systemPrompt ++ nl ++ nl ++ rest)])
    /\ (forall userPrompt parts,
          ProviderRoute.buildParts form = inr (userPrompt, parts) ->
          parts = inlineParts (file form)
                  ++ match userPrompt with
                     | [] => []
                     | _ => [Text (ProviderRoute.systemPrompt ++ nl ++ nl
                                   ++ userPrompt)]
                     end
          /\ (userPrompt = []
              <-> file form = None /\ nonBlank (code form) = false)).
Proof.
  intros RT form. split.
  - intros parts. unfold GeminiRoute.buildParts, inlineParts, isImage.
    destruct (file form) as [f|].
    + destruct (maxSize _ <? _)%Z; [discriminate|].
      destruct (startsWith _ (js "image/")); destruct (nonBlank (code form));
        intros H; apply inr_eq in H; subst parts.
      * exists (imageInstruction ++ codeInstruction (orString (code form) [])).
        rewrite <- !app_assoc. reflexivity.
      * exists imageInstruction. rewrite <- !app_assoc. reflexivity.
      * exists (codeInstruction (toUtf8 (file_bytes f))
                ++ codeInstruction (orString (code form) [])).
        rewrite <- !app_assoc. reflexivity.
      * exists (codeInstruction (toUtf8 (file_bytes f))).
        rewrite <- !app_assoc. reflexivity.
    + destruct (nonBlank (code form)); intros H; apply inr_eq in H; subst parts.
      * exists (codeInstruction (orString (code form) [])).
        rewrite <- !app_assoc. reflexivity.
      * exists []. rewrite app_nil_r. reflexivity.
  - intros userPrompt parts. apply provider_text_part.
Qed.

(** A text file with pasted code, in the Gemini handler. *)
Lemma parts_shape_witness :
  exists rest,
    [Text (GeminiRoute.systemPrompt ++ nl ++ nl
           ++ codeInstruction (js "print(y)")
           ++ codeInstruction (js "print(x)"))]
    = inlineParts (RT := asciiRuntime) (Some textFile)
      ++ [Text (GeminiRoute.systemPrompt ++ nl ++ nl ++ rest)].
Proof.
  destruct (parts_shape asciiRuntime
              (mkForm (Some textFile) (Some (js "print(x)")))) as [HA _].
  apply HA. vm_compute. reflexivity.
Defined.

(* ================================================================= *)
(** ** The two patterns and the ways recovery fails *)

Lemma noBrace_tail c s : noBrace (c :: s) = true -> noBrace s = true.
Proof.
  intros H. unfold noBrace in H. cbn [forallb] in H.
  apply andb_true_iff in H. apply H.
Qed.

Lemma noBrace_head c s : noBrace (c :: s) = true -> N.eqb 123 c = false.
Proof.
  intros H. unfold noBrace in H. cbn [forallb] in H.
  apply andb_true_iff in H. destruct H as [H _].
  apply negb_true_iff in H. rewrite N.eqb_sym. exact H.
Qed.

Lemma starClass_fails (A : Type) p s (k : jsstring -> option A) :
  noBrace s = true ->
  (forall s', noBrace s' = true -> k s' = None) ->
  starClass p s k = None.
Proof.
  intros Hs Hk. induction s as [|c s IH]; simpl.
  - apply Hk. exact Hs.
  - rewrite IH by (eapply noBrace_tail; exact Hs).
    rewrite (Hk (c :: s) Hs). destruct (p c); reflexivity.
Qed.

(** On a text without an opening brace a pattern fails as soon as its
    continuation does. *)
Lemma exec_fails (A : Type) r :
  forall cap s (k : option jsstring -> jsstring -> option A),
    noBrace s = true ->
    (forall cap' s', noBrace s' = true -> k cap' s' = None) ->
    exec r cap s k = None.
Proof.
  induction r as [p | a IHa b IHb | a IHa | p | a IHa | ];
    intros cap s k Hs Hk; simpl.
  - destruct s as [|c s]; [reflexivity|].
    destruct (p c); [|reflexivity].
    apply Hk. eapply noBrace_tail; exact Hs.
  - apply IHa; [exact Hs|]. intros cap' s' Hs'. apply IHb; assumption.
  - rewrite (IHa cap s k Hs Hk). apply Hk. exact Hs.
  - apply starClass_fails; [exact Hs|]. intros s' Hs'. apply Hk. exact Hs'.
  - apply IHa; [exact Hs|]. intros cap' s' Hs'. apply Hk. exact Hs'.
  - apply Hk. exact Hs.
Qed.

Lemma exec_braceSpan_fails (A : Type) cap s
    (k : option jsstring -> jsstring -> option A) :
  noBrace s = true -> exec braceSpan cap s k = None.
Proof.
  intros Hs. destruct s as [|c s]; [reflexivity|].
  unfold braceSpan. cbn [exec]. rewrite (noBrace_head c s Hs). reflexivity.
Qed.

(** Neither pattern matches in a text without an opening brace. *)
Lemma strMatch_noBrace s :
  noBrace s = true ->
  strMatch fencedBlock s = None /\ strMatch braceSpan s = None.
Proof.
  intros Hs. induction s as [|c s IH].
  - split; reflexivity.
  - destruct (IH (noBrace_tail c s Hs)) as [IHf IHb].
    split.
    + change (strMatch fencedBlock (c :: s))
        with (match matchAt fencedBlock (c :: s) with
              | Some m => Some m
              | None => strMatch fencedBlock s
              end).
      rewrite IHf.
      replace (matchAt fencedBlock (c :: s)) with (@None MatchResult);
        [reflexivity|].
      symmetry. unfold matchAt, fencedBlock.
      change (exec (RSeq ?a (RSeq ?b (RSeq ?w (RSeq ?g ?t)))) ?cap ?s0 ?k)
        with (exec a cap s0
                (fun c1 s1 => exec b c1 s1
                   (fun c2 s2 => exec w c2 s2
                      (fun c3 s3 => exec g c3 s3
                         (fun c4 s4 => exec t c4 s4 k))))).
      apply exec_fails; [exact Hs|]. intros c1 s1 Hs1.
      apply exec_fails; [exact Hs1|]. intros c2 s2 Hs2.
      apply exec_fails; [exact Hs2|]. intros c3 s3 Hs3.
      change (exec (RGroup braceSpan) c3 s3 ?k)
        with (exec braceSpan c3 s3
                (fun _ s' =>
                   k (Some (firstn (List.length s3 - List.length s') s3)) s')).
      apply exec_braceSpan_fails. exact Hs3.
    + change (strMatch braceSpan (c :: s))
        with (match matchAt braceSpan (c :: s) with
              | Some m => Some m
              | None => strMatch braceSpan s
              end).
      rewrite IHb. unfold matchAt.
      rewrite (exec_braceSpan_fails _ None (c :: s) _ Hs). reflexivity.
Qed.

(** X14 -- An answer without an opening brace never makes the
    recovery fail on a parse: when it is not JSON it becomes the
    explanation of the synthesized result, word for word, and the
    handlers answer with status 200. *)
Theorem prose_without_braces_is_kept :
  forall (RT : Runtime) (env : Env) (content : jsstring),
    noBrace content = true ->
    content <> [] ->
    (forall text, recover content <> inl (SyntaxErrorIn text))
    /\ (JSON_parse content = None ->
        recover content = inr (synthesized content)
        /\ GeminiRoute.respond env content
           = json (ResultBody (synthesized content))).
Proof.
  intros RT env content Hnb Hne.
  destruct (strMatch_noBrace content Hnb) as [Hf Hb].
  destruct content as [|c rest]; [congruence|].
  split.
  - intros text. unfold recover, parseContent.
    destruct (JSON_parse (c :: rest)) as [v|].
    + destruct v; discriminate.
    + rewrite Hf, Hb. discriminate.
  - intros Hparse.
    assert (Hrec : recover (c :: rest) = inr (synthesized (c :: rest)))
      by (apply recover_synthesized; assumption).
    split; [exact Hrec|].
    unfold GeminiRoute.respond. rewrite Hrec. reflexivity.
Qed.

(** The plain text of the specification's example. *)
Lemma prose_without_braces_is_kept_witness :
  recover (js "Hello, your code is fine")
  = inr (synthesized (js "Hello, your code is fine")).
Proof.
  destruct (prose_without_braces_is_kept asciiRuntime keyedEnv
              (js "Hello, your code is fine")) as [_ H];
    [reflexivity | discriminate |].
  apply H. vm_compute. reflexivity.
Defined.

Lemma starClass_sound (A : Type) p s (k : jsstring -> option A) x :
  starClass p s k = Some x ->
  exists pre s', s = pre ++ s' /\ k s' = Some x.
Proof.
  induction s as [|c s IH]; simpl; intros H.
  - exists [], []. split; [reflexivity | exact H].
  - destruct (p c).
    + destruct (starClass p s k) as [y|] eqn:Hstar.
      * injection H as ->.
        destruct (IH eq_refl) as [pre [s' [-> Hk]]].
        exists (c :: pre), s'. split; [reflexivity | exact Hk].
      * exists [], (c :: s). split; [reflexivity | exact H].
    + exists [], (c :: s). split; [reflexivity | exact H].
Qed.

(** A pattern without a group hands its continuation a rest of the
    text and the capture it was given. *)
Lemma exec_groupFree (A : Type) r :
  groupFree r = true ->
  forall cap s (k : option jsstring -> jsstring -> option A) x,
    exec r cap s k = Some x ->
    exists pre s', s = pre ++ s' /\ k cap s' = Some x.
Proof.
  induction r as [p | a IHa b IHb | a IHa | p | a IHa | ];
    intros Hgf cap s k x H; simpl in Hgf; cbn [exec] in H.
  - destruct s as [|c s]; [discriminate H|].
    destruct (p c); [|discriminate H].
    exists [c], s. split; [reflexivity | exact H].
  - apply andb_true_iff in Hgf. destruct Hgf as [Ha Hb].
    destruct (IHa Ha _ _ _ _ H) as [pre1 [s1 [-> H1]]].
    destruct (IHb Hb _ _ _ _ H1) as [pre2 [s2 [-> H2]]].
    exists (pre1 ++ pre2), s2. split; [now rewrite app_assoc | exact H2].
  - destruct (exec a cap s k) as [y|] eqn:Ha.
    + injection H as ->. exact (IHa Hgf _ _ _ _ Ha).
    + exists [], s. split; [reflexivity | exact H].
  - exact (starClass_sound _ p s (k cap) x H).
  - discriminate Hgf.
  - exists [], s. split; [reflexivity | exact H].
Qed.

Lemma firstn_matched (pre rest : jsstring) :
  firstn (List.length (pre ++ rest) - List.length rest) (pre ++ rest) = pre.
Proof.
  rewrite length_app, Nat.add_sub.
  rewrite firstn_app, Nat.sub_diag, firstn_all. simpl. apply app_nil_r.
Qed.

(** A match of the brace span begins with an opening brace and ends
    with a closing one. *)
Lemma exec_braceSpan_sound (A : Type) cap s
    (k : option jsstring -> jsstring -> option A) x :
  exec braceSpan cap s k = Some x ->
  exists pre rest,
    s = (123%N :: pre ++ [125%N]) ++ rest /\ k cap rest = Some x.
Proof.
  unfold braceSpan. cbn [exec]. intros H.
  destruct s as [|c s]; [discriminate H|].
  destruct (N.eqb 123 c) eqn:Hc; [|discriminate H].
  apply N.eqb_eq in Hc. subst c.
  destruct (starClass_sound _ _ _ _ _ H) as [pre [s' [-> Hk]]].
  destruct s' as [|d rest]; [discriminate Hk|].
  destruct (N.eqb 125 d) eqn:Hd; [|discriminate Hk].
  apply N.eqb_eq in Hd. subst d.
  exists pre, rest. split; [|exact Hk].
  simpl. rewrite <- app_assoc. reflexivity.
Qed.

Lemma strMatch_sound r s m :
  strMatch r s = Some m ->
  exists before s0, s = before ++ s0 /\ matchAt r s0 = Some m.
Proof.
  induction s as [|c s IH]; intros H.
  - exists [], []. split; [reflexivity|].
    simpl in H. destruct (matchAt r []); [exact H | discriminate H].
  - change (strMatch r (c :: s))
      with (match matchAt r (c :: s) with
            | Some m => Some m
            | None => strMatch r s
            end) in H.
    destruct (matchAt r (c :: s)) as [m'|] eqn:Hat.
    + exists [], (c :: s). split; [reflexivity|]. rewrite Hat. exact H.
    + destruct (IH H) as [before [s0 [-> Hm]]].
      exists (c :: before), s0. split; [reflexivity | exact Hm].
Qed.

(** What a match of the brace span gives: the span, no group. *)
Lemma strMatch_braceSpan content m :
  strMatch braceSpan content = Some m ->
  exists before pre rest,
    content = before ++ (123%N :: pre ++ [125%N]) ++ rest
    /\ m = mkMatch (123%N :: pre ++ [125%N]) None.
Proof.
  intros H. destruct (strMatch_sound _ _ _ H) as [before [s0 [-> Hat]]].
  unfold matchAt in Hat.
  destruct (exec_braceSpan_sound _ _ _ _ _ Hat) as [pre [rest [-> Hk]]].
  exists before, pre, rest. split; [reflexivity|].
  rewrite firstn_matched in Hk. injection Hk as <-. reflexivity.
Qed.

(** What a match of the fenced block gives: group one is a span from
    an opening brace to a closing one. *)
Lemma strMatch_fencedBlock content m :
  strMatch fencedBlock content = Some m ->
  exists before pre rest,
    content = before ++ (123%N :: pre ++ [125%N]) ++ rest
    /\ match1 m = Some (123%N :: pre ++ [125%N]).
Proof.
  intros H. destruct (strMatch_sound _ _ _ H) as [before [s0 [-> Hat]]].
  unfold matchAt, fencedBlock in Hat.
  change (exec (RSeq ?a (RSeq ?b (RSeq ?w (RSeq ?g ?t)))) ?cap ?s ?k)
    with (exec a cap s
            (fun c1 s1 => exec b c1 s1
               (fun c2 s2 => exec w c2 s2
                  (fun c3 s3 => exec g c3 s3
                     (fun c4 s4 => exec t c4 s4 k))))) in Hat.
  destruct (exec_groupFree _ (RLit (js "```")) eq_refl _ _ _ _ Hat)
    as [p1 [s1 [-> H1]]].
  destruct (exec_groupFree _ (ROpt (RLit (js "json"))) eq_refl _ _ _ _ H1)
    as [p2 [s2 [-> H2]]].
  destruct (exec_groupFree _ (RStar isWhiteSpace) eq_refl _ _ _ _ H2)
    as [p3 [s3 [-> H3]]].
  change (exec (RGroup braceSpan) None s3 ?k)
    with (exec braceSpan None s3
            (fun _ s' =>
               k (Some (firstn (List.length s3 - List.length s') s3)) s'))
    in H3.
  destruct (exec_braceSpan_sound _ _ _ _ _ H3) as [pre [s4 [-> H4]]].
  rewrite firstn_matched in H4.
  destruct (exec_groupFree _ (RSeq (RStar isWhiteSpace) (RLit (js "```")))
              eq_refl _ _ _ _ H4) as [p5 [s5 [-> H5]]].
  injection H5 as <-.
  exists (before ++ p1 ++ p2 ++ p3), pre, (p5 ++ s5).
  split; [|reflexivity].
  rewrite <- !app_assoc. reflexivity.
Qed.

(** *** A text that begins with a brace parses to an object *)

Lemma bottomIsObject_cons f stk :
  stk <> [] -> bottomIsObject (f :: stk) = bottomIsObject stk.
Proof. destruct stk; [congruence|]. destruct f; reflexivity. Qed.

Lemma bottomIsObject_nonempty stk : bottomIsObject stk = true -> stk <> [].
Proof. destruct stk; [discriminate | discriminate]. Qed.

Lemma bottomIsObject_push f stk :
  bottomIsObject stk = true -> bottomIsObject (f :: stk) = true.
Proof.
  intros H. rewrite bottomIsObject_cons; [exact H|].
  apply bottomIsObject_nonempty. exact H.
Qed.

Lemma bottomIsObject_pop f stk :
  bottomIsObject (f :: stk) = true -> stk = [] \/ bottomIsObject stk = true.
Proof.
  destruct stk as [|g stk]; [left; reflexivity|].
  intros H. right. rewrite bottomIsObject_cons in H by discriminate. exact H.
Qed.

Lemma bottomIsObject_swap f g stk :
  stk <> [] -> bottomIsObject (f :: stk) = true ->
  bottomIsObject (g :: stk) = true.
Proof.
  intros Hne H. rewrite bottomIsObject_cons in * by exact Hne. exact H.
Qed.

Lemma stepValue_rooted stk t :
  bottomIsObject stk = true -> objectRooted (stepValue stk t).
Proof.
  intros H. destruct t; simpl; auto.
Qed.

(** A step of the parser keeps the outermost value an object. *)
Lemma step_rooted st t : objectRooted st -> objectRooted (step st t).
Proof.
  destruct st as [stk | stk | stk | done stk | done key stk | v stk | ];
    intros H; cbn [step].
  - apply stepValue_rooted. exact H.
  - destruct t; try (apply stepValue_rooted; apply bottomIsObject_push; exact H).
    right. exact H.
  - destruct t; try exact I.
    + destruct H as [-> | H]; [left; split; [reflexivity | eexists; reflexivity]
                              | right; exact H].
    + exact H.
  - destruct t; try exact I. exact H.
  - destruct t; try exact I.
    cbn [objectRooted].
    destruct H as [-> | H]; [reflexivity | apply bottomIsObject_push; exact H].
  - destruct H as [[-> _] | H]; [exact I|].
    destruct stk as [|[done | done key] stk]; [exact I | |]; destruct t;
      try exact I; cbn [objectRooted].
    + destruct (bottomIsObject_pop _ _ H) as [-> | H'];
        [discriminate H | right; exact H'].
    + destruct stk as [|g stk]; [discriminate H|].
      apply (bottomIsObject_swap (FArr done)); [discriminate | exact H].
    + destruct (bottomIsObject_pop _ _ H) as [-> | H'];
        [left; split; [reflexivity | eexists; reflexivity] | right; exact H'].
    + exact (bottomIsObject_pop _ _ H).
  - exact I.
Qed.

Lemma fold_step_rooted ts st :
  objectRooted st -> objectRooted (fold_left step ts st).
Proof.
  revert st; induction ts as [|t ts IH]; intros st H; [exact H|].
  simpl. apply IH. apply step_rooted. exact H.
Qed.

(** [JSON.parse] on a text that begins with an opening brace gives an
    object or throws. *)
Lemma JSON_parse_brace rest v :
  JSON_parse (123%N :: rest) = Some v -> exists members, v = JObj members.
Proof.
  unfold JSON_parse.
  change (tokenize (123%N :: rest)) with (consToken TLBrace (tokenize rest)).
  destruct (tokenize rest) as [ts|]; [|discriminate].
  cbn [consToken].
  change (fold_left step (TLBrace :: ts) (PValue []))
    with (fold_left step ts (PObjectStart [])).
  pose proof (fold_step_rooted ts (PObjectStart []) (or_introl eq_refl)) as Hinv.
  destruct (fold_left step ts (PObjectStart [])) as [| | | | |v' [|f stk]|];
    try discriminate.
  intros H. injection H as <-.
  destruct Hinv as [[_ Hobj] | Habs]; [exact Hobj | discriminate Habs].
Qed.

(** X15 -- The two ways recovery fails, and no other.  Either the
    whole answer is the JSON text [null], and the first property read
    throws a TypeError; or the answer is not JSON, one of the two
    patterns finds in it a span from an opening brace to a closing
    one, and that span is not JSON either, so that the second
    [JSON.parse] throws.  In particular a span that does parse is an
    object, on which no property read throws. *)
Theorem recovery_failure_modes :
  forall (content : jsstring) (thrown : Thrown),
    recover content = inl thrown ->
    (JSON_parse content = Some JNull
     /\ thrown = TypeErrorNull (js "errorExplanation"))
    \/ (JSON_parse content = None
        /\ exists before pre rest,
             content = before ++ (123%N :: pre ++ [125%N]) ++ rest
             /\ JSON_parse (123%N :: pre ++ [125%N]) = None
             /\ thrown = SyntaxErrorIn (123%N :: pre ++ [125%N])).
Proof.
  intros content thrown. unfold recover, parseContent.
  destruct (JSON_parse content) as [v|] eqn:Hparse.
  - intros H. left. destruct v; try discriminate H.
    injection H as <-. split; reflexivity.
  - intros H. right. split; [reflexivity|].
    assert (Hspan :
      forall m,
        match strMatch fencedBlock content with
        | Some m' => Some m'
        | None => strMatch braceSpan content
        end = Some m ->
        exists before pre rest,
          content = before ++ (123%N :: pre ++ [125%N]) ++ rest
          /\ orString (match1 m) (match0 m) = 123%N :: pre ++ [125%N]).
    { intros m Hm.
      destruct (strMatch fencedBlock content) as [m'|] eqn:Hf.
      - injection Hm as ->.
        destruct (strMatch_fencedBlock content m Hf)
          as [before [pre [rest [Hc H1]]]].
        exists before, pre, rest. split; [exact Hc|]. rewrite H1. reflexivity.
      - destruct (strMatch_braceSpan content m Hm)
          as [before [pre [rest [Hc ->]]]].
        exists before, pre, rest. split; [exact Hc | reflexivity]. }
    destruct (match strMatch fencedBlock content with
              | Some m' => Some m'
              | None => strMatch braceSpan content
              end) as [m|]; [|discriminate H].
    destruct (Hspan m eq_refl) as [before [pre [rest [Hc Htext]]]].
    exists before, pre, rest. split; [exact Hc|].
    rewrite Htext in H.
    destruct (JSON_parse (123%N :: pre ++ [125%N])) as [v|] eqn:Hspanparse.
    + destruct (JSON_parse_brace _ _ Hspanparse) as [members ->].
      discriminate H.
    + injection H as <-. split; reflexivity.
Qed.

(** The answer in prose with a brace pair in it. *)
Lemma recovery_failure_modes_witness :
  exists before pre rest,
    proseAnswer = before ++ (123%N :: pre ++ [125%N]) ++ rest
    /\ JSON_parse (123%N :: pre ++ [125%N]) = None
    /\ SyntaxErrorIn (js "{ i++ }") = SyntaxErrorIn (123%N :: pre ++ [125%N]).
Proof.
  destruct (recovery_failure_modes proseAnswer (SyntaxErrorIn (js "{ i++ }")))
    as [[Hnull _] | [_ H]].
  - vm_compute. reflexivity.
  - vm_compute in Hnull. discriminate Hnull.
  - exact H.
Defined.

(* ================================================================= *)
(** ** The page and the route together *)

(** The code of the form the page builds is absent or not blank. *)
Lemma formData_code (st : Page.State) :
  (code (Page.formData st) = None /\ trim (Page.code st) = [])
  \/ (code (Page.formData st) = Some (Page.code st)
      /\ nonBlank (Some (Page.code st)) = true).
Proof.
  unfold Page.formData. cbn [code].
  destruct (trim (Page.code st)) as [|c r] eqn:Htrim.
  - left. split; reflexivity.
  - right. split; [reflexivity|].
    unfold nonBlank. destruct (Page.code st) as [|c' r'].
    + discriminate Htrim.
    + rewrite Htrim. reflexivity.
Qed.

Lemma handleDebug_sent {RT : Runtime} valueToString server st form :
  snd (Page.handleDebug valueToString server st) = Some form ->
  Page.nothingToSend st = false /\ form = Page.formData st.
Proof.
  unfold Page.handleDebug.
  destruct (Page.nothingToSend st); [discriminate|].
  destruct (Page.exchange valueToString server (Page.formData st));
    cbn [snd]; intros H; injection H as <-; split; reflexivity.
Qed.

(** X16 -- The page never sends a request the route would have to
    turn down as empty, nor one with blank code.  Whenever
    [handleDebug] sends a form, the form holds the selected file or a
    code that is not blank, and holds a code only when it is not blank.
    So on such a form the route's first check passes, its two tests of
    the code agree, and the prompt both handlers build carries an
    instruction after the system prompt. *)
Theorem page_never_sends_blank :
  forall (RT : Runtime) (valueToString : JSValue -> jsstring)
         (server : Page.Server) (st : Page.State) (form : FormData),
    snd (Page.handleDebug valueToString server st) = Some form ->
    file form = Page.file st
    /\ hasInput form
    /\ isSet (code form) = nonBlank (code form)
    /\ (forall parts,
          GeminiRoute.buildParts form = inr parts ->
          exists rest,
            rest <> []
            /\ parts = inlineParts (file form)
                       ++ [Text (GeminiRoute.systemPrompt ++ nl ++ nl ++ rest)])
    /\ (forall userPrompt parts,
          ProviderRoute.buildParts form = inr (userPrompt, parts) ->
          userPrompt <> []).
Proof.
  intros RT valueToString server st form Hsent.
  destruct (handleDebug_sent valueToString server st form Hsent)
    as [Hsome ->].
  assert (Hfile : file (Page.formData st) = Page.file st) by reflexivity.
  assert (Hinput : Page.file st <> None
                   \/ nonBlank (code (Page.formData st)) = true).
  { unfold Page.nothingToSend in Hsome.
    destruct (formData_code st) as [[Hc Ht] | [Hc Hnb]].
    - rewrite Ht in Hsome. left.
      destruct (Page.file st); [discriminate | discriminate Hsome].
    - right. rewrite Hc. exact Hnb. }
  assert (Hagree : isSet (code (Page.formData st))
                   = nonBlank (code (Page.formData st))).
  { destruct (formData_code st) as [[Hc _] | [Hc Hnb]]; rewrite Hc.
    - reflexivity.
    - rewrite Hnb. destruct (Page.code st); [discriminate Hnb | reflexivity]. }
  split; [exact Hfile|]. split.
  { destruct Hinput as [Hf | Hc].
    - left. rewrite Hfile. exact Hf.
    - right. rewrite Hagree. exact Hc. }
  split; [exact Hagree|]. split.
  - intros parts.
    unfold GeminiRoute.buildParts, inlineParts, isImage. rewrite Hfile.
    destruct (Page.file st) as [f|].
    + destruct (maxSize _ <? _)%Z; [discriminate|].
      destruct (startsWith _ (js "image/"));
        destruct (nonBlank (code (Page.formData st)));
        intros H; apply inr_eq in H; subst parts.
      * exists (imageInstruction
                ++ codeInstruction (orString (code (Page.formData st)) [])).
        split; [destruct imageInstruction_cons as [h [t ->]]; discriminate|].
        rewrite <- !app_assoc. reflexivity.
      * exists imageInstruction.
        split; [destruct imageInstruction_cons as [h [t ->]]; discriminate|].
        rewrite <- !app_assoc. reflexivity.
      * exists (codeInstruction (toUtf8 (file_bytes f))
                ++ codeInstruction (orString (code (Page.formData st)) [])).
        split; [destruct (codeInstruction_cons (toUtf8 (file_bytes f)))
                  as [h [t ->]]; discriminate|].
        rewrite <- !app_assoc. reflexivity.
      * exists (codeInstruction (toUtf8 (file_bytes f))).
        split; [destruct (codeInstruction_cons (toUtf8 (file_bytes f)))
                  as [h [t ->]]; discriminate|].
        rewrite <- !app_assoc. reflexivity.
    + destruct Hinput as [Hf | Hc]; [congruence|]. rewrite Hc.
      intros H; apply inr_eq in H; subst parts.
      exists (codeInstruction (orString (code (Page.formData st)) [])).
      split; [destruct (codeInstruction_cons
                          (orString (code (Page.formData st)) []))
                as [h [t ->]]; discriminate|].
      rewrite <- !app_assoc. reflexivity.
  - intros userPrompt parts Hbuild Hempty.
    destruct (provider_text_part (Page.formData st) userPrompt parts Hbuild)
      as [_ [Hiff _]].
    destruct (Hiff Hempty) as [Hnofile Hblank].
    rewrite Hfile in Hnofile.
    destruct Hinput as [Hf | Hc]; congruence.
Qed.

(** Code typed into the page. *)
Lemma page_never_sends_blank_witness :
  snd (Page.handleDebug (RT := asciiRuntime) (fun _ => [])
         (okServer goodAnswer) typedState) = Some codeForm
  /\ hasInput codeForm.
Proof.
  assert (Hsent : snd (Page.handleDebug (RT := asciiRuntime) (fun _ => [])
                         (okServer goodAnswer) typedState) = Some codeForm)
    by (vm_compute; reflexivity).
  split; [exact Hsent|].
  destruct (page_never_sends_blank asciiRuntime (fun _ => [])
              (okServer goodAnswer) typedState codeForm Hsent)
    as [_ [Hin _]].
  exact Hin.
Defined.

(** X17 -- What [handleDebug] leaves behind.  The code, the file and
    the drag flag are never touched.  With nothing to send, no request
    goes out and only the error is set, so a result shown before stays
    on the page.  Otherwise exactly the form of the state is sent, the
    loading flag ends false, and the page ends with a result or with an
    error, never both: a result only when the response has a status
    from 200 to 299, declares JSON, and its body parses, the result
    then being the parsed body. *)
Theorem page_after_debug :
  forall (RT : Runtime) (valueToString : JSValue -> jsstring)
         (server : Page.Server) (st : Page.State),
    let st' := fst (Page.handleDebug valueToString server st) in
    let sent := snd (Page.handleDebug valueToString server st) in
    Page.code st' = Page.code st
    /\ Page.file st' = Page.file st
    /\ Page.isDragging st' = Page.isDragging st
    /\ (Page.nothingToSend st = true ->
        sent = None
        /\ Page.error st' = Some (js "Please provide code or upload a file")
        /\ Page.result st' = Page.result st
        /\ Page.loading st' = Page.loading st)
    /\ (Page.nothingToSend st = false ->
        sent = Some (Page.formData st)
        /\ Page.loading st' = false
        /\ ((Page.error st' = None
             /\ exists response ct,
                  server (Page.formData st) = inr response
                  /\ Page.ok response = true
                  /\ Page.contentType response = Some ct
                  /\ includes ct (js "application/json") = true
                  /\ JSON_parse (Page.bodyText response)
                     = Some (Page.result st'))
            \/ (Page.result st' = JNull
                /\ exists message, Page.error st' = Some message))).
Proof.
  intros RT valueToString server st st' sent.
  unfold st', sent, Page.handleDebug.
  destruct (Page.nothingToSend st) eqn:Hnothing.
  - cbn [fst snd].
    split; [reflexivity|]. split; [reflexivity|]. split; [reflexivity|].
    split; [intros _; repeat split | intros H; discriminate H].
  - destruct (Page.exchange valueToString server (Page.formData st))
      as [message|data] eqn:Hex; cbn [fst snd Page.code Page.file
        Page.isDragging Page.loading Page.result Page.error];
      (split; [reflexivity|]); (split; [reflexivity|]);
      (split; [reflexivity|]); (split; [intros H; discriminate H|]);
      intros _; (split; [reflexivity|]); (split; [reflexivity|]).
    + right. split; [reflexivity|]. exists message. reflexivity.
    + left. split; [reflexivity|].
      unfold Page.exchange in Hex.
      destruct (server (Page.formData st)) as [[m|]|response] eqn:Hserver;
        try discriminate Hex.
      destruct (Page.contentType response) as [ct|] eqn:Hct.
      * destruct (Page.ok response) eqn:Hok;
          destruct (includes ct (js "application/json")) eqn:Hjson;
          cbn [negb] in Hex; try discriminate Hex.
        -- destruct (JSON_parse (Page.bodyText response)) as [d|] eqn:Hp;
             [|discriminate Hex].
           apply inr_eq in Hex. subst d.
           exists response, ct.
           split; [reflexivity|]. split; [exact Hok|].
           split; [exact Hct|]. split; [exact Hjson | exact Hp].
        -- destruct (JSON_parse (Page.bodyText response)) as [errorData|];
             [|discriminate Hex].
           destruct (getProp errorData (js "error")) as [t|v];
             [discriminate Hex|].
           destruct (orElse v (JStr (js "Failed to debug code")));
             discriminate Hex.
      * destruct (Page.ok response); cbn [negb] in Hex; discriminate Hex.
Qed.

(** A response with status 200 and a JSON body. *)
Lemma page_after_debug_witness :
  Page.result (fst (Page.handleDebug (RT := asciiRuntime) (fun _ => [])
                      (okServer goodAnswer) typedState))
  = JObj [ (js "errorExplanation", JStr (js "x is undefined"));
           (js "reasoning", JStr (js "x was never assigned"));
           (js "fixedCode", JStr (js "x = 1")) ]
  /\ Page.loading (fst (Page.handleDebug (RT := asciiRuntime) (fun _ => [])
                          (okServer goodAnswer) typedState)) = false.
Proof.
  destruct (page_after_debug asciiRuntime (fun _ => []) (okServer goodAnswer)
              typedState) as (_ & _ & _ & _ & Hsent).
  destruct Hsent as (_ & Hloading & _); [vm_compute; reflexivity|].
  split; [vm_compute; reflexivity | exact Hloading].
Defined.

(** X18 -- A click on the button when it is enabled always sends a
    request: the button is disabled in every state in which
    [handleDebug] would return without sending, so that early return
    is not reached from the button.  And once a file is chosen or
    dropped, there is something to send whatever the code: the first
    file of the event is the one that goes out, and the error shown is
    cleared. *)
Theorem enabled_button_sends :
  forall (RT : Runtime) (valueToString : JSValue -> jsstring)
         (server : Page.Server) (st : Page.State),
    (Page.buttonDisabled st = false ->
     snd (Page.handleDebug valueToString server st)
     = Some (Page.formData st))
    /\ (forall f others,
          let chosen := Page.handleFileChange (f :: others) st in
          let dropped := Page.handleDrop (f :: others) st in
          Page.error chosen = None
          /\ Page.error dropped = None
          /\ Page.isDragging dropped = false
          /\ file (Page.formData chosen) = Some f
          /\ Page.formData dropped = Page.formData chosen
          /\ snd (Page.handleDebug valueToString server chosen)
             = Some (Page.formData chosen)).
Proof.
  intros RT valueToString server st. split.
  - unfold Page.buttonDisabled. intros H.
    apply orb_false_iff in H. destruct H as [_ Hnothing].
    unfold Page.handleDebug. rewrite Hnothing.
    destruct (Page.exchange valueToString server (Page.formData st));
      reflexivity.
  - intros f others chosen dropped.
    repeat split; try reflexivity.
    unfold Page.handleDebug.
    assert (Hnothing : Page.nothingToSend chosen = false).
    { unfold Page.nothingToSend, chosen. cbn [Page.handleFileChange
        Page.setError Page.setFile Page.file Page.code].
      destruct (trim (Page.code st)); reflexivity. }
    rewrite Hnothing.
    destruct (Page.exchange valueToString server (Page.formData chosen));
      reflexivity.
Qed.

(** The button on a page with code typed in. *)
Lemma enabled_button_sends_witness :
  snd (Page.handleDebug (RT := asciiRuntime) (fun _ => [])
         (okServer goodAnswer) typedState)
  = Some (Page.formData typedState).
Proof.
  destruct (enabled_button_sends asciiRuntime (fun _ => [])
              (okServer goodAnswer) typedState) as [H _].
  apply H. vm_compute. reflexivity.
Defined.

(* ================================================================= *)
(** ** From the request to the result *)

(** Recovery on an object with truthy values under the three keys. *)
Lemma recover_three_keys content members a b c :
  JSON_parse content = Some (JObj members) ->
  lookup (js "errorExplanation") members = Some a ->
  lookup (js "reasoning") members = Some b ->
  lookup (js "fixedCode") members = Some c ->
  truthy a = true -> truthy b = true -> truthy c = true ->
  recover content = inr (mkResult a b c).
Proof.
  intros Hparse Ha Hb Hc Ta Tb Tc.
  unfold recover. rewrite (parseContent_parsed content _ Hparse).
  rewrite debugResult_object. unfold spec_resolve, spec_firstPresent.
  rewrite Ha, Hb, Hc, Ta, Tb, Tc. reflexivity.
Qed.

(** X19 -- A request that goes well, end to end.  When the first
    model answers with a JSON object that holds truthy values under
    the three keys, the Gemini handler answers after that one call with
    status 200 and these three values as JSON.stringify writes them:
    unchanged where they are strings.  The multi-provider handler does
    the same with Ollama selected, for the [response] member of
    Ollama's body, and needs no key for it. *)
Theorem canonical_answer_end_to_end :
  forall (RT : Runtime) (env : Env) (backendA : GeminiRoute.Backend)
         (backendB : ProviderRoute.Backend) (form : FormData)
         (content : jsstring) (members : list (jsstring * JSValue))
         (a b c : JSValue),
    content <> [] ->
    JSON_parse content = Some (JObj members) ->
    lookup (js "errorExplanation") members = Some a ->
    lookup (js "reasoning") members = Some b ->
    lookup (js "fixedCode") members = Some c ->
    truthy a = true -> truthy b = true -> truthy c = true ->
    hasInput form ->
    let written := mkResult (serialized a) (serialized b) (serialized c) in
    (forall genAI parts,
       GeminiRoute.getGeminiClient env = inr genAI ->
       GeminiRoute.buildParts form = inr parts ->
       backendA genAI (GeminiRoute.mkCall (js "gemini-1.5-flash") parts)
         = Responded content ->
       GeminiRoute.POST env backendA form
       = (mkResponse (ResultBody written) 200,
          [GeminiRoute.mkCall (js "gemini-1.5-flash") parts]))
    /\ (forall userPrompt parts,
          AI_PROVIDER env = Some (js "ollama") ->
          ProviderRoute.buildParts form = inr (userPrompt, parts) ->
          let request :=
            ProviderRoute.OllamaGenerate
              (orString (OLLAMA_URL env) (js "http://localhost:11434")
               ++ js "/api/generate")
              (js "llama3.2:3b")
              (ProviderRoute.systemPrompt ++ nl ++ nl ++ userPrompt) in
          ProviderRoute.fetch backendB request = ProviderRoute.Ok (Some content) ->
          ProviderRoute.POST env backendB form
          = (mkResponse (ResultBody written) 200,
             [ProviderRoute.FetchCall request]))
    /\ (isString a -> isString b -> isString c -> written = mkResult a b c).
Proof.
  intros RT env backendA backendB form content members a b c
         Hne Hparse Ha Hb Hc Ta Tb Tc Hin written.
  assert (Hrec : recover content = inr (mkResult a b c))
    by (apply (recover_three_keys content members a b c); assumption).
  destruct content as [|h t]; [congruence|].
  split; [|split].
  - intros genAI parts Hclient Hparts Hcall.
    rewrite (POST_after_parts env backendA form genAI parts Hclient Hin Hparts).
    unfold GeminiRoute.dispatch.
    change (List.length GeminiRoute.modelNamesToTry) with 3%nat.
    rewrite (loop_success env backendA genAI GeminiRoute.modelNamesToTry parts
               2 0 0 None [] (h :: t) Hcall).
    unfold GeminiRoute.respond. rewrite Hrec. reflexivity.
  - intros userPrompt parts Hprov Hparts request Hfetch.
    rewrite (provider_POST_after_parts env backendB form userPrompt parts
               Hin Hparts).
    rewrite (route_ollama env backendB userPrompt parts Hprov).
    cbv zeta. fold request. rewrite Hfetch.
    cbn [orString]. rewrite Hrec. reflexivity.
  - intros [x ->] [y ->] [z ->]. reflexivity.
Qed.

(** The answer the prompt asks for, from the first model and from
    Ollama. *)
Lemma canonical_answer_end_to_end_witness :
  GeminiRoute.POST (RT := asciiRuntime) keyedEnv (answering goodAnswer) codeForm
  = (mkResponse
       (ResultBody (mkResult (JStr (js "x is undefined"))
                      (JStr (js "x was never assigned"))
                      (JStr (js "x = 1")))) 200,
     [GeminiRoute.mkCall (js "gemini-1.5-flash")
        [Text (GeminiRoute.systemPrompt ++ nl ++ nl
               ++ codeInstruction (js "print(x)"))]]).
Proof.
  destruct (canonical_answer_end_to_end asciiRuntime keyedEnv
              (answering goodAnswer) (answeringAll goodAnswer) codeForm
              goodAnswer
              [ (js "errorExplanation", JStr (js "x is undefined"));
                (js "reasoning", JStr (js "x was never assigned"));
                (js "fixedCode", JStr (js "x = 1")) ]
              (JStr (js "x is undefined")) (JStr (js "x was never assigned"))
              (JStr (js "x = 1")))
    as [HA _];
    [ discriminate
    | vm_compute; reflexivity | vm_compute; reflexivity
    | vm_compute; reflexivity | vm_compute; reflexivity
    | reflexivity | reflexivity | reflexivity
    | right; reflexivity | ].
  apply (HA (js "AIzaSyA-0123456789abcdefghijklmnopqrstuv"));
    vm_compute; reflexivity.
Defined.

(* ================================================================= *)
(** ** Answers that wrap the JSON object *)

Lemma lacks_app c a b : lacks c (a ++ b) = lacks c a && lacks c b.
Proof. unfold lacks. apply forallb_app. Qed.

Lemma lacks_cons c x s : lacks c (x :: s) = negb (N.eqb x c) && lacks c s.
Proof. reflexivity. Qed.

(** Where the pattern matches at none of the positions of [pre], the
    search goes on behind [pre]. *)
Lemma strMatch_skip r pre s :
  (forall c t, In c pre -> matchAt r (c :: t) = None) ->
  strMatch r (pre ++ s) = strMatch r s.
Proof.
  induction pre as [|c pre IH]; intros Hfail; [reflexivity|].
  change (strMatch r ((c :: pre) ++ s))
    with (match matchAt r (c :: pre ++ s) with
          | Some m => Some m
          | None => strMatch r (pre ++ s)
          end).
  rewrite (Hfail c (pre ++ s) (or_introl eq_refl)).
  apply IH. intros d t Hd. apply Hfail. right. exact Hd.
Qed.

Lemma strMatch_here r c s m :
  matchAt r (c :: s) = Some m -> strMatch r (c :: s) = Some m.
Proof.
  intros H.
  change (strMatch r (c :: s))
    with (match matchAt r (c :: s) with
          | Some m => Some m
          | None => strMatch r s
          end).
  rewrite H. reflexivity.
Qed.

Lemma matchAt_braceSpan_head c t :
  N.eqb c 123 = false -> matchAt braceSpan (c :: t) = None.
Proof.
  intros H. unfold matchAt, braceSpan. cbn [exec].
  rewrite N.eqb_sym, H. reflexivity.
Qed.

Lemma matchAt_fencedBlock_head c t :
  N.eqb c 96 = false -> matchAt fencedBlock (c :: t) = None.
Proof.
  intros H. unfold matchAt, fencedBlock.
  change (RLit (js "```"))
    with (RSeq (RClass (N.eqb 96)) (RLit (js "``"))).
  cbn [exec]. rewrite N.eqb_sym, H. reflexivity.
Qed.

Lemma lacks_In c s x : lacks c s = true -> In x s -> N.eqb x c = false.
Proof.
  unfold lacks. intros H Hin. rewrite forallb_forall in H.
  apply negb_true_iff. apply H. exact Hin.
Qed.

(** In a text without a backtick the fenced block is not found. *)
Lemma strMatch_fencedBlock_lacks s :
  lacks 96 s = true -> strMatch fencedBlock s = None.
Proof.
  intros H. rewrite <- (app_nil_r s).
  rewrite strMatch_skip; [reflexivity|].
  intros c t Hc. apply matchAt_fencedBlock_head.
  exact (lacks_In 96 s c H Hc).
Qed.

Lemma starClass_skip (A : Type) p ws c rest (k : jsstring -> option A) x :
  forallb p ws = true -> p c = false -> k (c :: rest) = Some x ->
  starClass p (ws ++ c :: rest) k = Some x.
Proof.
  intros Hws Hc Hk. induction ws as [|w ws IH].
  - simpl. rewrite Hc. exact Hk.
  - simpl in Hws. apply andb_true_iff in Hws. destruct Hws as [Hw Hws].
    simpl. rewrite Hw, (IH Hws). reflexivity.
Qed.

Lemma starClass_any_none (A : Type) s (k : jsstring -> option A) :
  (forall pre b, s = pre ++ b -> k b = None) ->
  starClass anyChar s k = None.
Proof.
  induction s as [|c s IH]; intros Hk.
  - simpl. apply (Hk [] []). reflexivity.
  - simpl. rewrite IH.
    + apply (Hk [] (c :: s)). reflexivity.
    + intros pre b ->. apply (Hk (c :: pre) b). reflexivity.
Qed.

(** The greedy star gives back code units until the continuation
    succeeds: the split it ends on is the last one that works. *)
Lemma starClass_any_pick (A : Type) a b (k : jsstring -> option A) x :
  k b = Some x ->
  (forall d pre b', b = d :: pre ++ b' -> k b' = None) ->
  starClass anyChar (a ++ b) k = Some x.
Proof.
  intros Hk Hlater. induction a as [|c a IH].
  - destruct b as [|d b]; [exact Hk|].
    simpl. rewrite starClass_any_none; [exact Hk|].
    intros pre b' ->. apply (Hlater d pre b'). reflexivity.
  - simpl. rewrite IH. reflexivity.
Qed.

Lemma exec_RLit (A : Type) l cap s
    (k : option jsstring -> jsstring -> option A) :
  exec (RLit l) cap (l ++ s) k = k cap s.
Proof.
  induction l as [|c l IH]; [reflexivity|].
  cbn [RLit exec app]. rewrite N.eqb_refl. exact IH.
Qed.

Lemma exec_ROpt_eq (A : Type) a cap s
    (k : option jsstring -> jsstring -> option A) :
  exec (ROpt a) cap s k
  = match exec a cap s k with
    | Some x => Some x
    | None => k cap s
    end.
Proof. reflexivity. Qed.

Lemma exec_RLit_head_fails (A : Type) c l cap s
    (k : option jsstring -> jsstring -> option A) :
  match s with
  | [] => True
  | d :: _ => N.eqb c d = false
  end ->
  exec (RLit (c :: l)) cap s k = None.
Proof.
  intros H. cbn [RLit exec]. destruct s as [|d s]; [reflexivity|].
  rewrite H. reflexivity.
Qed.

Lemma firstn_span (mid rest : jsstring) :
  firstn (List.length (123%N :: mid ++ 125%N :: rest) - List.length rest)
    (123%N :: mid ++ 125%N :: rest)
  = 123%N :: mid ++ [125%N].
Proof.
  replace (123%N :: mid ++ 125%N :: rest)
    with ((123%N :: mid ++ [125%N]) ++ rest)
    by (simpl; rewrite <- app_assoc; reflexivity).
  apply firstn_matched.
Qed.

(** The brace span on a text that begins with an opening brace and
    has its last closing brace before [rest]. *)
Lemma exec_braceSpan_pick (A : Type) cap mid rest
    (k : option jsstring -> jsstring -> option A) x :
  lacks 125 rest = true ->
  k cap rest = Some x ->
  exec braceSpan cap (123%N :: mid ++ 125%N :: rest) k = Some x.
Proof.
  intros Hrest Hk. unfold braceSpan. cbn [exec].
  rewrite N.eqb_refl.
  apply starClass_any_pick.
  - rewrite N.eqb_refl. exact Hk.
  - intros d pre b' Heq. injection Heq as _ Heq.
    destruct b' as [|e b']; [reflexivity|].
    assert (He : N.eqb e 125 = false).
    { apply (lacks_In 125 rest e Hrest). rewrite Heq.
      apply in_or_app. right. left. reflexivity. }
    rewrite N.eqb_sym, He. reflexivity.
Qed.

Lemma allWhiteSpace_lacks c ws :
  isWhiteSpace c = false -> allWhiteSpace ws = true -> lacks c ws = true.
Proof.
  intros Hc Hws. unfold lacks, allWhiteSpace in *.
  rewrite forallb_forall in *. intros x Hx. apply negb_true_iff.
  destruct (N.eqb x c) eqn:Hxc; [|reflexivity].
  apply N.eqb_eq in Hxc. subst x. rewrite (Hws c Hx) in Hc. discriminate Hc.
Qed.

(** The fenced block, matched at the start of a fence as an answer
    holds it. *)
Lemma matchAt_fence tag ws1 mid ws2 post :
  tag = [] \/ tag = js "json" ->
  allWhiteSpace ws1 = true ->
  allWhiteSpace ws2 = true ->
  lacks 125 post = true ->
  let span := 123%N :: mid ++ [125%N] in
  matchAt fencedBlock
    (js "```" ++ tag ++ ws1 ++ span ++ ws2 ++ js "```" ++ post)
  = Some (mkMatch (js "```" ++ tag ++ ws1 ++ span ++ ws2 ++ js "```")
            (Some span)).
Proof.
  intros Htag Hws1 Hws2 Hpost span.
  set (whole := js "```" ++ tag ++ ws1 ++ span ++ ws2 ++ js "```" ++ post).
  assert (Hwhole : whole
                   = (js "```" ++ tag ++ ws1 ++ span ++ ws2 ++ js "```") ++ post)
    by (unfold whole; rewrite <- !app_assoc; reflexivity).
  unfold matchAt, fencedBlock.
  change (exec (RSeq ?a (RSeq ?b (RSeq ?w (RSeq ?g ?t)))) ?cap ?s ?k)
    with (exec a cap s
            (fun c1 s1 => exec b c1 s1
               (fun c2 s2 => exec w c2 s2
                  (fun c3 s3 => exec g c3 s3
                     (fun c4 s4 => exec t c4 s4 k))))).
  unfold whole at 1. rewrite exec_RLit.
  (* what follows the optional tag *)
  assert (Hrest :
    exec (RStar isWhiteSpace) None (ws1 ++ span ++ ws2 ++ js "```" ++ post)
      (fun c3 s3 => exec (RGroup braceSpan) c3 s3
         (fun c4 s4 =>
            exec (RSeq (RStar isWhiteSpace) (RLit (js "```"))) c4 s4
              (fun cap s' =>
                 Some (mkMatch
                         (firstn (List.length whole - List.length s') whole)
                         cap))))
    = Some (mkMatch (js "```" ++ tag ++ ws1 ++ span ++ ws2 ++ js "```")
              (Some span))).
  { cbn [exec].
    change (span ++ ws2 ++ js "```" ++ post)
      with (123%N :: (mid ++ [125%N]) ++ ws2 ++ js "```" ++ post).
    apply starClass_skip; [exact Hws1 | reflexivity|].
    replace (123%N :: (mid ++ [125%N]) ++ ws2 ++ js "```" ++ post)
      with (123%N :: mid ++ 125%N :: (ws2 ++ js "```" ++ post))
      by (rewrite <- app_assoc; reflexivity).
    apply exec_braceSpan_pick.
    - rewrite lacks_app, (allWhiteSpace_lacks 125 ws2 eq_refl Hws2).
      change (js "```" ++ post) with (96%N :: 96%N :: 96%N :: post).
      rewrite !lacks_cons, Hpost. reflexivity.
    - rewrite firstn_span.
      change (js "```" ++ post) with (96%N :: js "``" ++ post).
      apply starClass_skip; [exact Hws2 | reflexivity|].
      change (96%N :: js "``" ++ post) with (js "```" ++ post).
      rewrite exec_RLit. rewrite Hwhole, firstn_matched. reflexivity. }
  rewrite exec_ROpt_eq.
  destruct Htag as [-> | ->].
  - (* no tag: the optional group fails on the first code unit *)
    cbn [app].
    change (js "json") with (106%N :: js "son").
    rewrite exec_RLit_head_fails; [cbv beta; exact Hrest|].
    destruct ws1 as [|w ws1]; [reflexivity|].
    cbn [app]. simpl in Hws1. apply andb_true_iff in Hws1.
    destruct Hws1 as [Hw _].
    destruct (N.eqb 106 w) eqn:Hj; [|reflexivity].
    apply N.eqb_eq in Hj. subst w. discriminate Hw.
  - rewrite exec_RLit. rewrite Hrest. reflexivity.
Qed.

(** X20 -- An answer that wraps its JSON object in a markdown fence is
    recovered from the fence.  Let the answer be some text without a
    backtick, then three backticks, optionally [json], white space, a
    span from an opening to a closing brace, white space, three
    backticks, and a rest without a closing brace.  When the answer as
    a whole is not JSON, the candidate is what the span parses to, and
    a span that does not parse makes the recovery throw; the fields of
    the result are then read from what the span parses to. *)
Theorem fenced_answer_is_recovered :
  forall (pre tag ws1 mid ws2 post : jsstring),
    lacks 96 pre = true ->
    tag = [] \/ tag = js "json" ->
    allWhiteSpace ws1 = true ->
    allWhiteSpace ws2 = true ->
    lacks 125 post = true ->
    let span := 123%N :: mid ++ [125%N] in
    let content :=
      pre ++ js "```" ++ tag ++ ws1 ++ span ++ ws2 ++ js "```" ++ post in
    JSON_parse content = None ->
    strMatch fencedBlock content
    = Some (mkMatch (js "```" ++ tag ++ ws1 ++ span ++ ws2 ++ js "```")
              (Some span))
    /\ parseContent content
       = match JSON_parse span with
         | Some v => inr v
         | None => inl (SyntaxErrorIn span)
         end
    /\ (forall v,
          JSON_parse span = Some v ->
          recover content = debugResult v).
Proof.
  intros pre tag ws1 mid ws2 post Hpre Htag Hws1 Hws2 Hpost span content
         Hparse.
  assert (Hmatch : strMatch fencedBlock content
                   = Some (mkMatch
                             (js "```" ++ tag ++ ws1 ++ span ++ ws2 ++ js "```")
                             (Some span))).
  { unfold content. rewrite strMatch_skip.
    - change (js "```" ++ tag ++ ws1 ++ span ++ ws2 ++ js "```" ++ post)
        with (96%N :: js "``" ++ tag ++ ws1 ++ span ++ ws2 ++ js "```" ++ post).
      apply strMatch_here.
      exact (matchAt_fence tag ws1 mid ws2 post Htag Hws1 Hws2 Hpost).
    - intros c t Hc. apply matchAt_fencedBlock_head.
      exact (lacks_In 96 pre c Hpre Hc). }
  assert (Hcand : parseContent content
                  = match JSON_parse span with
                    | Some v => inr v
                    | None => inl (SyntaxErrorIn span)
                    end).
  { unfold parseContent. rewrite Hparse, Hmatch. reflexivity. }
  split; [exact Hmatch|]. split; [exact Hcand|].
  intros v Hspan. unfold recover. rewrite Hcand, Hspan. reflexivity.
Qed.

(** A fenced object after a line of prose. *)
Lemma fenced_answer_is_recovered_witness :
  recover (js "here you go:
" ++ js "```" ++ js "json" ++ nl
           ++ (123%N :: jsq "'errorExplanation':'A','reasoning':'B','fixedCode':'C'"
                 ++ [125%N])
           ++ nl ++ js "```" ++ [])
  = inr (mkResult (JStr (js "A")) (JStr (js "B")) (JStr (js "C"))).
Proof.
  destruct (fenced_answer_is_recovered (js "here you go:
") (js "json") nl
              (jsq "'errorExplanation':'A','reasoning':'B','fixedCode':'C'")
              nl [])
    as [_ [_ H]];
    [ reflexivity | right; reflexivity | reflexivity | reflexivity
    | reflexivity | vm_compute; reflexivity | ].
  rewrite (H (JObj [ (js "errorExplanation", JStr (js "A"));
                     (js "reasoning", JStr (js "B"));
                     (js "fixedCode", JStr (js "C")) ]));
    vm_compute; reflexivity.
Defined.

(** X21 -- An answer that puts its JSON object between words is
    recovered from the first opening brace to the last closing one.
    Let the answer hold no backtick, and be a text without an opening
    brace, a span from an opening to a closing brace, and a text
    without a closing brace.  When the answer as a whole is not JSON,
    the candidate is what the span parses to, and a span that does not
    parse makes the recovery throw. *)
Theorem braced_answer_is_recovered :
  forall (pre mid post : jsstring),
    lacks 123 pre = true ->
    lacks 125 post = true ->
    let span := 123%N :: mid ++ [125%N] in
    let content := pre ++ span ++ post in
    lacks 96 content = true ->
    JSON_parse content = None ->
    strMatch braceSpan content = Some (mkMatch span None)
    /\ parseContent content
       = match JSON_parse span with
         | Some v => inr v
         | None => inl (SyntaxErrorIn span)
         end
    /\ (forall v,
          JSON_parse span = Some v ->
          recover content = debugResult v).
Proof.
  intros pre mid post Hpre Hpost span content Hticks Hparse.
  assert (Hmatch : strMatch braceSpan content = Some (mkMatch span None)).
  { unfold content. rewrite strMatch_skip.
    - unfold span. cbn [app]. apply strMatch_here.
      unfold matchAt.
      replace ((mid ++ [125%N]) ++ post) with (mid ++ 125%N :: post)
        by (rewrite <- app_assoc; reflexivity).
      apply exec_braceSpan_pick; [exact Hpost|].
      rewrite firstn_span. reflexivity.
    - intros c t Hc. apply matchAt_braceSpan_head.
      exact (lacks_In 123 pre c Hpre Hc). }
  assert (Hcand : parseContent content
                  = match JSON_parse span with
                    | Some v => inr v
                    | None => inl (SyntaxErrorIn span)
                    end).
  { unfold parseContent.
    rewrite Hparse, (strMatch_fencedBlock_lacks content Hticks), Hmatch.
    reflexivity. }
  split; [exact Hmatch|]. split; [exact Hcand|].
  intros v Hspan. unfold recover. rewrite Hcand, Hspan. reflexivity.
Qed.

(** An object between two sentences. *)
Lemma braced_answer_is_recovered_witness :
  recover (js "Sure! " ++ (123%N :: jsq "'explanation':'X'" ++ [125%N])
           ++ js " Hope it helps.")
  = inr (mkResult (JStr (js "X")) (JStr noReasoning) (JStr noFixedCode)).
Proof.
  destruct (braced_answer_is_recovered (js "Sure! ") (jsq "'explanation':'X'")
              (js " Hope it helps."))
    as [_ [_ H]];
    [ reflexivity | reflexivity | reflexivity | vm_compute; reflexivity | ].
  rewrite (H (JObj [ (js "explanation", JStr (js "X")) ]));
    vm_compute; reflexivity.
Defined.
